(** * Table configuration codec and write path of
    [src/clustering/administration/tables/table_config.cc]

    A shallow embedding of the shard codec
    ([convert_table_config_shard_to_datum],
    [convert_table_config_shard_from_datum]), of the table-level decoder
    ([convert_table_config_and_name_from_datum]), of [format_row] and of
    [table_config_artificial_table_backend_t::write_row], followed by the
    properties the specification states about them. *)

From Stdlib Require Import NArith ZArith String.
From stdpp Require Import base option list strings gmap sets sorting.

Open Scope string_scope.
Open Scope list_scope.
Set Warnings "-register-all,-clear-no-such-hyp".

(** ** Identifiers *)

(** [uuid_u] is a 128-bit value; [server_id_t], [namespace_id_t] and
    [database_id_t] are all typedefs of it.  No arithmetic is done on it:
    only equality and the ordering used by [std::set] and [std::map]. *)
Abbreviation uuid_u := N (only parsing).
Abbreviation server_id_t := N (only parsing).
Abbreviation namespace_id_t := N (only parsing).
Abbreviation database_id_t := N (only parsing).
Abbreviation name_string_t := string (only parsing).

Definition nil_uuid : uuid_u := 0%N.

(** ** Documents: [ql::datum_t] *)

(** An initialised datum.  A datum for which [has()] is false is modelled by
    [None] in an [option datum_t].  Objects keep their fields in key order,
    as [datum_object_builder_t] produces them.  Numbers are carried but never
    inspected by this file. *)
Inductive datum_t : Type :=
| R_NULL
| R_BOOL (b : bool)
| R_NUM (n : Z)
| R_STR (s : string)
| R_ARRAY (elems : list datum_t)
| R_OBJECT (fields : list (string * datum_t)).

(** [datum_t::operator==]. *)
Fixpoint datum_eqb (a b : datum_t) {struct a} : bool :=
  match a, b with
  | R_NULL, R_NULL => true
  | R_BOOL x, R_BOOL y => Bool.eqb x y
  | R_NUM x, R_NUM y => Z.eqb x y
  | R_STR x, R_STR y => String.eqb x y
  | R_ARRAY xs, R_ARRAY ys =>
      (fix go (xs ys : list datum_t) {struct xs} : bool :=
         match xs, ys with
         | [], [] => true
         | x :: xs', y :: ys' => datum_eqb x y && go xs' ys'
         | _, _ => false
         end) xs ys
  | R_OBJECT xs, R_OBJECT ys =>
      (fix go (xs ys : list (string * datum_t)) {struct xs} : bool :=
         match xs, ys with
         | [], [] => true
         | (k, x) :: xs', (k', y) :: ys' =>
             String.eqb k k' && datum_eqb x y && go xs' ys'
         | _, _ => false
         end) xs ys
  | _, _ => false
  end.

(** [datum_t::get_field(key, NOTHROW)]: the value stored under [key], or an
    uninitialised datum. *)
Fixpoint get_field (key : string) (fields : list (string * datum_t))
  : option datum_t :=
  match fields with
  | [] => None
  | (k, v) :: rest => if String.eqb key k then Some v else get_field key rest
  end.

(** [datum_object_builder_t::overwrite]: bind [key] to [val], replacing an
    earlier binding; the builder keeps its fields ordered by key. *)
Fixpoint overwrite (key : string) (val : datum_t)
    (builder : list (string * datum_t)) : list (string * datum_t) :=
  match builder with
  | [] => [(key, val)]
  | (k, v) :: rest =>
      if String.eqb key k then (key, val) :: rest
      else if String.ltb key k then (key, val) :: builder
      else (k, v) :: overwrite key val rest
  end.

(** ** Results of fallible calls *)

(** A C++ function [bool f(..., T *out, std::string *error_out)] either
    returns [true] with [*out] set ([Ok]), or returns [false] with
    [*error_out] set ([Err]).  A failed [guarantee] aborts the process
    ([Crash]); a blocking collaborator may throw [interrupted_exc_t]
    ([Interrupted]). *)
Inductive outcome (A : Type) : Type :=
| Ok (a : A)
| Err (error_out : string)
| Crash (msg : string)
| Interrupted.
Arguments Ok {A} a.
Arguments Err {A} error_out.
Arguments Crash {A} msg.
Arguments Interrupted {A}.

Definition obind {A B} (x : outcome A) (k : A -> outcome B) : outcome B :=
  match x with
  | Ok a => k a
  | Err e => Err e
  | Crash m => Crash m
  | Interrupted => Interrupted
  end.

(** [if (!f(..., error_out)) { *error_out = prefix + *error_out; return false; }] *)
Definition prefixed {A} (prefix : string) (x : outcome A) : outcome A :=
  match x with
  | Err e => Err (prefix +:+ e)
  | other => other
  end.

#[global] Instance outcome_ret : MRet outcome := @Ok.
#[global] Instance outcome_bind : MBind outcome :=
  fun A B k x => obind x k.

(** ** Internal configuration types *)

(** [table_config_t::shard_t]. *)
Record shard_t : Type := {
  replicas : gset N;            (* std::set<server_id_t> *)
  director : server_id_t
}.

(** [table_config_t]. *)
Record table_config_t : Type := {
  shards : list shard_t       (* std::vector<shard_t> *)
}.

(** Iteration order of a [std::set<uuid_u>]: ascending. *)
Definition set_in_order (s : gset N) : list N := merge_sort N.le (elements s).

(** ** Collaborators declared outside this file *)

(** The helpers of [datum_adapter.hpp], [generate_config.hpp],
    [split_points.hpp] and the members of the backend class that
    [table_config.cc] calls but does not define.  They are parameters of the
    development; nothing is assumed about them unless a theorem says so. *)
Class Collaborators : Type := {
  admin_identifier_format_t : Type;
  server_name_client_t : Type;
  databases_semilattice_metadata_t : Type;
  table_shard_scheme_t : Type;
  (* datum_t::print *)
  print : datum_t -> string;
  (* false for servers that have been permanently removed *)
  convert_server_id_to_datum :
    server_id_t -> admin_identifier_format_t -> server_name_client_t ->
    option datum_t;
  convert_server_id_from_datum :
    datum_t -> admin_identifier_format_t -> server_name_client_t ->
    outcome server_id_t;
  convert_name_from_datum : datum_t -> string -> outcome name_string_t;
  convert_name_to_datum : name_string_t -> datum_t;
  convert_uuid_from_datum : datum_t -> outcome uuid_u;
  convert_uuid_to_datum : uuid_u -> datum_t;
  convert_string_from_datum : datum_t -> outcome string;
  convert_string_to_datum : string -> datum_t;
  convert_database_id_from_datum :
    datum_t -> admin_identifier_format_t ->
    databases_semilattice_metadata_t -> outcome database_id_t;
  get_db_identifier :
    admin_identifier_format_t -> databases_semilattice_metadata_t ->
    database_id_t -> datum_t;
  (* table_shard_scheme_t() and table_shard_scheme_t::one_shard() *)
  empty_shard_scheme : table_shard_scheme_t;
  one_shard : table_shard_scheme_t;
  (* calculate_server_usage(config, &usage) *)
  calculate_server_usage : table_config_t -> gmap N Z -> gmap N Z;
  (* calculate_split_points_intelligently(table_id, reql_cluster_interface,
       num_shards, old_scheme, interruptor, &scheme, &error) *)
  calculate_split_points_intelligently :
    namespace_id_t -> nat -> table_shard_scheme_t ->
    outcome table_shard_scheme_t
}.

(** ** [converter_from_datum_object_t] *)

(** Modelled from the spec: [converter_from_datum_object_t] of
    [datum_adapter.hpp] is not part of this file.  The document must be a
    keyed object; every key starts as unconsumed, [get] consumes the key it
    asks for and requires the field to be present, [has] only looks, and
    [check_no_extra_keys] rejects a document with a key that was never
    consumed. *)
Record converter_from_datum_object_t : Type := {
  datum : list (string * datum_t);
  extra_keys : gset string
}.

Section Codec.
Context `{Collaborators}.

(** Modelled from the spec: [converter_from_datum_object_t::init]. *)
Definition converter_init (d : datum_t) : outcome converter_from_datum_object_t :=
  match d with
  | R_OBJECT fields =>
      Ok {| datum := fields; extra_keys := list_to_set (fields.*1) |}
  | _ => Err ("Expected an object, got " +:+ print d)
  end.

(** Modelled from the spec: [converter_from_datum_object_t::get]. *)
Definition converter_get (key : string) (c : converter_from_datum_object_t)
  : outcome (datum_t * converter_from_datum_object_t) :=
  let c' := {| datum := datum c; extra_keys := extra_keys c ∖ {[key]} |} in
  match get_field key (datum c) with
  | Some value => Ok (value, c')
  | None => Err ("Expected a field named `" +:+ key +:+ "`.")
  end.

(** Modelled from the spec: [converter_from_datum_object_t::has]. *)
Definition converter_has (key : string) (c : converter_from_datum_object_t)
  : bool :=
  match get_field key (datum c) with Some _ => true | None => false end.

(** Modelled from the spec:
    [converter_from_datum_object_t::check_no_extra_keys]. *)
Definition converter_check_no_extra_keys (c : converter_from_datum_object_t)
  : outcome unit :=
  if decide (extra_keys c = ∅) then Ok tt
  else Err (foldl (fun msg key => msg +:+ " " +:+ key) "Unexpected key(s):"
              (merge_sort String.leb (elements (extra_keys c)))).

(** ** Shard encoder (lines 10-37) *)

(** The source names the loop variable and the datum it fills both
    [replica]; the server identifier is the loop variable and the datum is
    the output slot of [convert_server_id_to_datum]. *)
Definition convert_table_config_shard_to_datum
    (shard : shard_t)
    (identifier_format : admin_identifier_format_t)
    (name_client : server_name_client_t) : datum_t :=
  let builder := [] in
  let replicas_builder :=
    foldl (fun replicas_builder replica =>
             match convert_server_id_to_datum replica identifier_format
                     name_client with
             | Some replica_datum => replicas_builder ++ [replica_datum]
             | None => replicas_builder
             end)
          [] (set_in_order (replicas shard)) in
  let builder := overwrite "replicas" (R_ARRAY replicas_builder) builder in
  let director_datum :=
    match convert_server_id_to_datum (director shard) identifier_format
            name_client with
    | Some d => d
    | None => R_NULL
    end in
  let builder := overwrite "director" director_datum builder in
  R_OBJECT builder.

(** ** Shard decoder (lines 39-108) *)

(** The loop of lines 60-73 over the elements of the [replicas] array,
    started from the cleared set.  [std::set::insert] reports a server that
    is already in the set. *)
Fixpoint decode_replicas
    (identifier_format : admin_identifier_format_t)
    (name_client : server_name_client_t)
    (elems : list datum_t) (acc : gset N) : outcome (gset N) :=
  match elems with
  | [] => Ok acc
  | e :: rest =>
      server_id ← prefixed "In `replicas`: "
           (convert_server_id_from_datum e identifier_format name_client);
      if decide (server_id ∈ acc)
      then Err "In `replicas`: A server is listed more than once."
      else decode_replicas identifier_format name_client rest
             ({[server_id]} ∪ acc)
  end.

(** The message of line 55 prints [replica_names_datum], which the source
    does not declare; the datum at hand there is [replicas_datum]. *)
Definition convert_table_config_shard_from_datum
    (d : datum_t)
    (identifier_format : admin_identifier_format_t)
    (name_client : server_name_client_t) : outcome shard_t :=
  converter ← converter_init d;
  '(replicas_datum, converter) ← converter_get "replicas" converter;
  match replicas_datum with
  | R_ARRAY elems =>
      shard_replicas ←
        decode_replicas identifier_format name_client elems ∅;
      if decide (shard_replicas = ∅)
      then Err "You must specify at least one replica for each shard."
      else
        '(director_datum, converter) ← converter_get "director" converter;
        shard_director ←
          match director_datum return outcome server_id_t with
          | R_NULL => Ok nil_uuid
          | _ =>
              dir ← prefixed "In `director`: "
                   (convert_server_id_from_datum director_datum
                      identifier_format name_client);
              if decide (dir ∈ shard_replicas) then Ok dir
              else Err "The director must be one of the replicas."
          end;
        _ ← converter_check_no_extra_keys converter;
        Ok {| replicas := shard_replicas; director := shard_director |}
  | _ =>
      Err ("In `replicas`: Expected an array, got " +:+ print replicas_datum)
  end.

End Codec.

(** ** Cluster metadata *)

(** Modelled from the spec: [versioned_t] of the semilattice library is not
    part of this file.  A value with a version stamp: a fresh field starts
    at the initial stamp, and [set] advances the stamp of that field only. *)
Record versioned_t (A : Type) : Type := {
  versioned_get_ref : A;
  stamp : nat
}.
Arguments versioned_get_ref {A} _.
Arguments stamp {A} _.

Definition versioned_make {A} (value : A) : versioned_t A :=
  {| versioned_get_ref := value; stamp := 0 |}.

Definition versioned_set {A} (value : A) (v : versioned_t A) : versioned_t A :=
  {| versioned_get_ref := value; stamp := S (stamp v) |}.

(** Modelled from the spec: [deletable_t] is not part of this file.  An
    entry is flagged as deleted in place and stays addressable. *)
Record deletable_t (A : Type) : Type := {
  is_deleted : bool;
  get_ref : A
}.
Arguments is_deleted {A} _.
Arguments get_ref {A} _.

Definition deletable_make {A} (value : A) : deletable_t A :=
  {| is_deleted := false; get_ref := value |}.

Definition mark_deleted {A} (d : deletable_t A) : deletable_t A :=
  {| is_deleted := true; get_ref := get_ref d |}.

(** Iteration order of a [std::map<uuid_u, T>]: ascending keys. *)
Definition key_le {V} (a b : N * V) : Prop := (a.1 <= b.1)%N.
#[global] Instance key_le_dec {V} (a b : N * V) : Decision (key_le a b) :=
  N.le_dec a.1 b.1.

Definition map_in_order {V} (m : gmap N V) : list (N * V) :=
  merge_sort key_le (map_to_list m).

(** [metadata_search_status_t]. *)
Inductive metadata_search_status_t : Type :=
| METADATA_SUCCESS
| METADATA_ERR_NONE
| METADATA_ERR_MULTIPLE.

Section Backend.
Context `{Collaborators}.

(** [table_replication_info_t]. *)
Record table_replication_info_t : Type := {
  config : table_config_t;
  shard_scheme : table_shard_scheme_t
}.

(** [namespace_semilattice_metadata_t]. *)
Record namespace_semilattice_metadata_t : Type := {
  name : versioned_t name_string_t;
  database : versioned_t database_id_t;
  primary_key : versioned_t string;
  replication_info : versioned_t table_replication_info_t
}.

(** [namespaces_semilattice_metadata_t]. *)
Record namespaces_semilattice_metadata_t : Type := {
  namespaces : gmap N (deletable_t namespace_semilattice_metadata_t)
}.

(** Modelled from the spec: [search_metadata_by_uuid] is not part of this
    file.  A table existed before when its identifier is present in the map
    among the entries that are not deleted; the result stands for the
    returned flag together with the iterator [it]. *)
Definition search_metadata_by_uuid
    (map : gmap N (deletable_t namespace_semilattice_metadata_t))
    (uuid : uuid_u) : option (deletable_t namespace_semilattice_metadata_t) :=
  match map !! uuid with
  | Some entry => if is_deleted entry then None else Some entry
  | None => None
  end.

(** Modelled from the spec: [namespace_predicate_t] is not part of this
    file.  It selects the tables of one database that carry one name. *)
Definition namespace_predicate (table_name : name_string_t)
    (db_id : database_id_t) (ns : namespace_semilattice_metadata_t) : bool :=
  String.eqb (versioned_get_ref (name ns)) table_name
  && N.eqb (versioned_get_ref (database ns)) db_id.

(** Modelled from the spec: [metadata_searcher_t::find_uniq] is not part of
    this file.  The search runs over the entries that are not deleted and
    reports whether no entry, one entry or several entries match. *)
Definition find_uniq (pred : namespace_semilattice_metadata_t -> bool)
    (map : gmap N (deletable_t namespace_semilattice_metadata_t))
  : metadata_search_status_t :=
  match filter (fun pair => negb (is_deleted pair.2) && pred (get_ref pair.2))
          (map_in_order map) with
  | [] => METADATA_ERR_NONE
  | [_] => METADATA_SUCCESS
  | _ => METADATA_ERR_MULTIPLE
  end.

(** Modelled from the spec: [convert_vector_from_datum] and
    [convert_vector_to_datum] of [datum_adapter.hpp] are not part of this
    file.  They apply the element codec across the ordered sequence, the
    decoder stopping at the first element that fails. *)
Fixpoint convert_vector_elems {T} (conv : datum_t -> outcome T)
    (elems : list datum_t) : outcome (list T) :=
  match elems with
  | [] => Ok []
  | e :: rest =>
      x ← conv e;
      xs ← convert_vector_elems conv rest;
      Ok (x :: xs)
  end.

Definition convert_vector_from_datum {T} (conv : datum_t -> outcome T)
    (d : datum_t) : outcome (list T) :=
  match d with
  | R_ARRAY elems => convert_vector_elems conv elems
  | _ => Err ("Expected an array, got " +:+ print d)
  end.

Definition convert_vector_to_datum {T} (conv : T -> datum_t)
    (vector : list T) : datum_t :=
  R_ARRAY (conv <$> vector).

(** ** [convert_table_config_to_datum] (lines 112-125) *)
Definition convert_table_config_to_datum
    (cfg : table_config_t)
    (identifier_format : admin_identifier_format_t)
    (name_client : server_name_client_t) : datum_t :=
  let builder := [] in
  let builder :=
    overwrite "shards"
      (convert_vector_to_datum
         (fun shard =>
            convert_table_config_shard_to_datum shard identifier_format
              name_client)
         (shards cfg))
      builder in
  R_OBJECT builder.

(** ** [format_row] (lines 127-148) *)
Definition row_out
    (identifier_format : admin_identifier_format_t)
    (name_client : server_name_client_t)
    (table_id : namespace_id_t) (table_name : name_string_t) (db : datum_t)
    (metadata : namespace_semilattice_metadata_t) : datum_t :=
  let start :=
    convert_table_config_to_datum
      (config (versioned_get_ref (replication_info metadata)))
      identifier_format name_client in
  let builder := match start with R_OBJECT fields => fields | _ => [] end in
  let builder := overwrite "name" (convert_name_to_datum table_name) builder in
  let builder := overwrite "db" db builder in
  let builder := overwrite "id" (convert_uuid_to_datum table_id) builder in
  let builder :=
    overwrite "primary_key"
      (convert_string_to_datum (versioned_get_ref (primary_key metadata)))
      builder in
  R_OBJECT builder.

(** [format_row] sets [*row_out] and returns [true]. *)
Definition format_row
    (identifier_format : admin_identifier_format_t)
    (name_client : server_name_client_t)
    (table_id : namespace_id_t) (table_name : name_string_t) (db : datum_t)
    (metadata : namespace_semilattice_metadata_t) : outcome datum_t :=
  Ok (row_out identifier_format name_client table_id table_name db metadata).

(** ** [convert_table_config_and_name_from_datum] (lines 150-252) *)

(** The Default Config Generator of [generate_config.hpp], called as
    [table_generate_config(name_client, nil_uuid(), nullptr, server_usage,
    table_generate_config_params_t::make_default(), table_shard_scheme_t(),
    interruptor, config_out, error_out)]. *)
Variable table_generate_config :
  server_name_client_t -> gmap N Z -> table_shard_scheme_t ->
  outcome table_config_t.

(** The out-parameters of the table-level decoder. *)
Record decoded_row : Type := {
  table_name_out : name_string_t;
  db_out : datum_t;
  id_out : namespace_id_t;
  config_out : table_config_t;
  primary_key_out : string
}.

(** Lines 230-237: the usage histogram over the tables that are not
    deleted. *)
Definition server_usage_of
    (all_table_metadata : namespaces_semilattice_metadata_t) : gmap N Z :=
  foldl (fun server_usage pair =>
           if is_deleted pair.2 then server_usage
           else calculate_server_usage
                  (config (versioned_get_ref
                             (replication_info (get_ref pair.2))))
                  server_usage)
        ∅ (map_in_order (namespaces all_table_metadata)).

Definition convert_table_config_and_name_from_datum
    (d : datum_t) (existed_before : bool)
    (all_table_metadata : namespaces_semilattice_metadata_t)
    (identifier_format : admin_identifier_format_t)
    (name_client : server_name_client_t) : outcome decoded_row :=
  converter ← converter_init d;
  '(name_datum, converter) ← converter_get "name" converter;
  table_name ← prefixed "In `name`: "
    (convert_name_from_datum name_datum "table name");
  '(db, converter) ← converter_get "db" converter;
  '(id_datum, converter) ← converter_get "id" converter;
  id ← prefixed "In `id`: " (convert_uuid_from_datum id_datum);
  '(pkey, converter) ←
    (if existed_before || converter_has "primary_key" converter
     then
       '(primary_key_datum, converter) ←
         converter_get "primary_key" converter;
       pkey ← prefixed "In `primary_key`: "
         (convert_string_from_datum primary_key_datum);
       Ok (pkey, converter)
     else Ok ("id", converter));
  '(cfg, converter) ←
    (if existed_before || converter_has "shards" converter
     then
       '(shards_datum, converter) ← converter_get "shards" converter;
       decoded_shards ← prefixed "In `shards`: "
         (convert_vector_from_datum
            (fun shard_datum =>
               convert_table_config_shard_from_datum shard_datum
                 identifier_format name_client)
            shards_datum);
       match decoded_shards with
       | [] => Err "In `shards`: You must specify at least one shard."
       | _ => Ok ({| shards := decoded_shards |}, converter)
       end
     else
       let server_usage := server_usage_of all_table_metadata in
       generated ← prefixed "When generating configuration for new table: "
         (table_generate_config name_client server_usage empty_shard_scheme);
       Ok (generated, converter));
  _ ← converter_check_no_extra_keys converter;
  Ok {| table_name_out := table_name; db_out := db; id_out := id;
        config_out := cfg; primary_key_out := pkey |}.

(** ** The write path: [write_row] (lines 254-426) *)

(** The state of the backend that a write reads and changes: the shared
    table metadata behind [table_sl_view] and the database metadata behind
    [database_sl_view]. *)
Record backend_state : Type := {
  table_sl_view : namespaces_semilattice_metadata_t;
  database_sl_view : databases_semilattice_metadata_t
}.

(** A computation of the write path: it runs on the backend state and ends
    as an [outcome]. *)
Definition txn (A : Type) : Type := backend_state -> outcome A * backend_state.

#[global] Instance txn_ret : MRet txn := fun A a st => (Ok a, st).
#[global] Instance txn_bind : MBind txn := fun A B k x st =>
  match x st with
  | (Ok a, st') => k a st'
  | (Err e, st') => (Err e, st')
  | (Crash m, st') => (Crash m, st')
  | (Interrupted, st') => (Interrupted, st')
  end.

Definition lift {A} (x : outcome A) : txn A := fun st => (x, st).

(** [return false] with [*error_out] set. *)
Definition fail {A} (error_out : string) : txn A := lift (Err error_out).

Definition guarantee (cond : bool) (msg : string) : txn unit :=
  if cond then mret tt else lift (Crash msg).

(** The join of the replicated metadata store, the identifier
    [new_db_name] that [write_row] uses without declaring it (once printed
    with [c_str()], once passed where [format_row] takes the [db] datum) are
    parameters. *)
Variable semilattice_join :
  namespaces_semilattice_metadata_t -> namespaces_semilattice_metadata_t ->
  namespaces_semilattice_metadata_t.
Variable new_db_name_c_str : string.
Variable new_db_name_datum : datum_t.

(** [table_sl_view->get()]. *)
Definition table_sl_view_get : txn namespaces_semilattice_metadata_t :=
  fun st => (Ok (table_sl_view st), st).

(** [database_sl_view->get()]. *)
Definition database_sl_view_get : txn databases_semilattice_metadata_t :=
  fun st => (Ok (database_sl_view st), st).

(** [table_sl_view->join(md)]. *)
Definition table_sl_view_join (md : namespaces_semilattice_metadata_t)
  : txn unit :=
  fun st =>
    (Ok tt, {| table_sl_view := semilattice_join (table_sl_view st) md;
               database_sl_view := database_sl_view st |}).

Definition table_exists_msg (new_table_name : name_string_t) : string :=
  "Table `" +:+ new_db_name_c_str +:+ "." +:+ new_table_name +:+
  "` already exists.".

Definition cannot_rename_msg (old_table_name new_table_name : name_string_t)
  : string :=
  "Cannot rename table `" +:+ new_db_name_c_str +:+ "." +:+ old_table_name +:+
  "` to `" +:+ new_db_name_c_str +:+ "." +:+ new_table_name +:+
  "` because table `" +:+ new_db_name_c_str +:+ "." +:+ new_table_name +:+
  "` already exists.".

Definition write_row
    (identifier_format : admin_identifier_format_t)
    (name_client : server_name_client_t)
    (primary_key_datum : datum_t)
    (pkey_was_autogenerated : bool)
    (new_value_inout : option datum_t) : txn (option datum_t) :=
  (* Look for an existing table with the given UUID *)
  md ← table_sl_view_get;
  table_id ←
    match convert_uuid_from_datum primary_key_datum with
    | Ok table_id => mret table_id
    | _ =>
        (* If the primary key was not a valid UUID, then it must refer to a
           nonexistent row. *)
        _ ← guarantee (negb pkey_was_autogenerated)
              "auto-generated primary key should have been a valid UUID string.";
        mret nil_uuid
    end;
  let it := search_metadata_by_uuid (namespaces md) table_id in
  let existed_before := match it with Some _ => true | None => false end in
  '(md, new_value) ←
    match new_value_inout with
    | Some new_value =>
        (* Parse the new value the user provided for the table *)
        row ← lift (prefixed
          "The change you're trying to make to `rethinkdb.table_config` has the wrong format. "
          (convert_table_config_and_name_from_datum new_value existed_before
             md identifier_format name_client));
        let new_table_name := table_name_out row in
        let new_db := db_out row in
        let new_primary_key := primary_key_out row in
        _ ← guarantee (N.eqb (id_out row) table_id)
              "artificial_table_t should ensure that the primary key doesn't change.";
        _ ← (if existed_before
             then guarantee (negb pkey_was_autogenerated)
                    "UUID collision happened"
             else if negb pkey_was_autogenerated
             then fail "If you want to create a new table by inserting into `rethinkdb.table_config`, you must use an auto-generated primary key."
             else guarantee
                    (bool_decide (namespaces md !! table_id = None))
                    "UUID collision happened");
        db_id ←
          match it with
          | Some entry =>
              let db_id := versioned_get_ref (database (get_ref entry)) in
              db_md ← database_sl_view_get;
              if negb (datum_eqb new_db
                         (get_db_identifier identifier_format db_md db_id))
              then fail "It's illegal to change a table's `database` field."
              else mret db_id
          | None =>
              db_md ← database_sl_view_get;
              lift (convert_database_id_from_datum new_db identifier_format
                      db_md)
          end;
        _ ← match it with
            | Some entry =>
                if negb (String.eqb new_primary_key
                           (versioned_get_ref (primary_key (get_ref entry))))
                then fail "It's illegal to change a table's primary key."
                else mret tt
            | None => mret tt
            end;
        (* Decide on the sharding scheme for the table *)
        new_shard_scheme ←
          match it with
          | Some entry =>
              let prev := versioned_get_ref (replication_info (get_ref entry)) in
              lift (calculate_split_points_intelligently table_id
                      (length (shards (config_out row))) (shard_scheme prev))
          | None =>
              if negb (Nat.eqb (length (shards (config_out row))) 1)
              then fail "Newly created tables must start with exactly one shard"
              else mret one_shard
          end;
        let new_replication_info :=
          {| config := config_out row; shard_scheme := new_shard_scheme |} in
        let old_table_name :=
          match it with
          | Some entry => versioned_get_ref (name (get_ref entry))
          | None => ""
          end in
        _ ← (if negb existed_before
                || negb (String.eqb new_table_name old_table_name)
             then
               (* Prevent name collisions if possible *)
               match find_uniq (namespace_predicate new_table_name db_id)
                       (namespaces md) with
               | METADATA_ERR_NONE => mret tt
               | _ =>
                   if negb existed_before
                   then fail (table_exists_msg new_table_name)
                   else fail (cannot_rename_msg old_table_name new_table_name)
               end
             else mret tt);
        (* Update `md` *)
        let table_md :=
          match it with
          | Some entry =>
              {| name := versioned_set new_table_name (name (get_ref entry));
                 database := database (get_ref entry);
                 primary_key := primary_key (get_ref entry);
                 replication_info :=
                   versioned_set new_replication_info
                     (replication_info (get_ref entry)) |}
          | None =>
              {| name := versioned_make new_table_name;
                 database := versioned_make db_id;
                 primary_key := versioned_make new_primary_key;
                 replication_info := versioned_make new_replication_info |}
          end in
        let md :=
          {| namespaces :=
               <[table_id := deletable_make table_md]> (namespaces md) |} in
        (* write back to `new_value_inout` *)
        formatted ← lift (format_row identifier_format name_client table_id
                            new_table_name new_db_name_datum table_md);
        mret (md, Some formatted)
    | None =>
        (* We're deleting a table (or it was already deleted) *)
        match it with
        | Some entry =>
            _ ← guarantee (negb pkey_was_autogenerated)
                  "UUID collision happened";
            mret ({| namespaces :=
                       <[table_id := mark_deleted entry]> (namespaces md) |},
                  None)
        | None => mret (md, None)
        end
    end;
  _ ← table_sl_view_join md;
  mret new_value.

End Backend.

(** ** Vocabulary of the statements *)

(** [resolves fmt nc e id]: the Identifier Resolver maps the document entry
    [e] to the server [id]. *)
Definition resolves `{Collaborators} (fmt : admin_identifier_format_t)
    (nc : server_name_client_t) (e : datum_t) (id : server_id_t) : Prop :=
  convert_server_id_from_datum e fmt nc = Ok id.

(** [displays fmt nc id]: the display form of server [id], if the server
    still resolves. *)
Definition displays `{Collaborators} (fmt : admin_identifier_format_t)
    (nc : server_name_client_t) (id : server_id_t) : option datum_t :=
  convert_server_id_to_datum id fmt nc.

(** [redisplay fmt nc nc' e]: the entry [e] of a document decoded under the
    name client [nc], as the encoder shows it under the name client [nc'];
    [None] when the server behind [e] no longer resolves. *)
Definition redisplay `{Collaborators} (fmt : admin_identifier_format_t)
    (nc nc' : server_name_client_t) (e : datum_t) : option datum_t :=
  match convert_server_id_from_datum e fmt nc with
  | Ok id => displays fmt nc' id
  | _ => None
  end.

(** [row_head_ok fields n db id]: the fields [name], [db] and [id] of a
    row are present and decode to [n], [db] and [id]. *)
Definition row_head_ok `{Collaborators} (fields : list (string * datum_t))
    (n : name_string_t) (db : datum_t) (id : namespace_id_t) : Prop :=
  exists name_datum id_datum,
    get_field "name" fields = Some name_datum /\
    convert_name_from_datum name_datum "table name" = Ok n /\
    get_field "db" fields = Some db /\
    get_field "id" fields = Some id_datum /\
    convert_uuid_from_datum id_datum = Ok id.

(** [row_pkey_ok existed_before fields pkey]: the primary key that a row
    decodes to. *)
Definition row_pkey_ok `{Collaborators} (existed_before : bool)
    (fields : list (string * datum_t)) (pkey : string) : Prop :=
  match get_field "primary_key" fields with
  | Some primary_key_datum =>
      convert_string_from_datum primary_key_datum = Ok pkey
  | None => existed_before = false /\ pkey = "id"
  end.

(** [row_shards_ok g existed_before md fmt nc fields cfg]: the
    configuration that a row decodes to, from its [shards] field or, for a
    new table without that field, from the generator [g]. *)
Definition row_shards_ok `{Collaborators}
    (g : server_name_client_t -> gmap N Z -> table_shard_scheme_t ->
         outcome table_config_t)
    (existed_before : bool) (md : namespaces_semilattice_metadata_t)
    (fmt : admin_identifier_format_t) (nc : server_name_client_t)
    (fields : list (string * datum_t)) (cfg : table_config_t) : Prop :=
  match get_field "shards" fields with
  | Some shards_datum =>
      exists elems,
        shards_datum = R_ARRAY elems /\
        convert_vector_elems
          (fun shard_datum =>
             convert_table_config_shard_from_datum shard_datum fmt nc)
          elems = Ok (shards cfg) /\
        shards cfg <> []
  | None =>
      existed_before = false /\
      g nc (server_usage_of md) empty_shard_scheme = Ok cfg
  end.

Definition db_change_msg : string :=
  "It's illegal to change a table's `database` field.".
Definition pkey_change_msg : string :=
  "It's illegal to change a table's primary key.".
Definition one_shard_msg : string :=
  "Newly created tables must start with exactly one shard".

(** [name_taken table_name db_id map]: an entry of [map] that is not
    deleted belongs to the database [db_id] and carries the name
    [table_name]. *)
Definition name_taken `{Collaborators} (table_name : name_string_t)
    (db_id : database_id_t)
    (map : gmap N (deletable_t namespace_semilattice_metadata_t)) : Prop :=
  exists id entry,
    map !! id = Some entry /\ is_deleted entry = false /\
    versioned_get_ref (name (get_ref entry)) = table_name /\
    versioned_get_ref (database (get_ref entry)) = db_id.

(** [update_request g fmt nc pk new_value st table_id entry row]: the key
    [pk] names the table [table_id], which the shared map holds as the live
    entry [entry], and the payload [new_value] decodes to [row] for that
    table. *)
Definition update_request `{Collaborators}
    (g : server_name_client_t -> gmap N Z -> table_shard_scheme_t ->
         outcome table_config_t)
    (fmt : admin_identifier_format_t) (nc : server_name_client_t)
    (pk new_value : datum_t) (st : backend_state)
    (table_id : namespace_id_t)
    (entry : deletable_t namespace_semilattice_metadata_t)
    (row : decoded_row) : Prop :=
  convert_uuid_from_datum pk = Ok table_id /\
  namespaces (table_sl_view st) !! table_id = Some entry /\
  is_deleted entry = false /\
  convert_table_config_and_name_from_datum g new_value true
    (table_sl_view st) fmt nc = Ok row /\
  id_out row = table_id.

(** [create_request g fmt nc pk new_value st table_id row db_id]: the key
    [pk] is the identifier [table_id], which the shared map does not hold,
    the payload [new_value] decodes to [row] for that identifier, and the
    [db] of the row resolves to the database [db_id]. *)
Definition create_request `{Collaborators}
    (g : server_name_client_t -> gmap N Z -> table_shard_scheme_t ->
         outcome table_config_t)
    (fmt : admin_identifier_format_t) (nc : server_name_client_t)
    (pk new_value : datum_t) (st : backend_state)
    (table_id : namespace_id_t) (row : decoded_row)
    (db_id : database_id_t) : Prop :=
  convert_uuid_from_datum pk = Ok table_id /\
  namespaces (table_sl_view st) !! table_id = None /\
  convert_table_config_and_name_from_datum g new_value false
    (table_sl_view st) fmt nc = Ok row /\
  id_out row = table_id /\
  convert_database_id_from_datum (db_out row) fmt (database_sl_view st)
    = Ok db_id.

(** The entry that an update leaves for a table: new name and new
    replication info, each at its next stamp; database and primary key as
    stored. *)
Definition updated_md `{Collaborators}
    (stored : namespace_semilattice_metadata_t) (row : decoded_row)
    (scheme : table_shard_scheme_t) : namespace_semilattice_metadata_t :=
  {| name := versioned_set (table_name_out row) (name stored);
     database := database stored;
     primary_key := primary_key stored;
     replication_info :=
       versioned_set {| config := config_out row; shard_scheme := scheme |}
         (replication_info stored) |}.

(** The entry that a create inserts: all four fields at their initial
    stamp. *)
Definition created_md `{Collaborators} (row : decoded_row)
    (db_id : database_id_t) (scheme : table_shard_scheme_t)
  : namespace_semilattice_metadata_t :=
  {| name := versioned_make (table_name_out row);
     database := versioned_make db_id;
     primary_key := versioned_make (primary_key_out row);
     replication_info :=
       versioned_make {| config := config_out row; shard_scheme := scheme |} |}.

(** The backend state after the local snapshot, with [table_md] stored
    under [table_id], has been joined into the shared map. *)
Definition committed `{Collaborators}
    (join : namespaces_semilattice_metadata_t ->
            namespaces_semilattice_metadata_t ->
            namespaces_semilattice_metadata_t)
    (st : backend_state) (table_id : namespace_id_t)
    (table_md : namespace_semilattice_metadata_t) : backend_state :=
  {| table_sl_view :=
       join (table_sl_view st)
         {| namespaces :=
              <[table_id := deletable_make table_md]>
                (namespaces (table_sl_view st)) |};
     database_sl_view := database_sl_view st |}.

(** [reads x]: the computation [x] never changes the backend state. *)
Definition reads `{Collaborators} {A} (x : txn A) : Prop :=
  forall st, (x st).2 = st.

(** [commits_last join x]: the computation [x] changes the backend state
    only when it succeeds, and then by one join into the shared table
    metadata. *)
Definition commits_last `{Collaborators}
    (join : namespaces_semilattice_metadata_t ->
            namespaces_semilattice_metadata_t ->
            namespaces_semilattice_metadata_t)
    {A} (x : txn A) : Prop :=
  forall st,
    match (x st).1 with
    | Ok _ =>
        exists md,
          (x st).2 =
            {| table_sl_view := join (table_sl_view st) md;
               database_sl_view := database_sl_view st |}
    | _ => (x st).2 = st
    end.

Definition missing_field_msg (key : string) : string :=
  "Expected a field named `" +:+ key +:+ "`.".

Definition duplicate_msg : string :=
  "In `replicas`: A server is listed more than once.".
Definition no_replica_msg : string :=
  "You must specify at least one replica for each shard.".
Definition director_msg : string :=
  "The director must be one of the replicas.".

(** [shard_ok shard]: the replica set is not empty and the director is the
    nil sentinel or one of the replicas. *)
Definition shard_ok (shard : shard_t) : Prop :=
  replicas shard <> ∅ /\
  (director shard = nil_uuid \/ director shard ∈ replicas shard).

(** [live_replicas fmt nc s]: the servers of [s] that still resolve. *)
Definition live_replicas `{Collaborators} (fmt : admin_identifier_format_t)
    (nc : server_name_client_t) (s : gset N) : gset N :=
  filter (fun id => is_Some (displays fmt nc id)) s.

(** [redecoded fmt nc shard]: the shard as it comes back from its own
    document: the replicas that still resolve, and the director, or the nil
    sentinel when the director no longer resolves. *)
Definition redecoded `{Collaborators} (fmt : admin_identifier_format_t)
    (nc : server_name_client_t) (shard : shard_t) : shard_t :=
  {| replicas := live_replicas fmt nc (replicas shard);
     director :=
       match displays fmt nc (director shard) with
       | Some _ => director shard
       | None => nil_uuid
       end |}.

(** [redecodable fmt nc shard]: the display form of every replica resolves
    back to that replica, some replica still resolves, and a director that
    still resolves is a replica and is not displayed as null. *)
Definition redecodable `{Collaborators} (fmt : admin_identifier_format_t)
    (nc : server_name_client_t) (shard : shard_t) : Prop :=
  (forall id y, id ∈ replicas shard -> displays fmt nc id = Some y ->
                resolves fmt nc y id) /\
  live_replicas fmt nc (replicas shard) <> ∅ /\
  (forall y, displays fmt nc (director shard) = Some y ->
             director shard ∈ replicas shard /\ y <> R_NULL).

(** The decoder of one element of the [shards] array. *)
Definition shard_decoder `{Collaborators} (fmt : admin_identifier_format_t)
    (nc : server_name_client_t) (shard_datum : datum_t) : outcome shard_t :=
  convert_table_config_shard_from_datum shard_datum fmt nc.

Definition wrong_format_prefix : string :=
  "The change you're trying to make to `rethinkdb.table_config` has the wrong format. ".
Definition autogenerated_key_msg : string :=
  "If you want to create a new table by inserting into `rethinkdb.table_config`, you must use an auto-generated primary key.".
Definition not_a_uuid_abort : string :=
  "auto-generated primary key should have been a valid UUID string.".
Definition key_changed_abort : string :=
  "artificial_table_t should ensure that the primary key doesn't change.".
Definition collision_abort : string := "UUID collision happened".

(** [existed_before_of map id]: whether [search_metadata_by_uuid] finds the
    table. *)
Definition existed_before_of `{Collaborators}
    (map : gmap N (deletable_t namespace_semilattice_metadata_t))
    (id : namespace_id_t) : bool :=
  match search_metadata_by_uuid map id with
  | Some _ => true
  | None => false
  end.

(** [key_table_id pk]: the table identifier that the key [pk] names; a key
    that is not a UUID names the nil identifier. *)
Definition key_table_id `{Collaborators} (pk : datum_t) : namespace_id_t :=
  match convert_uuid_from_datum pk with
  | Ok table_id => table_id
  | _ => nil_uuid
  end.

(** [names_unique map]: no two entries of [map] that are not deleted share
    a database and a name. *)
Definition names_unique `{Collaborators}
    (map : gmap N (deletable_t namespace_semilattice_metadata_t)) : Prop :=
  forall id1 id2 e1 e2,
    map !! id1 = Some e1 -> map !! id2 = Some e2 ->
    is_deleted e1 = false -> is_deleted e2 = false ->
    versioned_get_ref (database (get_ref e1))
      = versioned_get_ref (database (get_ref e2)) ->
    versioned_get_ref (name (get_ref e1))
      = versioned_get_ref (name (get_ref e2)) ->
    id1 = id2.

(** What a successful write did, by the payload and the entry that the key
    named: [written g join c fmt nc pk autogenerated new_value st v st'] holds
    when the write of [new_value] under the key [pk] on the state [st] can
    have returned [v] and left the state [st']. *)
Definition written `{Collaborators}
    (g : server_name_client_t -> gmap N Z -> table_shard_scheme_t ->
         outcome table_config_t)
    (join : namespaces_semilattice_metadata_t ->
            namespaces_semilattice_metadata_t ->
            namespaces_semilattice_metadata_t)
    (new_db_name_datum : datum_t)
    (fmt : admin_identifier_format_t) (nc : server_name_client_t)
    (pk : datum_t) (autogenerated : bool) (new_value : option datum_t)
    (st : backend_state) (v : option datum_t) (st' : backend_state) : Prop :=
  let table_id := key_table_id pk in
  let view := table_sl_view st in
  match new_value, search_metadata_by_uuid (namespaces view) table_id with
  | None, Some entry =>
      autogenerated = false /\ v = None /\
      st' = {| table_sl_view :=
                 join view
                   {| namespaces :=
                        <[table_id := mark_deleted entry]> (namespaces view) |};
               database_sl_view := database_sl_view st |}
  | None, None =>
      (autogenerated = false \/ convert_uuid_from_datum pk = Ok table_id) /\
      v = None /\
      st' = {| table_sl_view := join view view;
               database_sl_view := database_sl_view st |}
  | Some payload, Some entry =>
      exists row scheme,
        autogenerated = false /\
        convert_table_config_and_name_from_datum g payload true view fmt nc
          = Ok row /\
        id_out row = table_id /\
        db_out row
          = get_db_identifier fmt (database_sl_view st)
              (versioned_get_ref (database (get_ref entry))) /\
        primary_key_out row = versioned_get_ref (primary_key (get_ref entry)) /\
        calculate_split_points_intelligently table_id
          (length (shards (config_out row)))
          (shard_scheme (versioned_get_ref (replication_info (get_ref entry))))
          = Ok scheme /\
        (table_name_out row = versioned_get_ref (name (get_ref entry)) \/
         ~ name_taken (table_name_out row)
             (versioned_get_ref (database (get_ref entry)))
             (namespaces view)) /\
        v = Some (row_out fmt nc table_id (table_name_out row)
                    new_db_name_datum (updated_md (get_ref entry) row scheme)) /\
        st' = committed join st table_id (updated_md (get_ref entry) row scheme)
  | Some payload, None =>
      exists row db_id,
        autogenerated = true /\
        convert_uuid_from_datum pk = Ok table_id /\
        namespaces view !! table_id = None /\
        convert_table_config_and_name_from_datum g payload false view fmt nc
          = Ok row /\
        id_out row = table_id /\
        convert_database_id_from_datum (db_out row) fmt (database_sl_view st)
          = Ok db_id /\
        length (shards (config_out row)) = 1 /\
        ~ name_taken (table_name_out row) db_id (namespaces view) /\
        v = Some (row_out fmt nc table_id (table_name_out row)
                    new_db_name_datum (created_md row db_id one_shard)) /\
        st' = committed join st table_id (created_md row db_id one_shard)
  end.

(** ** A small cluster to run the definitions on *)

(** Three servers, one database and hand-written collaborators: servers and
    databases are displayed by name, table identifiers by a short string. *)
Module Sample.

Definition lookup_by_name (n : string) (table : list (N * string))
  : list N :=
  (fun p => p.1) <$> filter (fun p => p.2 = n) table.

Definition id_from_name (what : string) (d : datum_t)
    (table : list (N * string)) : outcome N :=
  match d with
  | R_STR n =>
      match lookup_by_name n table with
      | [id] => Ok id
      | [] => Err (what +:+ " `" +:+ n +:+ "` does not exist.")
      | _ => Err (what +:+ " `" +:+ n +:+ "` is ambiguous.")
      end
  | _ => Err "Expected a string."
  end.

Definition name_from_id (id : N) (table : list (N * string))
  : option datum_t :=
  R_STR <$> ((list_to_map table : gmap N string) !! id).

Definition uuid_strings : list (N * string) :=
  [(1%N, "t-1"); (2%N, "t-2"); (3%N, "t-3")].

Definition string_from_datum (d : datum_t) : outcome string :=
  match d with
  | R_STR s => Ok s
  | _ => Err "Expected a string."
  end.

Definition usage_of_shard (usage : gmap N Z) (shard : shard_t) : gmap N Z :=
  let bump id (u : gmap N Z) := <[id := (default 0 (u !! id) + 1)%Z]> u in
  bump (director shard) (foldr bump usage (set_in_order (replicas shard))).

#[local] Instance collaborators : Collaborators := {|
  admin_identifier_format_t := unit;
  server_name_client_t := list (N * string);
  databases_semilattice_metadata_t := list (N * string);
  table_shard_scheme_t := list string;
  print := fun _ => "<datum>";
  convert_server_id_to_datum := fun id _ nc => name_from_id id nc;
  convert_server_id_from_datum := fun d _ nc => id_from_name "Server" d nc;
  convert_name_from_datum := fun d _ => string_from_datum d;
  convert_name_to_datum := R_STR;
  convert_uuid_from_datum := fun d => id_from_name "Table" d uuid_strings;
  convert_uuid_to_datum := fun id =>
    default R_NULL (name_from_id id uuid_strings);
  convert_string_from_datum := string_from_datum;
  convert_string_to_datum := R_STR;
  convert_database_id_from_datum := fun d _ dbs => id_from_name "Database" d dbs;
  get_db_identifier := fun _ dbs id => default R_NULL (name_from_id id dbs);
  empty_shard_scheme := [];
  one_shard := [];
  calculate_server_usage := fun cfg usage =>
    foldl usage_of_shard usage (shards cfg);
  calculate_split_points_intelligently := fun _ n old =>
    Ok (take (n - 1) (old ++ replicate n "m"))
|}.

(** Servers 1, 2 and 3 are [a], [b] and [c]; later, server 1 is permanently
    removed. *)
Definition servers : list (N * string) :=
  [(1%N, "a"); (2%N, "b"); (3%N, "c")].
Definition servers_later : list (N * string) :=
  [(2%N, "b"); (3%N, "c")].
Definition databases : list (N * string) := [(7%N, "test")].

(** The default generator: one shard on server 2. *)
Definition generate_config (nc : list (N * string)) (usage : gmap N Z)
    (scheme : list string) : outcome table_config_t :=
  Ok {| shards := [ {| replicas := {[2%N]}; director := 2%N |} ] |}.

(** A join of the metadata: entries of both sides are kept, a deleted entry
    wins, and otherwise the entry of the joined-in side replaces the old
    one. *)
Definition join (a b : namespaces_semilattice_metadata_t)
  : namespaces_semilattice_metadata_t :=
  {| namespaces :=
       union_with (fun x y => Some (if is_deleted x then x else y))
         (namespaces a) (namespaces b) |}.

Definition shard_doc (replica_names : list string) (dir : datum_t) : datum_t :=
  R_OBJECT [("director", dir); ("replicas", R_ARRAY (R_STR <$> replica_names))].

(** Table [t-1], named [users], in database [test], one shard on server 1. *)
Definition users_md : namespace_semilattice_metadata_t :=
  {| name := versioned_make "users";
     database := versioned_make 7%N;
     primary_key := versioned_make "id";
     replication_info :=
       versioned_make
         {| config :=
              {| shards := [ {| replicas := {[1%N]}; director := 1%N |} ] |};
            shard_scheme := [] |} |}.

(** Table [t-2], named [posts], in the same database. *)
Definition posts_md : namespace_semilattice_metadata_t :=
  {| name := versioned_make "posts";
     database := versioned_make 7%N;
     primary_key := versioned_make "id";
     replication_info :=
       versioned_make
         {| config :=
              {| shards := [ {| replicas := {[2%N]}; director := 2%N |} ] |};
            shard_scheme := [] |} |}.

Definition state0 : backend_state :=
  {| table_sl_view :=
       {| namespaces :=
            <[1%N := deletable_make users_md]>
              (<[2%N := deletable_make posts_md]> ∅) |};
     database_sl_view := databases |}.

Definition row (id table_name db pkey : string) (shard_docs : list datum_t)
  : datum_t :=
  R_OBJECT [("db", R_STR db); ("id", R_STR id); ("name", R_STR table_name);
            ("primary_key", R_STR pkey); ("shards", R_ARRAY shard_docs)].

(** A payload that creates table [t-3] and leaves [primary_key] and
    [shards] to the backend, and a payload for table [t-1] that lacks
    [shards]. *)
Definition new_users_fields : list (string * datum_t) :=
  [("db", R_STR "test"); ("id", R_STR "t-3"); ("name", R_STR "fresh")].
Definition new_users_row : datum_t := R_OBJECT new_users_fields.
Definition users_without_shards_fields : list (string * datum_t) :=
  [("db", R_STR "test"); ("id", R_STR "t-1"); ("name", R_STR "users");
   ("primary_key", R_STR "id")].

(** Payloads for table [t-1]: with another database, with another primary
    key, with a new name and two replicas, with the name of table [t-2],
    and with the stored name and two shards. *)
Definition users_db_changed : datum_t :=
  row "t-1" "users" "other" "id" [shard_doc ["a"] (R_STR "a")].
Definition users_pkey_changed : datum_t :=
  row "t-1" "users" "test" "uid" [shard_doc ["a"] (R_STR "a")].
Definition users_renamed : datum_t :=
  row "t-1" "members" "test" "id" [shard_doc ["a"; "b"] (R_STR "b")].
Definition users_to_posts : datum_t :=
  row "t-1" "posts" "test" "id" [shard_doc ["a"] (R_STR "a")].
Definition users_resharded : datum_t :=
  row "t-1" "users" "test" "id"
    [shard_doc ["a"] (R_STR "a"); shard_doc ["b"] (R_STR "b")].

(** Payloads that create table [t-3]: with two shards, and with the name of
    table [t-1]. *)
Definition fresh_two_shards : datum_t :=
  row "t-3" "fresh" "test" "id"
    [shard_doc ["a"] (R_STR "a"); shard_doc ["b"] (R_STR "b")].
Definition fresh_named_users : datum_t :=
  R_OBJECT [("db", R_STR "test"); ("id", R_STR "t-3");
            ("name", R_STR "users")].

(** The row that a payload decodes to on [state0]. *)
Definition decoded (existed_before : bool) (new_value : datum_t)
  : decoded_row :=
  match convert_table_config_and_name_from_datum generate_config new_value
          existed_before (table_sl_view state0) tt servers with
  | Ok decoded_value => decoded_value
  | _ => {| table_name_out := ""; db_out := R_NULL; id_out := nil_uuid;
            config_out := {| shards := [] |}; primary_key_out := "" |}
  end.

Definition run_write_row (pkey : datum_t) (autogenerated : bool)
    (new_value : option datum_t) (st : backend_state)
  : outcome (option datum_t) * backend_state :=
  write_row generate_config join "test" (R_STR "test") tt servers pkey
    autogenerated new_value st.

(** Shards on servers 1 and 2, and a configuration of two shards. *)
Definition shard_a : shard_t := {| replicas := {[1%N]}; director := 1%N |}.
Definition shard_ab : shard_t :=
  {| replicas := {[1%N; 2%N]}; director := 1%N |}.
Definition shard_b : shard_t := {| replicas := {[2%N]}; director := 2%N |}.
Definition two_shards : table_config_t := {| shards := [shard_ab; shard_b] |}.

(** The state in which table [t-1] has been deleted. *)
Definition state_gone : backend_state :=
  {| table_sl_view :=
       {| namespaces :=
            <[1%N := mark_deleted (deletable_make users_md)]>
              (<[2%N := deletable_make posts_md]> ∅) |};
     database_sl_view := databases |}.

(** Payloads: for table [t-1] under the [id] of table [t-2], and one that
    creates table [t-3] in a database that does not exist. *)
Definition users_as_posts_id : datum_t :=
  row "t-2" "users" "test" "id" [shard_doc ["a"] (R_STR "a")].
Definition fresh_in_nowhere : datum_t :=
  R_OBJECT [("db", R_STR "nowhere"); ("id", R_STR "t-3");
            ("name", R_STR "fresh")].

(** A payload under the identifier [t-1] without [primary_key] and
    [shards], as for a new table. *)
Definition fresh_as_users : datum_t :=
  R_OBJECT [("db", R_STR "test"); ("id", R_STR "t-1");
            ("name", R_STR "again")].

(** The row that a payload decodes to on a state. *)
Definition decoded_on (st : backend_state) (existed_before : bool)
    (new_value : datum_t) : decoded_row :=
  match convert_table_config_and_name_from_datum generate_config new_value
          existed_before (table_sl_view st) tt servers with
  | Ok decoded_value => decoded_value
  | _ => {| table_name_out := ""; db_out := R_NULL; id_out := nil_uuid;
            config_out := {| shards := [] |}; primary_key_out := "" |}
  end.

End Sample.

(** The same cluster with a recalculation of split points that succeeds
    for one shard only: for two shards it reports an error, and for more
    it is interrupted. *)
Module Stuck.
Import Sample.

#[local] Instance stuck_collaborators : Collaborators := {|
  admin_identifier_format_t := unit;
  server_name_client_t := list (N * string);
  databases_semilattice_metadata_t := list (N * string);
  table_shard_scheme_t := list string;
  print := fun _ => "<datum>";
  convert_server_id_to_datum := fun id _ nc => name_from_id id nc;
  convert_server_id_from_datum := fun d _ nc => id_from_name "Server" d nc;
  convert_name_from_datum := fun d _ => string_from_datum d;
  convert_name_to_datum := R_STR;
  convert_uuid_from_datum := fun d => id_from_name "Table" d uuid_strings;
  convert_uuid_to_datum := fun id =>
    default R_NULL (name_from_id id uuid_strings);
  convert_string_from_datum := string_from_datum;
  convert_string_to_datum := R_STR;
  convert_database_id_from_datum := fun d _ dbs => id_from_name "Database" d dbs;
  get_db_identifier := fun _ dbs id => default R_NULL (name_from_id id dbs);
  empty_shard_scheme := [];
  one_shard := [];
  calculate_server_usage := fun cfg usage =>
    foldl usage_of_shard usage (shards cfg);
  calculate_split_points_intelligently := fun _ n old =>
    match n with
    | 1 => Ok old
    | 2 => Err "The table is too small to be split."
    | _ => Interrupted
    end
|}.

Definition stuck_join (a b : namespaces_semilattice_metadata_t)
  : namespaces_semilattice_metadata_t :=
  {| namespaces :=
       union_with (fun x y => Some (if is_deleted x then x else y))
         (namespaces a) (namespaces b) |}.

Definition stuck_users_md : namespace_semilattice_metadata_t :=
  {| name := versioned_make "users";
     database := versioned_make 7%N;
     primary_key := versioned_make "id";
     replication_info :=
       versioned_make
         {| config := {| shards := [shard_a] |}; shard_scheme := [] |} |}.

Definition stuck_state0 : backend_state :=
  {| table_sl_view :=
       {| namespaces := <[1%N := deletable_make stuck_users_md]> ∅ |};
     database_sl_view := databases |}.

(** Payloads for table [t-1] with two and with three shards. *)
Definition users_two_shards : datum_t :=
  row "t-1" "users" "test" "id"
    [shard_doc ["a"] (R_STR "a"); shard_doc ["b"] (R_STR "b")].
Definition users_three_shards : datum_t :=
  row "t-1" "users" "test" "id"
    [shard_doc ["a"] (R_STR "a"); shard_doc ["b"] (R_STR "b");
     shard_doc ["a"; "b"] (R_STR "a")].

Definition decoded_users (shard_list : list shard_t) : decoded_row :=
  {| table_name_out := "users"; db_out := R_STR "test"; id_out := 1%N;
     config_out := {| shards := shard_list |}; primary_key_out := "id" |}.

Definition stuck_run_write_row (pkey : datum_t) (autogenerated : bool)
    (new_value : option datum_t) (st : backend_state)
  : outcome (option datum_t) * backend_state :=
  write_row generate_config stuck_join "test" (R_STR "test") tt servers pkey
    autogenerated new_value st.

End Stuck.


(** * Properties *)

(** ** Documents *)

Lemma datum_eqb_eq (a b : datum_t) : datum_eqb a b = true <-> a = b.
Proof.
  revert a b. fix IH 1.
  intros [|x|x|x|xs|xs] [|y|y|y|ys|ys]; simpl; try (split; congruence).
  - rewrite Bool.eqb_true_iff. split; congruence.
  - rewrite Z.eqb_eq. split; congruence.
  - rewrite String.eqb_eq. split; congruence.
  - enough (forall ys,
      (fix go (xs ys : list datum_t) {struct xs} : bool :=
         match xs, ys with
         | [], [] => true
         | x :: xs', y :: ys' => datum_eqb x y && go xs' ys'
         | _, _ => false
         end) xs ys = true <-> xs = ys) as Hgo.
    { rewrite Hgo. split; congruence. }
    clear ys. induction xs as [|x xs IHxs]; intros [|y ys];
      try (split; congruence).
    rewrite andb_true_iff, (IH x y), IHxs.
    split; [intros []; congruence | intros [= -> ->]; auto].
  - enough (forall ys,
      (fix go (xs ys : list (string * datum_t)) {struct xs} : bool :=
         match xs, ys with
         | [], [] => true
         | (k, x) :: xs', (k', y) :: ys' =>
             String.eqb k k' && datum_eqb x y && go xs' ys'
         | _, _ => false
         end) xs ys = true <-> xs = ys) as Hgo.
    { rewrite Hgo. split; congruence. }
    clear ys. induction xs as [|[k x] xs IHxs]; intros [|[k' y] ys];
      try (split; congruence).
    rewrite !andb_true_iff, String.eqb_eq, (IH x y), IHxs.
    split; [intros [[] ?]|]; try congruence.
    intros [= -> -> ->]. auto.
Qed.

Lemma datum_eqb_refl (a : datum_t) : datum_eqb a a = true.
Proof. by apply datum_eqb_eq. Qed.

Lemma datum_eqb_neq (a b : datum_t) : datum_eqb a b = false <-> a <> b.
Proof.
  rewrite <- datum_eqb_eq. destruct (datum_eqb a b); split; congruence.
Qed.

#[global] Instance datum_eq_dec : EqDecision datum_t.
Proof.
  intros a b. destruct (datum_eqb a b) eqn:E.
  - left. by apply datum_eqb_eq.
  - right. by apply datum_eqb_neq.
Defined.

(** ** The outcome monad *)

Lemma obind_ok {A B} (x : outcome A) (k : A -> outcome B) (b : B) :
  x ≫= k = Ok b -> exists a, x = Ok a /\ k a = Ok b.
Proof. destruct x; simpl; try discriminate. eauto. Qed.

Lemma prefixed_ok {A} (p : string) (x : outcome A) (a : A) :
  prefixed p x = Ok a <-> x = Ok a.
Proof. destruct x; simpl; split; congruence. Qed.

(** Unfolds one successful step of a decoder: [H : x ≫= k = Ok b] becomes
    [Ha : x = Ok a] and [H : k a = Ok b]. *)
Tactic Notation "ok_step" hyp(H) "as" simple_intropattern(a) ident(Ha) :=
  apply obind_ok in H as (a & Ha & H).

Section CodecProperties.
Context `{Collab : Collaborators}.

Implicit Types (fmt : admin_identifier_format_t) (nc : server_name_client_t).

Lemma converter_get_ok key c v c' :
  converter_get key c = Ok (v, c') ->
  get_field key (datum c) = Some v /\ datum c' = datum c /\
  extra_keys c' = extra_keys c ∖ {[key]}.
Proof.
  unfold converter_get. destruct (get_field key (datum c)); [|discriminate].
  intros [= <- <-]. auto.
Qed.

Lemma converter_get_present key c v :
  get_field key (datum c) = Some v ->
  converter_get key c =
    Ok (v, {| datum := datum c; extra_keys := extra_keys c ∖ {[key]} |}).
Proof. unfold converter_get. by intros ->. Qed.

Lemma converter_get_absent key c :
  get_field key (datum c) = None ->
  converter_get key c = Err ("Expected a field named `" +:+ key +:+ "`.").
Proof. unfold converter_get. by intros ->. Qed.

(** What the replica loop computes when every entry resolves. *)
Lemma decode_replicas_resolved fmt nc elems ids acc :
  Forall2 (resolves fmt nc) elems ids ->
  decode_replicas fmt nc elems acc =
    if decide (NoDup ids /\ Forall (fun id => id ∉ acc) ids)
    then Ok (list_to_set ids ∪ acc)
    else Err duplicate_msg.
Proof.
  intros Hres. revert acc.
  induction Hres as [|e id elems ids He _ IH]; intros acc;
    cbn [decode_replicas].
  - rewrite decide_True by (split; constructor). f_equal. set_solver.
  - unfold resolves in He. rewrite He. cbn [prefixed mbind outcome_bind obind].
    destruct (decide (id ∈ acc)) as [Hin|Hin].
    + rewrite decide_False; [done|].
      intros [_ Hacc]. by inversion Hacc.
    + rewrite IH. destruct (decide (NoDup ids /\ _)) as [[Hnd Hacc]|Hno].
      * rewrite decide_True.
        { f_equal. set_solver. }
        split.
        -- constructor; [|done]. intros Hid.
           rewrite Forall_forall in Hacc. apply (Hacc id Hid). set_solver.
        -- constructor; [done|]. eapply Forall_impl; [exact Hacc|].
           set_solver.
      * rewrite decide_False; [done|].
        intros [Hnd Hacc]. apply Hno.
        inversion Hnd; subst. inversion Hacc; subst. split; [done|].
        rewrite Forall_forall in *. intros x Hx. set_solver.
Qed.

(** An accepted replica array resolves entry by entry. *)
Lemma decode_replicas_ok fmt nc elems acc s :
  decode_replicas fmt nc elems acc = Ok s ->
  exists ids, Forall2 (resolves fmt nc) elems ids.
Proof.
  revert acc. induction elems as [|e elems IH]; intros acc; simpl.
  - exists []. constructor.
  - intros Hd. ok_step Hd as id Hid. apply prefixed_ok in Hid.
    destruct (decide (id ∈ acc)); [discriminate|].
    destruct (IH _ Hd) as [ids Hids]. exists (id :: ids). by constructor.
Qed.

Lemma decode_replicas_accepts fmt nc elems s :
  decode_replicas fmt nc elems ∅ = Ok s ->
  exists ids, Forall2 (resolves fmt nc) elems ids /\ NoDup ids /\
              s = list_to_set ids.
Proof.
  intros Hd. destruct (decode_replicas_ok _ _ _ _ _ Hd) as [ids Hids].
  exists ids. split; [done|].
  rewrite (decode_replicas_resolved _ _ _ _ _ Hids) in Hd.
  destruct (decide _) as [[Hnd _]|]; [|discriminate].
  split; [done|]. injection Hd as <-. set_solver.
Qed.

(** The director step of lines 83-101. *)
Lemma decode_director_ok fmt nc dd (s : gset N) dir :
  match dd return outcome server_id_t with
  | R_NULL => Ok nil_uuid
  | _ =>
      dir ← prefixed "In `director`: "
              (convert_server_id_from_datum dd fmt nc);
      if decide (dir ∈ s) then Ok dir
      else Err "The director must be one of the replicas."
  end = Ok dir ->
  dd = R_NULL /\ dir = nil_uuid \/
  dd <> R_NULL /\ resolves fmt nc dd dir /\ dir ∈ s.
Proof.
  intros Hd. destruct (decide (dd = R_NULL)) as [->|Hnn].
  - left. split; [done|]. by injection Hd as <-.
  - right. split; [done|].
    assert ((dir' ← prefixed "In `director`: "
                       (convert_server_id_from_datum dd fmt nc);
             if decide (dir' ∈ s) then Ok dir'
             else Err "The director must be one of the replicas.") = Ok dir)
      as Hd' by (by destruct dd).
    ok_step Hd' as dir' Hres. apply prefixed_ok in Hres.
    destruct (decide (dir' ∈ s)); [|discriminate].
    injection Hd' as <-. done.
Qed.

Lemma converter_check_ok c u :
  converter_check_no_extra_keys c = Ok u -> extra_keys c = ∅.
Proof.
  unfold converter_check_no_extra_keys.
  by destruct (decide (extra_keys c = ∅)).
Qed.

(** The shape of every document that the shard decoder accepts. *)
Lemma shard_from_datum_ok d fmt nc shard :
  convert_table_config_shard_from_datum d fmt nc = Ok shard ->
  exists fields elems ids dd,
    d = R_OBJECT fields /\
    get_field "replicas" fields = Some (R_ARRAY elems) /\
    Forall2 (resolves fmt nc) elems ids /\ NoDup ids /\ ids <> [] /\
    replicas shard = list_to_set ids /\
    get_field "director" fields = Some dd /\
    (dd = R_NULL /\ director shard = nil_uuid \/
     dd <> R_NULL /\ resolves fmt nc dd (director shard) /\
     director shard ∈ ids) /\
    (forall k, k ∈ fields.*1 -> k = "replicas" \/ k = "director").
Proof.
  unfold convert_table_config_shard_from_datum. intros Hd.
  ok_step Hd as c0 Hinit. destruct d as [| | | | |fields]; try discriminate.
  injection Hinit as <-.
  ok_step Hd as [replicas_datum c1] Hget.
  apply converter_get_ok in Hget as (Hrep & Hdat1 & Hkeys1).
  simpl in Hrep, Hkeys1.
  destruct replicas_datum as [| | | |elems|]; try discriminate.
  ok_step Hd as s Hloop.
  apply decode_replicas_accepts in Hloop as (ids & Hres & Hnd & ->).
  destruct (decide (list_to_set ids = ∅)) as [|Hne]; [discriminate|].
  ok_step Hd as [dd c2] Hget.
  apply converter_get_ok in Hget as (Hdir & _ & Hkeys2).
  rewrite Hdat1 in Hdir. simpl in Hdir.
  ok_step Hd as dir Hdirector. ok_step Hd as u Hextra. injection Hd as <-.
  apply converter_check_ok in Hextra.
  exists fields, elems, ids, dd. simpl.
  repeat split; try done.
  - intros ->. by apply Hne.
  - apply decode_director_ok in Hdirector as [?|(? & ? & Hin)]; [by left|].
    right. repeat split; try done. by apply elem_of_list_to_set in Hin.
  - intros k Hk. rewrite Hkeys2, Hkeys1 in Hextra.
    destruct (decide (k = "replicas")) as [|Hk1]; [by left|].
    destruct (decide (k = "director")) as [|Hk2]; [by right|].
    exfalso. set_solver.
Qed.

(** Unfolds the decoder on an object whose [replicas] field is an array. *)
Lemma shard_from_datum_replicas fields elems fmt nc :
  get_field "replicas" fields = Some (R_ARRAY elems) ->
  convert_table_config_shard_from_datum (R_OBJECT fields) fmt nc =
    (shard_replicas ← decode_replicas fmt nc elems ∅;
     if decide (shard_replicas = ∅) then Err no_replica_msg
     else
       '(director_datum, converter) ←
         converter_get "director"
           {| datum := fields;
              extra_keys := list_to_set (fields.*1) ∖ {["replicas"]} |};
       shard_director ←
         match director_datum return outcome server_id_t with
         | R_NULL => Ok nil_uuid
         | _ =>
             dir ← prefixed "In `director`: "
                     (convert_server_id_from_datum director_datum fmt nc);
             if decide (dir ∈ shard_replicas) then Ok dir
             else Err director_msg
         end;
       _ ← converter_check_no_extra_keys converter;
       Ok {| replicas := shard_replicas; director := shard_director |}).
Proof.
  intros Hrep. unfold convert_table_config_shard_from_datum, converter_init.
  cbn [mbind outcome_bind obind].
  rewrite (converter_get_present "replicas" _ (R_ARRAY elems)) by done.
  reflexivity.
Qed.

(** C1. Every shard document that the decoder accepts yields a shard whose
    replica set is not empty and lists no server twice (the entries of the
    [replicas] array resolve to pairwise distinct servers, one per entry),
    and whose director is the nil sentinel when the document's [director]
    is null and a member of the decoded replica set otherwise.  A document
    whose replicas resolve to a repeated server, whose replica array is
    empty, or whose non-null director resolves outside the replica set is
    rejected with the three messages of the decoder. *)
Theorem shard_decoder_invariants (d : datum_t) fmt nc :
  (forall shard,
     convert_table_config_shard_from_datum d fmt nc = Ok shard ->
     replicas shard <> ∅ /\ 1 <= size (replicas shard) /\
     (exists fields elems ids dd,
        d = R_OBJECT fields /\
        get_field "replicas" fields = Some (R_ARRAY elems) /\
        get_field "director" fields = Some dd /\
        Forall2 (resolves fmt nc) elems ids /\ NoDup ids /\
        replicas shard = list_to_set ids /\
        size (replicas shard) = length elems /\
        (dd = R_NULL -> director shard = nil_uuid) /\
        (dd <> R_NULL -> director shard ∈ replicas shard)) /\
     (director shard = nil_uuid \/ director shard ∈ replicas shard)) /\
  (forall fields elems ids,
     d = R_OBJECT fields ->
     get_field "replicas" fields = Some (R_ARRAY elems) ->
     Forall2 (resolves fmt nc) elems ids -> ~ NoDup ids ->
     convert_table_config_shard_from_datum d fmt nc = Err duplicate_msg) /\
  (forall fields,
     d = R_OBJECT fields ->
     get_field "replicas" fields = Some (R_ARRAY []) ->
     convert_table_config_shard_from_datum d fmt nc = Err no_replica_msg) /\
  (forall fields elems ids dd dir,
     d = R_OBJECT fields ->
     get_field "replicas" fields = Some (R_ARRAY elems) ->
     Forall2 (resolves fmt nc) elems ids -> NoDup ids -> ids <> [] ->
     get_field "director" fields = Some dd -> dd <> R_NULL ->
     resolves fmt nc dd dir -> dir ∉ ids ->
     convert_table_config_shard_from_datum d fmt nc = Err director_msg).
Proof.
  repeat split.
  - apply shard_from_datum_ok in H
      as (fields & elems & ids & dd & -> & _ & _ & _ & Hne & -> & _).
    intros Hempty. destruct ids as [|id ids]; [done|]. set_solver.
  - apply shard_from_datum_ok in H
      as (fields & elems & ids & dd & -> & _ & _ & Hnd & Hne & -> & _).
    rewrite size_list_to_set by done. destruct ids; [done|simpl; lia].
  - apply shard_from_datum_ok in H
      as (fields & elems & ids & dd & -> & Hrep & Hres & Hnd & Hne & Hset
          & Hdir & Hcases & _).
    exists fields, elems, ids, dd. rewrite Hset.
    repeat split; try done.
    + rewrite size_list_to_set by done. symmetry.
      by eapply Forall2_length.
    + intros ->. by destruct Hcases as [[_ ?]|[? _]].
    + intros Hnn. destruct Hcases as [[? _]|(_ & _ & Hin)]; [done|].
      by apply elem_of_list_to_set.
  - apply shard_from_datum_ok in H
      as (fields & elems & ids & dd & -> & _ & _ & _ & _ & Hset & _ & Hcases
          & _).
    destruct Hcases as [[_ ?]|(_ & _ & Hin)]; [by left|right].
    rewrite Hset. by apply elem_of_list_to_set.
  - intros fields elems ids -> Hrep Hres Hdup.
    rewrite (shard_from_datum_replicas _ _ _ _ Hrep),
      (decode_replicas_resolved _ _ _ _ _ Hres).
    rewrite decide_False; [done|]. by intros [? _].
  - intros fields -> Hrep.
    by rewrite (shard_from_datum_replicas _ _ _ _ Hrep).
  - intros fields elems ids dd dir -> Hrep Hres Hnd Hne Hdir Hnn Hdd Hout.
    rewrite (shard_from_datum_replicas _ _ _ _ Hrep),
      (decode_replicas_resolved _ _ _ _ _ Hres).
    rewrite decide_True by (split; [done|]; apply Forall_forall; set_solver).
    cbn [mbind outcome_bind obind].
    rewrite decide_False by (destruct ids; [done|set_solver]).
    rewrite (converter_get_present "director" _ dd) by done.
    cbn [mbind outcome_bind obind].
    assert (forall s : gset N, dir ∉ s ->
      match dd return outcome server_id_t with
      | R_NULL => Ok nil_uuid
      | _ =>
          dir ← prefixed "In `director`: "
                  (convert_server_id_from_datum dd fmt nc);
          if decide (dir ∈ s) then Ok dir else Err director_msg
      end = Err director_msg) as Hstep.
    { intros s Hs. unfold resolves in Hdd.
      destruct dd; try done; rewrite Hdd; cbn [prefixed mbind outcome_bind obind];
        by rewrite decide_False. }
    rewrite Hstep; [done|]. set_solver.
Qed.

(** *** The encoder *)

Lemma encode_loop_omap {A B} (f : A -> option B) (l : list A) (init : list B) :
  foldl (fun acc x => match f x with Some y => acc ++ [y] | None => acc end)
        init l = init ++ omap f l.
Proof.
  revert init. induction l as [|x l IH]; intros init; simpl.
  - by rewrite app_nil_r.
  - rewrite IH. destruct (f x); [|done]. by rewrite <- app_assoc.
Qed.

Lemma set_in_order_perm (s : gset N) : set_in_order s ≡ₚ elements s.
Proof. apply merge_sort_Permutation. Qed.

Lemma set_in_order_length (s : gset N) : length (set_in_order s) = size s.
Proof. by rewrite set_in_order_perm. Qed.

Lemma elem_of_set_in_order (s : gset N) (x : N) : x ∈ set_in_order s <-> x ∈ s.
Proof. by rewrite set_in_order_perm, elem_of_elements. Qed.

Lemma omap_filter_length {A B} (f : A -> option B) (l : list A) :
  length (omap f l) + length (filter (fun x => f x = None) l) = length l.
Proof.
  induction l as [|x l IH]; [done|]. simpl.
  rewrite filter_cons. unfold omap in IH.
  destruct (f x) eqn:Hx; simpl; lia.
Qed.

Lemma shard_to_datum_unfold shard fmt nc :
  convert_table_config_shard_to_datum shard fmt nc =
    R_OBJECT
      [("director", default R_NULL (displays fmt nc (director shard)));
       ("replicas",
        R_ARRAY (omap (displays fmt nc) (set_in_order (replicas shard))))].
Proof.
  unfold convert_table_config_shard_to_datum, displays.
  rewrite (encode_loop_omap
             (fun id => convert_server_id_to_datum id fmt nc)).
  by destruct (convert_server_id_to_datum (director shard) fmt nc).
Qed.

(** C6. The shard encoder is a total function: for every shard it returns
    an object with the two fields [director] and [replicas].  The
    [replicas] array holds the display forms of exactly those replicas that
    resolve, so each replica that fails to resolve is left out and the array
    can be shorter than the replica set; the [director] field is the display
    form of the director, and null when the director fails to resolve. *)
Theorem shard_encoder_total (shard : shard_t) fmt nc :
  exists out dir,
    convert_table_config_shard_to_datum shard fmt nc =
      R_OBJECT [("director", dir); ("replicas", R_ARRAY out)] /\
    out = omap (displays fmt nc) (set_in_order (replicas shard)) /\
    (forall y, y ∈ out <->
               exists id, id ∈ replicas shard /\ displays fmt nc id = Some y) /\
    length out +
      length (filter (fun id => displays fmt nc id = None)
                (set_in_order (replicas shard))) = size (replicas shard) /\
    length out <= size (replicas shard) /\
    dir = match displays fmt nc (director shard) with
          | Some director_datum => director_datum
          | None => R_NULL
          end.
Proof.
  exists (omap (displays fmt nc) (set_in_order (replicas shard))),
         (default R_NULL (displays fmt nc (director shard))).
  pose proof (omap_filter_length (displays fmt nc)
                (set_in_order (replicas shard))) as Hlen.
  rewrite set_in_order_length in Hlen.
  repeat split; try done.
  - apply shard_to_datum_unfold.
  - intros (id & Hid & Hy)%list_elem_of_omap.
    exists id. by rewrite <- elem_of_set_in_order.
  - intros (id & Hid & Hy). apply list_elem_of_omap.
    exists id. by rewrite elem_of_set_in_order.
  - lia.
Qed.

(** *** Decoding and encoding again *)

Lemma omap_redisplay fmt nc nc' elems ids :
  Forall2 (resolves fmt nc) elems ids ->
  omap (displays fmt nc') ids = omap (redisplay fmt nc nc') elems.
Proof.
  induction 1 as [|e id elems ids He _ IH]; [done|].
  unfold omap in *. simpl.
  unfold redisplay at 1. unfold resolves in He. rewrite He, IH. done.
Qed.

Lemma omap_coherent {A} (f : A -> option A) (l : list A) :
  (forall x y, f x = Some y -> y = x) ->
  omap f l = filter (fun x => is_Some (f x)) l.
Proof.
  intros Hf. induction l as [|x l IH]; [done|].
  unfold omap in *. simpl.
  rewrite filter_cons. destruct (f x) as [y|] eqn:Hx.
  - rewrite decide_True by eauto. rewrite (Hf _ _ Hx), IH. done.
  - rewrite decide_False by (by intros [? ?]). done.
Qed.

(** C2, as amended.  Let the document [d] be accepted under the name client
    [nc] and the decoded shard be encoded under the name client [nc'], where
    the nil identifier resolves to no server and a server that still
    resolves is displayed as the entry that named it.  Then [d] is an object
    with exactly the fields [replicas] and [director], and so is the output;
    the output lists, up to order, the entries of [d] whose servers still
    resolve; and the output director is the director of [d], except that it
    is null when the director of [d] is null or its server no longer
    resolves. *)
Theorem shard_round_trip (d : datum_t) fmt nc nc' (shard : shard_t)
    (Hnil : displays fmt nc' nil_uuid = None)
    (Hcoherent : forall e y, redisplay fmt nc nc' e = Some y -> y = e)
    (Hdecode : convert_table_config_shard_from_datum d fmt nc = Ok shard) :
  exists fields elems dd out dir,
    d = R_OBJECT fields /\
    get_field "replicas" fields = Some (R_ARRAY elems) /\
    get_field "director" fields = Some dd /\
    (forall k, k ∈ fields.*1 -> k = "replicas" \/ k = "director") /\
    convert_table_config_shard_to_datum shard fmt nc' =
      R_OBJECT [("director", dir); ("replicas", R_ARRAY out)] /\
    out ≡ₚ filter (fun e => is_Some (redisplay fmt nc nc' e)) elems /\
    dir = match dd with
          | R_NULL => R_NULL
          | _ => match redisplay fmt nc nc' dd with
                 | Some _ => dd
                 | None => R_NULL
                 end
          end.
Proof.
  apply shard_from_datum_ok in Hdecode
    as (fields & elems & ids & dd & -> & Hrep & Hres & Hnd & _ & Hset & Hdir
        & Hcases & Hkeys).
  exists fields, elems, dd,
    (omap (displays fmt nc') (set_in_order (replicas shard))),
    (default R_NULL (displays fmt nc' (director shard))).
  repeat split; try done.
  - apply shard_to_datum_unfold.
  - rewrite set_in_order_perm, Hset, (elements_list_to_set ids) by done.
    rewrite (omap_redisplay _ _ _ _ _ Hres).
    by rewrite (omap_coherent _ _ Hcoherent).
  - destruct Hcases as [[-> ->]|(Hnn & Hdd & _)].
    + by rewrite Hnil.
    + assert (redisplay fmt nc nc' dd = displays fmt nc' (director shard))
        as Hre by (unfold redisplay; unfold resolves in Hdd; by rewrite Hdd).
      rewrite <- Hre.
      destruct (redisplay fmt nc nc' dd) as [y|] eqn:Hy; simpl.
      * apply Hcoherent in Hy as ->. by destruct dd.
      * by destruct dd.
Qed.

End CodecProperties.

(** ** The table-level decoder *)

Section DecoderProperties.
Context `{Collab : Collaborators}.

Implicit Types (fmt : admin_identifier_format_t) (nc : server_name_client_t).
Implicit Types (md : namespaces_semilattice_metadata_t).
Implicit Types
  (g : server_name_client_t -> gmap N Z -> table_shard_scheme_t ->
       outcome table_config_t).

(** The decoder on a row whose [name], [db] and [id] decode: what is left
    are the steps on [primary_key] and [shards] and the final check. *)
Lemma table_decode_head g fields eb md fmt nc n db id :
  row_head_ok fields n db id ->
  convert_table_config_and_name_from_datum g (R_OBJECT fields) eb md fmt nc =
    (let converter :=
       {| datum := fields;
          extra_keys :=
            list_to_set (fields.*1) ∖ {["name"]} ∖ {["db"]} ∖ {["id"]} |} in
     '(pkey, converter) ←
       (if eb || converter_has "primary_key" converter
        then
          '(primary_key_datum, converter) ←
            converter_get "primary_key" converter;
          pkey ← prefixed "In `primary_key`: "
            (convert_string_from_datum primary_key_datum);
          Ok (pkey, converter)
        else Ok ("id", converter));
     '(cfg, converter) ←
       (if eb || converter_has "shards" converter
        then
          '(shards_datum, converter) ← converter_get "shards" converter;
          decoded_shards ← prefixed "In `shards`: "
            (convert_vector_from_datum
               (fun shard_datum =>
                  convert_table_config_shard_from_datum shard_datum fmt nc)
               shards_datum);
          match decoded_shards with
          | [] => Err "In `shards`: You must specify at least one shard."
          | _ => Ok ({| shards := decoded_shards |}, converter)
          end
        else
          generated ← prefixed "When generating configuration for new table: "
            (g nc (server_usage_of md) empty_shard_scheme);
          Ok (generated, converter));
     _ ← converter_check_no_extra_keys converter;
     Ok {| table_name_out := n; db_out := db; id_out := id;
           config_out := cfg; primary_key_out := pkey |}).
Proof.
  intros (nd & idd & Hname & Hn & Hdb & Hidd & Hid).
  unfold convert_table_config_and_name_from_datum, converter_init.
  cbn [mbind outcome_bind obind].
  rewrite (converter_get_present "name" _ nd) by done.
  cbn [mbind outcome_bind obind]. rewrite Hn.
  cbn [mbind outcome_bind obind prefixed].
  rewrite (converter_get_present "db" _ db) by done.
  cbn [mbind outcome_bind obind datum extra_keys].
  rewrite (converter_get_present "id" _ idd) by done.
  cbn [mbind outcome_bind obind datum extra_keys]. rewrite Hid.
  reflexivity.
Qed.

(** An accepted row has the three leading fields. *)
Lemma table_decode_ok_head g d eb md fmt nc row :
  convert_table_config_and_name_from_datum g d eb md fmt nc = Ok row ->
  exists fields,
    d = R_OBJECT fields /\
    row_head_ok fields (table_name_out row) (db_out row) (id_out row).
Proof.
  unfold convert_table_config_and_name_from_datum. intros Hd.
  ok_step Hd as c0 Hinit. destruct d as [| | | | |fields]; try discriminate.
  injection Hinit as <-. exists fields. split; [done|].
  ok_step Hd as [nd c1] Hget.
  apply converter_get_ok in Hget as (Hname & Hdat1 & _). simpl in Hname.
  ok_step Hd as n Hn. apply prefixed_ok in Hn.
  ok_step Hd as [db c2] Hget.
  apply converter_get_ok in Hget as (Hdb & Hdat2 & _).
  rewrite Hdat1 in Hdb. simpl in Hdb.
  ok_step Hd as [idd c3] Hget.
  apply converter_get_ok in Hget as (Hidd & Hdat3 & _).
  rewrite Hdat2, Hdat1 in Hidd. simpl in Hidd.
  ok_step Hd as id Hid. apply prefixed_ok in Hid.
  ok_step Hd as [pkey c4] Hpk. ok_step Hd as [cfg c5] Hcfg.
  ok_step Hd as u Hextra. injection Hd as <-. simpl.
  exists nd, idd. done.
Qed.

Lemma converter_has_spec key c :
  converter_has key c = true <-> is_Some (get_field key (datum c)).
Proof.
  unfold converter_has. destruct (get_field key (datum c)); split; try done.
Qed.

(** The shape of every row that the table-level decoder accepts. *)
Lemma table_decode_ok g d eb md fmt nc row :
  convert_table_config_and_name_from_datum g d eb md fmt nc = Ok row ->
  exists fields,
    d = R_OBJECT fields /\
    row_head_ok fields (table_name_out row) (db_out row) (id_out row) /\
    row_pkey_ok eb fields (primary_key_out row) /\
    row_shards_ok g eb md fmt nc fields (config_out row).
Proof.
  intros Hd.
  destruct (table_decode_ok_head _ _ _ _ _ _ _ Hd) as (fields & -> & Hhead).
  exists fields. do 2 (split; [done|]).
  rewrite (table_decode_head _ _ _ _ _ _ _ _ _ Hhead) in Hd. cbn zeta in Hd.
  ok_step Hd as [pkey c4] Hpk. ok_step Hd as [cfg c5] Hcfg.
  ok_step Hd as u Hextra. injection Hd as <-. simpl.
  assert (row_pkey_ok eb fields pkey /\ datum c4 = fields) as [Hpkey Hdat4].
  { unfold row_pkey_ok, converter_has in *. simpl in Hpk.
    destruct (get_field "primary_key" fields) as [pkd|] eqn:Hf.
    - rewrite orb_true_r in Hpk. ok_step Hpk as [pkd' c] Hget.
      apply converter_get_ok in Hget as (Hget & Hdat & _). simpl in Hget, Hdat.
      ok_step Hpk as pk Hconv. apply prefixed_ok in Hconv.
      injection Hpk as <- <-. split; congruence.
    - rewrite orb_false_r in Hpk. destruct eb.
      + ok_step Hpk as [pkd' c] Hget.
        apply converter_get_ok in Hget as (Hget & _). simpl in Hget.
        congruence.
      + by injection Hpk as <- <-. }
  split; [done|].
  unfold row_shards_ok, converter_has in *. rewrite Hdat4 in Hcfg.
  destruct (get_field "shards" fields) as [sd|] eqn:Hf.
  - rewrite orb_true_r in Hcfg. ok_step Hcfg as [sd' c] Hget.
    apply converter_get_ok in Hget as (Hget & _).
    rewrite Hdat4, Hf in Hget. injection Hget as <-.
    ok_step Hcfg as decoded Hvec. apply prefixed_ok in Hvec.
    destruct sd as [| | | |elems|]; try discriminate.
    exists elems. destruct decoded as [|sh decoded]; [discriminate|].
    injection Hcfg as <- <-. done.
  - rewrite orb_false_r in Hcfg. destruct eb.
    + ok_step Hcfg as [sd' c] Hget.
      apply converter_get_ok in Hget as (Hget & _). congruence.
    + ok_step Hcfg as generated Hgen. apply prefixed_ok in Hgen.
      by injection Hcfg as <- <-.
Qed.

(** C8. When the table did not exist before and the row has no
    [primary_key] field, an accepted row decodes to the primary key ["id"].
    When the table existed before, or the field is supplied, an accepted row
    has the field and the field decodes as a string to the primary key; a
    row of an existing table without the field is rejected for the missing
    field, and a supplied field that does not decode as a string is rejected
    with the decoder's message under the prefix of the field. *)
Theorem primary_key_default g (fields : list (string * datum_t)) (eb : bool)
    md fmt nc :
  (forall row,
     eb = false -> get_field "primary_key" fields = None ->
     convert_table_config_and_name_from_datum g (R_OBJECT fields) eb md fmt nc
       = Ok row ->
     primary_key_out row = "id") /\
  (forall row,
     eb = true \/ is_Some (get_field "primary_key" fields) ->
     convert_table_config_and_name_from_datum g (R_OBJECT fields) eb md fmt nc
       = Ok row ->
     exists primary_key_datum,
       get_field "primary_key" fields = Some primary_key_datum /\
       convert_string_from_datum primary_key_datum
         = Ok (primary_key_out row)) /\
  (forall n db id,
     eb = true -> row_head_ok fields n db id ->
     get_field "primary_key" fields = None ->
     convert_table_config_and_name_from_datum g (R_OBJECT fields) eb md fmt nc
       = Err (missing_field_msg "primary_key")) /\
  (forall n db id primary_key_datum e,
     row_head_ok fields n db id ->
     get_field "primary_key" fields = Some primary_key_datum ->
     convert_string_from_datum primary_key_datum = Err e ->
     convert_table_config_and_name_from_datum g (R_OBJECT fields) eb md fmt nc
       = Err ("In `primary_key`: " +:+ e)).
Proof.
  repeat split.
  - intros row -> Hnone Hd.
    apply table_decode_ok in Hd as (fields' & [= <-] & _ & Hpk & _).
    unfold row_pkey_ok in Hpk. rewrite Hnone in Hpk. by destruct Hpk.
  - intros row Hcase Hd.
    apply table_decode_ok in Hd as (fields' & [= <-] & _ & Hpk & _).
    unfold row_pkey_ok in Hpk.
    destruct (get_field "primary_key" fields) as [pkd|]; [by exists pkd|].
    destruct Hpk as [-> _]. by destruct Hcase as [|[? ?]].
  - intros n db id -> Hhead Hnone.
    rewrite (table_decode_head _ _ _ _ _ _ _ _ _ Hhead). cbn zeta.
    cbn [orb]. by rewrite converter_get_absent.
  - intros n db id pkd e Hhead Hsome He.
    rewrite (table_decode_head _ _ _ _ _ _ _ _ _ Hhead). cbn zeta.
    replace (eb || converter_has "primary_key" _) with true.
    + rewrite (converter_get_present "primary_key" _ pkd) by done.
      cbn [mbind outcome_bind obind]. by rewrite He.
    + symmetry. apply orb_true_intro. right. apply converter_has_spec.
      simpl. eauto.
Qed.

Lemma obind_ext {A B} (x : outcome A) (k1 k2 : A -> outcome B) :
  (forall a, x = Ok a -> k1 a = k2 a) -> x ≫= k1 = x ≫= k2.
Proof. intros Hk. destruct x; simpl; auto. Qed.

(** Deleted tables do not count in the usage histogram. *)
Lemma server_usage_of_live md :
  server_usage_of md =
    foldl (fun server_usage pair =>
             calculate_server_usage
               (config (versioned_get_ref (replication_info (get_ref pair.2))))
               server_usage)
          ∅
          (filter (fun pair => is_deleted pair.2 = false)
             (map_in_order (namespaces md))).
Proof.
  unfold server_usage_of. generalize (∅ : gmap N Z).
  induction (map_in_order (namespaces md)) as [|pair l IH]; intros usage;
    [done|].
  rewrite filter_cons. simpl. destruct (is_deleted pair.2); simpl; apply IH.
Qed.

(** C10. A row for a table that existed before must have a [shards] field:
    without it the decoder rejects the row for the missing field.  The
    Default Config Generator takes part in the decoding only when the table
    did not exist before and the row has no [shards] field: in every other
    case the result is the same whatever the generator is, and in that case
    an accepted row carries the configuration that the generator returned
    for the usage histogram, which counts the tables that are not
    deleted. *)
Theorem shards_required_for_update (d : datum_t) (eb : bool) md fmt nc :
  (forall g fields n db id pkey,
     d = R_OBJECT fields -> eb = true ->
     row_head_ok fields n db id -> row_pkey_ok eb fields pkey ->
     get_field "shards" fields = None ->
     convert_table_config_and_name_from_datum g d eb md fmt nc
       = Err (missing_field_msg "shards")) /\
  (forall g1 g2,
     eb = true \/
     (exists fields shards_datum,
        d = R_OBJECT fields /\
        get_field "shards" fields = Some shards_datum) ->
     convert_table_config_and_name_from_datum g1 d eb md fmt nc
       = convert_table_config_and_name_from_datum g2 d eb md fmt nc) /\
  (forall g fields row,
     d = R_OBJECT fields -> eb = false ->
     get_field "shards" fields = None ->
     convert_table_config_and_name_from_datum g d eb md fmt nc = Ok row ->
     g nc (server_usage_of md) empty_shard_scheme = Ok (config_out row)) /\
  server_usage_of md =
    foldl (fun server_usage pair =>
             calculate_server_usage
               (config (versioned_get_ref (replication_info (get_ref pair.2))))
               server_usage)
          ∅
          (filter (fun pair => is_deleted pair.2 = false)
             (map_in_order (namespaces md))).
Proof.
  split; [|split; [|split]].
  - intros g fields n db id pkey -> -> Hhead Hpk Hnone.
    rewrite (table_decode_head _ _ _ _ _ _ _ _ _ Hhead). cbn zeta. cbn [orb].
    unfold row_pkey_ok in Hpk.
    destruct (get_field "primary_key" fields) as [pkd|] eqn:Hf;
      [|by destruct Hpk].
    rewrite (converter_get_present "primary_key" _ pkd) by done.
    cbn [mbind outcome_bind obind]. rewrite Hpk.
    cbn [mbind outcome_bind obind prefixed].
    by rewrite converter_get_absent.
  - intros g1 g2 Hcase.
    unfold convert_table_config_and_name_from_datum.
    apply obind_ext. intros c0 Hinit.
    destruct d as [| | | | |fields]; try discriminate.
    injection Hinit as <-.
    apply obind_ext. intros [nd c1] (_ & Hdat1 & _)%converter_get_ok.
    apply obind_ext. intros n _.
    apply obind_ext. intros [db c2] (_ & Hdat2 & _)%converter_get_ok.
    apply obind_ext. intros [idd c3] (_ & Hdat3 & _)%converter_get_ok.
    apply obind_ext. intros id _.
    apply obind_ext. intros [pkey c4] Hpk.
    simpl in Hdat1. assert (datum c4 = fields) as Hdat4.
    { destruct (eb || converter_has "primary_key" c3).
      - ok_step Hpk as [pkd c] Hg.
        apply converter_get_ok in Hg as (_ & Hdat & _).
        ok_step Hpk as pk Hconv. injection Hpk as _ <-. congruence.
      - injection Hpk as _ <-. congruence. }
    replace (eb || converter_has "shards" c4) with true; [done|].
    symmetry. apply orb_true_intro.
    destruct Hcase as [->|(fields' & sd & [= <-] & Hsd)]; [by left|right].
    apply converter_has_spec. rewrite Hdat4. eauto.
  - intros g fields row -> -> Hnone Hd.
    apply table_decode_ok in Hd as (fields' & [= <-] & _ & _ & Hsh).
    unfold row_shards_ok in Hsh. rewrite Hnone in Hsh. by destruct Hsh.
  - apply server_usage_of_live.
Qed.

End DecoderProperties.

(** ** The write path *)

Section WriteProperties.
Context `{Collab : Collaborators}.
Variable table_generate_config :
  server_name_client_t -> gmap N Z -> table_shard_scheme_t ->
  outcome table_config_t.
Variable semilattice_join :
  namespaces_semilattice_metadata_t -> namespaces_semilattice_metadata_t ->
  namespaces_semilattice_metadata_t.
Variable new_db_name_c_str : string.
Variable new_db_name_datum : datum_t.

Implicit Types (fmt : admin_identifier_format_t) (nc : server_name_client_t).
Implicit Types (st : backend_state).

#[local] Abbreviation write_row' :=
  (write_row table_generate_config semilattice_join new_db_name_c_str
     new_db_name_datum).
#[local] Abbreviation decode_row :=
  (convert_table_config_and_name_from_datum table_generate_config).

(** *** Steps that leave the backend state alone *)

Lemma reads_ret {A} (a : A) : reads (mret a).
Proof. done. Qed.

Lemma reads_lift {A} (x : outcome A) : reads (lift x).
Proof. done. Qed.

Lemma reads_fail {A} (e : string) : reads (@fail _ A e).
Proof. done. Qed.

Lemma reads_guarantee (b : bool) (msg : string) : reads (guarantee b msg).
Proof. by destruct b. Qed.

Lemma reads_table_sl_view_get : reads table_sl_view_get.
Proof. done. Qed.

Lemma reads_database_sl_view_get : reads database_sl_view_get.
Proof. done. Qed.

Lemma reads_bind {A B} (x : txn A) (k : A -> txn B) :
  reads x -> (forall a, reads (k a)) -> reads (x ≫= k).
Proof.
  intros Hx Hk st. unfold mbind, txn_bind. specialize (Hx st).
  destruct (x st) as [[a|e|m|] st']; simpl in *; subst; try done.
  apply Hk.
Qed.

Lemma commits_last_bind {A B} (x : txn A) (k : A -> txn B) :
  reads x -> (forall a, commits_last semilattice_join (k a)) ->
  commits_last semilattice_join (x ≫= k).
Proof.
  intros Hx Hk st. unfold mbind, txn_bind. specialize (Hx st).
  destruct (x st) as [[a|e|m|] st']; simpl in *; subst; try done.
  apply Hk.
Qed.

Lemma commits_last_join {A} (md : namespaces_semilattice_metadata_t) (a : A) :
  commits_last semilattice_join
    (table_sl_view_join semilattice_join md ≫= fun _ => mret a).
Proof. intros st. simpl. by exists md. Qed.

Create HintDb txn_reads discriminated.
#[local] Hint Resolve reads_ret reads_lift reads_fail reads_guarantee
  reads_table_sl_view_get reads_database_sl_view_get : txn_reads.

(** Decomposes a goal [reads x] along the binds and branches of [x]. *)
Ltac reads_step :=
  match goal with
  | |- reads (_ ≫= _) => apply reads_bind; [|intros ?]
  | |- reads (match ?x with _ => _ end) => destruct x
  | |- reads (let _ := _ in _) => cbn zeta
  | |- reads _ => solve [auto with txn_reads]
  end.

Lemma write_row_commits_last fmt nc pk autogenerated new_value :
  commits_last semilattice_join
    (write_row' fmt nc pk autogenerated new_value).
Proof.
  unfold write_row.
  apply commits_last_bind; [auto with txn_reads|intros md].
  apply commits_last_bind; [repeat reads_step|intros table_id].
  cbn zeta.
  apply commits_last_bind; [|intros [md' v]; apply commits_last_join].
  repeat reads_step.
Qed.

(** C4. A write that returns failure leaves the backend state, and with it
    the shared metadata map, as it was; the same holds for a write that
    ends in a failed guarantee or is interrupted.  A write that succeeds
    changes the state by one join of its local snapshot into the shared
    map. *)
Theorem failed_write_changes_nothing fmt nc (pk : datum_t)
    (autogenerated : bool) (new_value : option datum_t) st :
  let result := write_row' fmt nc pk autogenerated new_value st in
  (forall e, result.1 = Err e ->
     result.2 = st /\ table_sl_view result.2 = table_sl_view st) /\
  ((forall v, result.1 <> Ok v) -> result.2 = st) /\
  (forall v, result.1 = Ok v ->
     exists md, table_sl_view result.2
                = semilattice_join (table_sl_view st) md).
Proof.
  cbn zeta.
  pose proof (write_row_commits_last fmt nc pk autogenerated new_value st)
    as Hc.
  destruct (write_row' fmt nc pk autogenerated new_value st)
    as [[v|e|m|] st']; simpl in *.
  - repeat split; try done.
    + intros Hno. by destruct (Hno v).
    + intros v' _. destruct Hc as [md ->]. by exists md.
  - subst. repeat split; try done.
  - subst. repeat split; try done.
  - subst. repeat split; try done.
Qed.

(** Exposes the state passing of a write. *)
Ltac txn_unfold :=
  unfold mbind, mret, txn_bind, txn_ret, table_sl_view_get,
    database_sl_view_get, table_sl_view_join, fail, lift;
  cbn beta iota zeta.

(** *** Deleting *)

Lemma write_row_delete fmt nc pk st :
  write_row' fmt nc pk false None st =
    let md := table_sl_view st in
    let table_id :=
      match convert_uuid_from_datum pk with
      | Ok table_id => table_id
      | _ => nil_uuid
      end in
    let md' :=
      match search_metadata_by_uuid (namespaces md) table_id with
      | Some entry =>
          {| namespaces :=
               <[table_id := mark_deleted entry]> (namespaces md) |}
      | None => md
      end in
    (Ok None,
     {| table_sl_view := semilattice_join md md';
        database_sl_view := database_sl_view st |}).
Proof.
  unfold write_row. txn_unfold.
  destruct (convert_uuid_from_datum pk); cbn;
    destruct (search_metadata_by_uuid _ _); reflexivity.
Qed.

(** *** Updating an existing table *)

Lemma write_row_update fmt nc pk new_value st table_id entry row :
  update_request table_generate_config fmt nc pk new_value st table_id entry
    row ->
  write_row' fmt nc pk false (Some new_value) st =
    let stored := get_ref entry in
    let db_id := versioned_get_ref (database stored) in
    let old_table_name := versioned_get_ref (name stored) in
    if negb (datum_eqb (db_out row)
               (get_db_identifier fmt (database_sl_view st) db_id))
    then (Err db_change_msg, st)
    else if negb (String.eqb (primary_key_out row)
                    (versioned_get_ref (primary_key stored)))
    then (Err pkey_change_msg, st)
    else
      match calculate_split_points_intelligently table_id
              (length (shards (config_out row)))
              (shard_scheme (versioned_get_ref (replication_info stored))) with
      | Ok scheme =>
          let done :=
            (Ok (Some (row_out fmt nc table_id (table_name_out row)
                         new_db_name_datum (updated_md stored row scheme))),
             committed semilattice_join st table_id
               (updated_md stored row scheme)) in
          if negb (String.eqb (table_name_out row) old_table_name)
          then
            match find_uniq (namespace_predicate (table_name_out row) db_id)
                    (namespaces (table_sl_view st)) with
            | METADATA_ERR_NONE => done
            | _ =>
                (Err (cannot_rename_msg new_db_name_c_str old_table_name
                        (table_name_out row)), st)
            end
          else done
      | Err e => (Err e, st)
      | Crash m => (Crash m, st)
      | Interrupted => (Interrupted, st)
      end.
Proof.
  intros (Huuid & Hentry & Hlive & Hdecode & Hid).
  unfold write_row. txn_unfold. rewrite Huuid.
  unfold search_metadata_by_uuid. rewrite Hentry, Hlive, Hdecode.
  cbn [prefixed]. rewrite Hid, N.eqb_refl. cbn.
  destruct (datum_eqb _ _); [|done]. cbn.
  destruct (String.eqb (primary_key_out row) _); [|done]. cbn.
  destruct (calculate_split_points_intelligently _ _ _); try done.
  destruct (String.eqb (table_name_out row) _); cbn; [done|].
  by destruct (find_uniq _ _).
Qed.

(** *** Creating a table *)

Lemma write_row_create fmt nc pk new_value st table_id row db_id :
  create_request table_generate_config fmt nc pk new_value st table_id row
    db_id ->
  write_row' fmt nc pk true (Some new_value) st =
    if negb (Nat.eqb (length (shards (config_out row))) 1)
    then (Err one_shard_msg, st)
    else
      match find_uniq (namespace_predicate (table_name_out row) db_id)
              (namespaces (table_sl_view st)) with
      | METADATA_ERR_NONE =>
          (Ok (Some (row_out fmt nc table_id (table_name_out row)
                       new_db_name_datum (created_md row db_id one_shard))),
           committed semilattice_join st table_id
             (created_md row db_id one_shard))
      | _ => (Err (table_exists_msg new_db_name_c_str (table_name_out row)), st)
      end.
Proof.
  intros (Huuid & Hfresh & Hdecode & Hid & Hdb).
  unfold write_row. txn_unfold. rewrite Huuid.
  unfold search_metadata_by_uuid. rewrite Hfresh, Hdecode.
  cbn [prefixed]. rewrite Hid, N.eqb_refl.
  rewrite bool_decide_eq_true_2 by done. cbn. rewrite Hdb. cbn.
  destruct (length (shards (config_out row)) =? 1)%nat; [|done]. cbn.
  by destruct (find_uniq _ _).
Qed.

(** *** The name search *)

Lemma namespace_predicate_spec table_name db_id ns :
  namespace_predicate table_name db_id ns = true <->
  versioned_get_ref (name ns) = table_name /\
  versioned_get_ref (database ns) = db_id.
Proof.
  unfold namespace_predicate.
  by rewrite andb_true_iff, String.eqb_eq, N.eqb_eq.
Qed.

Lemma find_uniq_taken table_name db_id
    (map : gmap N (deletable_t namespace_semilattice_metadata_t)) :
  find_uniq (namespace_predicate table_name db_id) map <> METADATA_ERR_NONE
  <-> name_taken table_name db_id map.
Proof.
  unfold find_uniq, name_taken.
  match goal with |- context [filter ?P ?l] => set (found := filter P l) end.
  assert (forall id entry,
            (id, entry) ∈ found <->
            map !! id = Some entry /\ is_deleted entry = false /\
            versioned_get_ref (name (get_ref entry)) = table_name /\
            versioned_get_ref (database (get_ref entry)) = db_id) as Hin.
  { intros id entry. unfold found. rewrite list_elem_of_filter.
    unfold map_in_order.
    rewrite merge_sort_Permutation, elem_of_map_to_list. simpl.
    rewrite andb_True, negb_True, (Is_true_true (namespace_predicate _ _ _)),
      namespace_predicate_spec.
    destruct (is_deleted entry); naive_solver. }
  clearbody found. split.
  - destruct found as [|[id entry] rest]; [by intros []|].
    intros _. exists id, entry. apply Hin. left.
  - intros (id & entry & Hfound). apply Hin in Hfound.
    destruct found as [|? [|? ?]]; [|done..].
    by apply elem_of_nil in Hfound.
Qed.

Lemma find_uniq_free table_name db_id
    (map : gmap N (deletable_t namespace_semilattice_metadata_t)) :
  find_uniq (namespace_predicate table_name db_id) map = METADATA_ERR_NONE
  <-> ~ name_taken table_name db_id map.
Proof.
  rewrite <- find_uniq_taken.
  destruct (find_uniq _ _); split; try done.
  - intros Hno. by destruct Hno.
  - intros _ Hno. by apply Hno.
  - intros Hno. by destruct Hno.
Qed.

(** *** The legality checks *)

(** C3. Take a write, with a key that was not auto-generated, to a table
    that existed before, whose payload decodes.  If the [db] of the payload
    differs from the display identity of the stored database, the write
    fails with the message about the [database] field.  If the [db] is the
    stored one and the primary key of the payload differs from the stored
    primary key, the write fails with the message about the primary key.
    If both are the stored ones, neither check rejects the write: it
    succeeds as soon as the split points can be recalculated and the name
    is unchanged or free. *)
Theorem immutable_fields fmt nc (pk new_value : datum_t) st
    (table_id : namespace_id_t)
    (entry : deletable_t namespace_semilattice_metadata_t)
    (row : decoded_row)
    (Hreq : update_request table_generate_config fmt nc pk new_value st
              table_id entry row) :
  let stored := get_ref entry in
  let db_id := versioned_get_ref (database stored) in
  let stored_db := get_db_identifier fmt (database_sl_view st) db_id in
  let stored_pkey := versioned_get_ref (primary_key stored) in
  let result := write_row' fmt nc pk false (Some new_value) st in
  (db_out row <> stored_db -> result = (Err db_change_msg, st)) /\
  (db_out row = stored_db -> primary_key_out row <> stored_pkey ->
   result = (Err pkey_change_msg, st)) /\
  (db_out row = stored_db -> primary_key_out row = stored_pkey ->
   forall scheme,
     calculate_split_points_intelligently table_id
       (length (shards (config_out row)))
       (shard_scheme (versioned_get_ref (replication_info stored)))
       = Ok scheme ->
     table_name_out row = versioned_get_ref (name stored) \/
     ~ name_taken (table_name_out row) db_id (namespaces (table_sl_view st)) ->
     result =
       (Ok (Some (row_out fmt nc table_id (table_name_out row)
                    new_db_name_datum (updated_md stored row scheme))),
        committed semilattice_join st table_id
          (updated_md stored row scheme))).
Proof.
  cbn zeta. rewrite (write_row_update _ _ _ _ _ _ _ _ Hreq). cbn zeta.
  split; [|split].
  - intros Hdb%datum_eqb_neq. by rewrite Hdb.
  - intros Hdb%datum_eqb_eq Hpk%String.eqb_neq. by rewrite Hdb, Hpk.
  - intros Hdb%datum_eqb_eq Hpk%String.eqb_eq scheme Hscheme Hname.
    rewrite Hdb, Hpk, Hscheme. cbn.
    destruct (String.eqb_spec (table_name_out row)
                (versioned_get_ref (name (get_ref entry)))) as [|Hne];
      [done|].
    destruct Hname as [|Hfree%find_uniq_free]; [done|]. cbn.
    by rewrite Hfree.
Qed.

(** *** A new table starts with one shard *)

(** C5. Take a write that creates a table: the key is auto-generated and
    new to the shared map, the payload decodes and its [db] resolves.  If
    the decoded configuration does not have exactly one shard, the write
    returns the failure "Newly created tables must start with exactly one
    shard" and no guarantee fails.  If it has exactly one shard and the
    name is free, the write succeeds and the entry it stores under the
    table identifier carries the decoded configuration with the trivial
    single-shard scheme. *)
Theorem new_table_one_shard fmt nc (pk new_value : datum_t) st
    (table_id : namespace_id_t) (row : decoded_row) (db_id : database_id_t)
    (Hreq : create_request table_generate_config fmt nc pk new_value st
              table_id row db_id) :
  let result := write_row' fmt nc pk true (Some new_value) st in
  (length (shards (config_out row)) <> 1 ->
   result = (Err one_shard_msg, st)) /\
  (length (shards (config_out row)) = 1 ->
   ~ name_taken (table_name_out row) db_id (namespaces (table_sl_view st)) ->
   exists table_md,
     result =
       (Ok (Some (row_out fmt nc table_id (table_name_out row)
                    new_db_name_datum table_md)),
        committed semilattice_join st table_id table_md) /\
     replication_info table_md =
       versioned_make {| config := config_out row;
                         shard_scheme := one_shard |}).
Proof.
  cbn zeta. rewrite (write_row_create _ _ _ _ _ _ _ _ Hreq).
  split.
  - intros Hlen%Nat.eqb_neq. by rewrite Hlen.
  - intros Hlen%Nat.eqb_eq Hfree%find_uniq_free. rewrite Hlen, Hfree. cbn.
    by exists (created_md row db_id one_shard).
Qed.

(** *** Name collisions *)

Lemma table_exists_msg_not_rename (c old_name new_name new_name' : string) :
  table_exists_msg c new_name <> cannot_rename_msg c old_name new_name'.
Proof. unfold table_exists_msg, cannot_rename_msg. simpl. discriminate. Qed.

(** C7. A write that creates a table searches the entries of the target
    database that are not deleted for the new name: on a match it fails with
    "Table ... already exists.", and without a match it succeeds.  A write
    that renames an existing table searches in the same way for the new
    name: on a match it fails with "Cannot rename table ... because table
    ... already exists.", and without a match it succeeds.  A write that
    updates a table without renaming it makes no search: it succeeds
    whether or not the name is taken.  The two messages are different. *)
Theorem name_collision_check fmt nc (pk new_value : datum_t) st
    (table_id : namespace_id_t) (row : decoded_row) :
  let map := namespaces (table_sl_view st) in
  let new_table_name := table_name_out row in
  (forall db_id,
     create_request table_generate_config fmt nc pk new_value st table_id row
       db_id ->
     length (shards (config_out row)) = 1 ->
     let result := write_row' fmt nc pk true (Some new_value) st in
     (name_taken new_table_name db_id map ->
      result = (Err (table_exists_msg new_db_name_c_str new_table_name), st))
     /\
     (~ name_taken new_table_name db_id map ->
      result =
        (Ok (Some (row_out fmt nc table_id new_table_name new_db_name_datum
                     (created_md row db_id one_shard))),
         committed semilattice_join st table_id
           (created_md row db_id one_shard)))) /\
  (forall entry scheme,
     update_request table_generate_config fmt nc pk new_value st table_id
       entry row ->
     let stored := get_ref entry in
     let db_id := versioned_get_ref (database stored) in
     let old_table_name := versioned_get_ref (name stored) in
     db_out row = get_db_identifier fmt (database_sl_view st) db_id ->
     primary_key_out row = versioned_get_ref (primary_key stored) ->
     calculate_split_points_intelligently table_id
       (length (shards (config_out row)))
       (shard_scheme (versioned_get_ref (replication_info stored)))
       = Ok scheme ->
     let result := write_row' fmt nc pk false (Some new_value) st in
     let done :=
       (Ok (Some (row_out fmt nc table_id new_table_name new_db_name_datum
                    (updated_md stored row scheme))),
        committed semilattice_join st table_id
          (updated_md stored row scheme)) in
     (new_table_name <> old_table_name ->
      name_taken new_table_name db_id map ->
      result =
        (Err (cannot_rename_msg new_db_name_c_str old_table_name
                new_table_name), st)) /\
     (new_table_name <> old_table_name ->
      ~ name_taken new_table_name db_id map -> result = done) /\
     (new_table_name = old_table_name -> result = done)) /\
  (forall old_name new_name new_name',
     table_exists_msg new_db_name_c_str new_name
     <> cannot_rename_msg new_db_name_c_str old_name new_name').
Proof.
  cbn zeta. split; [|split].
  - intros db_id Hreq Hlen%Nat.eqb_eq.
    rewrite (write_row_create _ _ _ _ _ _ _ _ Hreq), Hlen. cbn.
    split.
    + intros Htaken%find_uniq_taken. by destruct (find_uniq _ _).
    + intros Hfree%find_uniq_free. by rewrite Hfree.
  - intros entry scheme Hreq Hdb%datum_eqb_eq Hpk%String.eqb_eq Hscheme.
    rewrite (write_row_update _ _ _ _ _ _ _ _ Hreq). cbn zeta.
    rewrite Hdb, Hpk, Hscheme. cbn.
    split; [|split].
    + intros Hne%String.eqb_neq Htaken%find_uniq_taken. rewrite Hne. cbn.
      by destruct (find_uniq _ _).
    + intros Hne%String.eqb_neq Hfree%find_uniq_free.
      by rewrite Hne, Hfree.
    + intros Heq%String.eqb_eq. by rewrite Heq.
  - intros. apply table_exists_msg_not_rename.
Qed.

(** *** Deleting twice *)

(** A delete that finds no live table changes nothing when the join is
    idempotent. *)
Lemma write_row_delete_unchanged fmt nc pk st :
  (forall md, semilattice_join md md = md) ->
  search_metadata_by_uuid (namespaces (table_sl_view st))
    (match convert_uuid_from_datum pk with
     | Ok table_id => table_id
     | _ => nil_uuid
     end) = None ->
  write_row' fmt nc pk false None st = (Ok None, st).
Proof.
  intros Hidem Hnone. rewrite write_row_delete. cbn zeta.
  rewrite Hnone, Hidem. by destruct st.
Qed.

(** C9, as amended.  Take a delete (a write without payload) whose key was
    not auto-generated, on a metadata store whose join is idempotent and
    keeps deleted entries deleted.  The delete returns success.  If the key
    names a table that exists and is not deleted, the entry is flagged as
    deleted in the local snapshot, which is then joined into the shared
    map; if the key names no table or a deleted one, the backend state is
    unchanged.  Deleting again with the same key returns success again and
    changes nothing. *)
Theorem delete_idempotent fmt nc (pk : datum_t) st
    (Hidem : forall md, semilattice_join md md = md)
    (Hkeeps : forall a b id e,
        namespaces b !! id = Some e -> is_deleted e = true ->
        exists e', namespaces (semilattice_join a b) !! id = Some e' /\
                   is_deleted e' = true) :
  let table_id :=
    match convert_uuid_from_datum pk with
    | Ok table_id => table_id
    | _ => nil_uuid
    end in
  let map := namespaces (table_sl_view st) in
  let first := write_row' fmt nc pk false None st in
  let second := write_row' fmt nc pk false None first.2 in
  first.1 = Ok None /\
  (forall entry,
     map !! table_id = Some entry -> is_deleted entry = false ->
     first.2 =
       {| table_sl_view :=
            semilattice_join (table_sl_view st)
              {| namespaces := <[table_id := mark_deleted entry]> map |};
          database_sl_view := database_sl_view st |}) /\
  (map !! table_id = None \/
   (exists entry, map !! table_id = Some entry /\ is_deleted entry = true) ->
   first.2 = st) /\
  second.1 = Ok None /\
  second.2 = first.2.
Proof.
  cbn zeta.
  assert (forall st', (write_row' fmt nc pk false None st').1 = Ok None)
    as Hok by (intros st'; by rewrite write_row_delete).
  split; [done|]. split; [|split; [|split; [done|]]].
  - intros entry Hentry Hlive. rewrite write_row_delete. cbn zeta.
    unfold search_metadata_by_uuid. by rewrite Hentry, Hlive.
  - intros Hgone. rewrite write_row_delete_unchanged; [done..|].
    unfold search_metadata_by_uuid.
    destruct Hgone as [->|(entry & -> & ->)]; done.
  - rewrite (write_row_delete_unchanged _ _ _ (write_row' _ _ _ _ _ st).2);
      [done..|].
    rewrite write_row_delete. cbn zeta. cbn [snd table_sl_view].
    set (table_id := match convert_uuid_from_datum pk with
                     | Ok table_id => table_id
                     | _ => nil_uuid
                     end).
    destruct (search_metadata_by_uuid (namespaces (table_sl_view st)) table_id)
      as [entry|] eqn:Hsearch.
    + destruct (Hkeeps (table_sl_view st)
                  {| namespaces :=
                       <[table_id := mark_deleted entry]>
                         (namespaces (table_sl_view st)) |}
                  table_id (mark_deleted entry))
        as (e' & He' & Hd');
        [cbn [namespaces]; by rewrite lookup_insert_eq|done|].
      unfold search_metadata_by_uuid. by rewrite He', Hd'.
    + by rewrite Hidem.
Qed.

End WriteProperties.


(** ** More on the shard codec *)

Section CodecRoundTrip.
Context `{Collab : Collaborators}.

Implicit Types (fmt : admin_identifier_format_t) (nc : server_name_client_t).

Lemma omap_displays_resolved fmt nc (l : list N) :
  (forall id y, id ∈ l -> displays fmt nc id = Some y -> resolves fmt nc y id) ->
  Forall2 (resolves fmt nc) (omap (displays fmt nc) l)
    (filter (fun id => is_Some (displays fmt nc id)) l).
Proof.
  induction l as [|id l IH]; intros Hback; [constructor|].
  unfold omap in *. simpl. rewrite filter_cons.
  destruct (displays fmt nc id) as [y|] eqn:Hy.
  - rewrite decide_True by eauto. constructor.
    + apply Hback; [left|done].
    + apply IH. intros id' y' Hin. apply Hback. by right.
  - rewrite decide_False by (by intros [? ?]).
    apply IH. intros id' y' Hin. apply Hback. by right.
Qed.

Lemma live_replicas_in_order fmt nc (s : gset N) :
  list_to_set (filter (fun id => is_Some (displays fmt nc id))
                 (set_in_order s)) = live_replicas fmt nc s.
Proof.
  apply set_eq. intros id. unfold live_replicas.
  rewrite elem_of_list_to_set, list_elem_of_filter, elem_of_set_in_order,
    elem_of_filter.
  done.
Qed.

Lemma set_in_order_NoDup (s : gset N) : NoDup (set_in_order s).
Proof. rewrite set_in_order_perm. apply NoDup_elements. Qed.

Lemma converter_check_pass c :
  extra_keys c = ∅ -> converter_check_no_extra_keys c = Ok tt.
Proof.
  intros Hc. unfold converter_check_no_extra_keys. by rewrite decide_True.
Qed.

(** The decoder on the document that the encoder writes for a shard. *)
Lemma shard_redecode fmt nc (shard : shard_t) :
  redecodable fmt nc shard ->
  convert_table_config_shard_from_datum
    (convert_table_config_shard_to_datum shard fmt nc) fmt nc
  = Ok (redecoded fmt nc shard).
Proof.
  intros (Hback & Hlive & Hdir).
  rewrite shard_to_datum_unfold.
  rewrite (shard_from_datum_replicas _
             (omap (displays fmt nc) (set_in_order (replicas shard))))
    by reflexivity.
  rewrite (decode_replicas_resolved _ _ _
             (filter (fun id => is_Some (displays fmt nc id))
                (set_in_order (replicas shard)))).
  2:{ apply omap_displays_resolved. intros id y Hin.
      apply Hback. by apply elem_of_set_in_order. }
  rewrite decide_True.
  2:{ split; [apply NoDup_filter, set_in_order_NoDup|].
      apply Forall_forall. set_solver. }
  cbn [mbind outcome_bind obind].
  rewrite union_empty_r_L, live_replicas_in_order.
  rewrite decide_False by done.
  rewrite (converter_get_present "director" _
             (default R_NULL (displays fmt nc (director shard))))
    by reflexivity.
  cbn [mbind outcome_bind obind].
  rewrite converter_check_pass by (cbn; set_solver).
  unfold redecoded.
  destruct (displays fmt nc (director shard)) as [y|] eqn:Hy;
    cbn [default from_option]; unfold id; [|done].
  destruct (Hdir y eq_refl) as [Hin Hnn].
  pose proof (Hback _ _ Hin Hy) as Hres. unfold resolves in Hres.
  assert (director shard ∈ live_replicas fmt nc (replicas shard)) as Hmem.
  { apply elem_of_filter. split; [|done]. unfold displays in *. eauto. }
  destruct y; try done; rewrite Hres;
    cbn [prefixed mbind outcome_bind obind];
    by rewrite decide_True.
Qed.

(** X1. For a shard whose replicas are displayed in forms that resolve back
    to them, of which at least one still resolves, and whose director, if
    it still resolves, is one of the replicas and is not displayed as null:
    encoding the shard and decoding the document again gives back the shard
    with the replicas that still resolve and with the director, or the nil
    sentinel if the director no longer resolves; when every replica and the
    director resolve, it gives back the shard itself. *)
Theorem shard_decode_encode fmt nc (shard : shard_t)
    (Hre : redecodable fmt nc shard) :
  convert_table_config_shard_from_datum
    (convert_table_config_shard_to_datum shard fmt nc) fmt nc
  = Ok (redecoded fmt nc shard) /\
  ((forall id, id ∈ replicas shard -> is_Some (displays fmt nc id)) ->
   is_Some (displays fmt nc (director shard)) ->
   convert_table_config_shard_from_datum
     (convert_table_config_shard_to_datum shard fmt nc) fmt nc
   = Ok shard).
Proof.
  split; [by apply shard_redecode|].
  intros Hall [y Hy]. rewrite shard_redecode by done.
  f_equal. destruct shard as [s dir]. unfold redecoded. simpl in *.
  rewrite Hy. f_equal.
  apply set_eq. intros id. unfold live_replicas. rewrite elem_of_filter.
  naive_solver.
Qed.

(** X2. The shard decoder accepts no document with a key other than
    [replicas] and [director], and none that lacks one of the two. *)
Theorem shard_decoder_exact_keys (fields : list (string * datum_t)) fmt nc :
  (forall key,
     key ∈ fields.*1 -> key <> "replicas" -> key <> "director" ->
     forall shard,
       convert_table_config_shard_from_datum (R_OBJECT fields) fmt nc
       <> Ok shard) /\
  (get_field "replicas" fields = None \/ get_field "director" fields = None ->
   forall shard,
     convert_table_config_shard_from_datum (R_OBJECT fields) fmt nc
     <> Ok shard).
Proof.
  split.
  - intros key Hkey Hr Hd shard Hok.
    apply shard_from_datum_ok in Hok
      as (fields' & elems & ids & dd & Heq & _ & _ & _ & _ & _ & _ & _
          & Hkeys).
    injection Heq as <-. by destruct (Hkeys key Hkey).
  - intros Hmissing shard Hok.
    apply shard_from_datum_ok in Hok
      as (fields' & elems & ids & dd & Heq & Hrep & _ & _ & _ & _ & Hdir
          & _).
    injection Heq as <-. destruct Hmissing; congruence.
Qed.

(** X3. The shard decoder qualifies its errors by field: a [replicas] field
    that is not an array, a replica that does not resolve (after replicas
    that resolve to distinct servers) and a director that does not resolve
    are rejected with the resolver's or printer's text under the prefix of
    the field. *)
Theorem shard_decoder_field_errors (fields : list (string * datum_t)) fmt nc :
  (forall replicas_datum,
     get_field "replicas" fields = Some replicas_datum ->
     (forall elems, replicas_datum <> R_ARRAY elems) ->
     convert_table_config_shard_from_datum (R_OBJECT fields) fmt nc
     = Err ("In `replicas`: Expected an array, got "
            +:+ print replicas_datum)) /\
  (forall before ids bad after e,
     get_field "replicas" fields = Some (R_ARRAY (before ++ bad :: after)) ->
     Forall2 (resolves fmt nc) before ids -> NoDup ids ->
     convert_server_id_from_datum bad fmt nc = Err e ->
     convert_table_config_shard_from_datum (R_OBJECT fields) fmt nc
     = Err ("In `replicas`: " +:+ e)) /\
  (forall elems ids dd e,
     get_field "replicas" fields = Some (R_ARRAY elems) ->
     Forall2 (resolves fmt nc) elems ids -> NoDup ids -> ids <> [] ->
     get_field "director" fields = Some dd -> dd <> R_NULL ->
     convert_server_id_from_datum dd fmt nc = Err e ->
     convert_table_config_shard_from_datum (R_OBJECT fields) fmt nc
     = Err ("In `director`: " +:+ e)).
Proof.
  split; [|split].
  - intros rd Hrep Hna.
    unfold convert_table_config_shard_from_datum, converter_init.
    cbn [mbind outcome_bind obind].
    rewrite (converter_get_present "replicas" _ rd) by done.
    cbn [mbind outcome_bind obind].
    destruct rd; try done. by destruct (Hna elems).
  - intros before ids bad after e Hrep Hres Hnd Hbad.
    rewrite (shard_from_datum_replicas _ _ _ _ Hrep).
    assert (forall acc,
              Forall (fun id => id ∉ acc) ids ->
              decode_replicas fmt nc (before ++ bad :: after) acc
              = Err ("In `replicas`: " +:+ e)) as Hloop.
    { clear Hrep. induction Hres as [|x id before ids Hx _ IH];
        intros acc Hacc; cbn [app decode_replicas].
      - by rewrite Hbad.
      - unfold resolves in Hx. rewrite Hx.
        cbn [prefixed mbind outcome_bind obind].
        apply NoDup_cons in Hnd as [Hnew Hnd].
        inversion Hacc as [|? ? Hid Hacc']; subst.
        rewrite decide_False by done. apply IH; [done|].
        apply Forall_forall. intros id' Hin.
        rewrite Forall_forall in Hacc'. specialize (Hacc' _ Hin).
        set_solver. }
    rewrite Hloop; [done|]. apply Forall_forall. set_solver.
  - intros elems ids dd e Hrep Hres Hnd Hne Hdir Hnn Hbad.
    rewrite (shard_from_datum_replicas _ _ _ _ Hrep),
      (decode_replicas_resolved _ _ _ _ _ Hres).
    rewrite decide_True by (split; [done|]; apply Forall_forall; set_solver).
    cbn [mbind outcome_bind obind].
    rewrite decide_False by (destruct ids; [done|set_solver]).
    rewrite (converter_get_present "director" _ dd) by done.
    cbn [mbind outcome_bind obind].
    destruct dd; try done; by rewrite Hbad.
Qed.

End CodecRoundTrip.

(** ** More on the table-level codec *)

Section TableRoundTrip.
Context `{Collab : Collaborators}.

Implicit Types (fmt : admin_identifier_format_t) (nc : server_name_client_t).
Implicit Types (md : namespaces_semilattice_metadata_t).
Implicit Types
  (g : server_name_client_t -> gmap N Z -> table_shard_scheme_t ->
       outcome table_config_t).

Lemma convert_vector_elems_ok {T} (conv : datum_t -> outcome T) elems xs :
  convert_vector_elems conv elems = Ok xs <->
  Forall2 (fun e x => conv e = Ok x) elems xs.
Proof.
  split.
  - revert xs. induction elems as [|e elems IH]; intros xs Hd; simpl in Hd.
    + injection Hd as <-. constructor.
    + ok_step Hd as x Hx. ok_step Hd as xs' Hxs. injection Hd as <-.
      constructor; [done|]. by apply IH.
  - induction 1 as [|e x elems xs Hx _ IH]; simpl; [done|].
    rewrite Hx. cbn [mbind outcome_bind obind]. by rewrite IH.
Qed.

(** X4. The document of a table configuration has the one field [shards],
    an array with one document per shard, in order; when every shard
    decodes from its own document (as in X1), decoding that array with the
    shard decoder gives back the shards, each with the replicas and
    director that still resolve. *)
Theorem table_config_decode_encode (cfg : table_config_t) fmt nc
    (Hre : Forall (redecodable fmt nc) (shards cfg)) :
  exists elems,
    convert_table_config_to_datum cfg fmt nc
      = R_OBJECT [("shards", R_ARRAY elems)] /\
    length elems = length (shards cfg) /\
    (forall i shard,
       shards cfg !! i = Some shard ->
       elems !! i = Some (convert_table_config_shard_to_datum shard fmt nc)) /\
    convert_vector_from_datum (shard_decoder fmt nc) (R_ARRAY elems)
      = Ok (redecoded fmt nc <$> shards cfg).
Proof.
  exists ((fun shard => convert_table_config_shard_to_datum shard fmt nc)
            <$> shards cfg).
  split; [done|]. split; [by rewrite length_fmap|]. split.
  - intros i shard Hi. by rewrite list_lookup_fmap, Hi.
  - cbn [convert_vector_from_datum]. apply convert_vector_elems_ok.
    induction Hre as [|shard rest Hshard _ IH]; [constructor|].
    rewrite !fmap_cons. constructor; [|exact IH].
    unfold shard_decoder. by apply shard_redecode.
Qed.

Lemma accepted_shards_ok g (fields : list (string * datum_t)) (eb : bool)
    md fmt nc (row : decoded_row) :
  convert_table_config_and_name_from_datum g (R_OBJECT fields) eb md fmt nc
    = Ok row ->
  eb = true \/ is_Some (get_field "shards" fields) ->
  shards (config_out row) <> [] /\ Forall shard_ok (shards (config_out row)).
Proof.
  intros Hdecode Hshards.
  apply table_decode_ok in Hdecode as (fields' & Heq & _ & _ & Hsh).
  injection Heq as <-. unfold row_shards_ok in Hsh.
  destruct (get_field "shards" fields) as [sd|].
  - destruct Hsh as (elems & -> & Hvec & Hne).
    apply convert_vector_elems_ok in Hvec. split; [done|].
    clear Hne Hshards. induction Hvec as [|e shard elems xs He _ IH];
      [constructor|]. constructor; [|exact IH].
    apply shard_from_datum_ok in He
      as (fs & es & ids & dd & _ & _ & _ & _ & Hne & Hset & _ & Hdir & _).
    split.
    + rewrite Hset. destruct ids; [done|set_solver].
    + destruct Hdir as [[_ ?]|(_ & _ & Hin)]; [by left|right].
      rewrite Hset. by apply elem_of_list_to_set.
  - destruct Hsh as [-> _]. by destruct Hshards as [|[? ?]].
Qed.

(** X5. A row that is accepted with a [shards] field decodes to a
    configuration with at least one shard, one per element of the array,
    and every shard has a replica and a director that is nil or one of its
    replicas. *)
Theorem decoded_config_invariants g (fields : list (string * datum_t))
    (eb : bool) md fmt nc (row : decoded_row)
    (Hdecode : convert_table_config_and_name_from_datum g (R_OBJECT fields)
                 eb md fmt nc = Ok row)
    (Hshards : eb = true \/ is_Some (get_field "shards" fields)) :
  shards (config_out row) <> [] /\
  Forall shard_ok (shards (config_out row)) /\
  exists elems,
    get_field "shards" fields = Some (R_ARRAY elems) /\
    length (shards (config_out row)) = length elems.
Proof.
  apply table_decode_ok in Hdecode as (fields' & Heq & _ & _ & Hsh).
  injection Heq as <-. unfold row_shards_ok in Hsh.
  destruct (get_field "shards" fields) as [sd|].
  - destruct Hsh as (elems & -> & Hvec & Hne).
    apply convert_vector_elems_ok in Hvec.
    split; [done|]. split.
    + clear Hne Hshards. induction Hvec as [|e shard elems xs He _ IH];
        [constructor|]. constructor; [|exact IH].
      apply shard_from_datum_ok in He
        as (fs & es & ids & dd & _ & _ & _ & _ & Hne & Hset & _ & Hdir & _).
      split.
      * rewrite Hset. destruct ids; [done|set_solver].
      * destruct Hdir as [[_ ?]|(_ & _ & Hin)]; [by left|right].
        rewrite Hset. by apply elem_of_list_to_set.
    + exists elems. split; [done|]. symmetry. by eapply Forall2_length.
  - destruct Hsh as [-> _]. by destruct Hshards as [|[? ?]].
Qed.

Lemma converter_get_keeps key c v c' (k : string) :
  converter_get key c = Ok (v, c') -> k <> key ->
  k ∈ extra_keys c -> k ∈ extra_keys c'.
Proof.
  intros (_ & _ & ->)%converter_get_ok Hne Hk. set_solver.
Qed.

(** X6. The table-level decoder accepts no row with a key other than
    [name], [db], [id], [primary_key] and [shards]. *)
Theorem table_decoder_known_keys g (fields : list (string * datum_t))
    (eb : bool) md fmt nc (row : decoded_row) (key : string)
    (Hdecode : convert_table_config_and_name_from_datum g (R_OBJECT fields)
                 eb md fmt nc = Ok row)
    (Hkey : key ∈ fields.*1) :
  key ∈ ["name"; "db"; "id"; "primary_key"; "shards"].
Proof.
  destruct (decide (key ∈ ["name"; "db"; "id"; "primary_key"; "shards"]))
    as [|Hother]; [done|exfalso].
  assert (key <> "name" /\ key <> "db" /\ key <> "id" /\
          key <> "primary_key" /\ key <> "shards")
    as (Hn & Hd & Hi & Hp & Hs) by set_solver.
  destruct (table_decode_ok_head _ _ _ _ _ _ _ Hdecode)
    as (fields' & Heq & Hhead).
  injection Heq as <-.
  rewrite (table_decode_head _ _ _ _ _ _ _ _ _ Hhead) in Hdecode.
  cbn zeta in Hdecode.
  ok_step Hdecode as [pkey c4] Hpk. ok_step Hdecode as [cfg c5] Hcfg.
  ok_step Hdecode as u Hextra. apply converter_check_ok in Hextra.
  assert (key ∈ extra_keys c4) as H4.
  { destruct (eb || converter_has "primary_key" _).
    - ok_step Hpk as [pkd c] Hget. ok_step Hpk as pk Hconv.
      injection Hpk as _ <-.
      eapply converter_get_keeps; [exact Hget|done|]. cbn. set_solver.
    - injection Hpk as _ <-. cbn. set_solver. }
  assert (key ∈ extra_keys c5) as H5.
  { destruct (eb || converter_has "shards" c4).
    - ok_step Hcfg as [sd c] Hget. ok_step Hcfg as decoded Hvec.
      destruct decoded; [discriminate|]. injection Hcfg as _ <-.
      eapply converter_get_keeps; [exact Hget|done|done].
    - ok_step Hcfg as generated Hgen. by injection Hcfg as _ <-. }
  rewrite Hextra in H5. set_solver.
Qed.

(** X7. The table-level decoder qualifies its errors: a name that does not
    decode is reported under [name], a shard that does not decode under
    [shards], an empty [shards] array is refused, and a failure of the
    default generator is reported as a failure to generate the
    configuration of a new table. *)
Theorem table_decoder_field_errors g (fields : list (string * datum_t))
    (eb : bool) md fmt nc :
  (forall name_datum e,
     get_field "name" fields = Some name_datum ->
     convert_name_from_datum name_datum "table name" = Err e ->
     convert_table_config_and_name_from_datum g (R_OBJECT fields) eb md fmt nc
     = Err ("In `name`: " +:+ e)) /\
  (forall n db id pkey shards_datum e,
     row_head_ok fields n db id -> row_pkey_ok eb fields pkey ->
     get_field "shards" fields = Some shards_datum ->
     convert_vector_from_datum (shard_decoder fmt nc) shards_datum = Err e ->
     convert_table_config_and_name_from_datum g (R_OBJECT fields) eb md fmt nc
     = Err ("In `shards`: " +:+ e)) /\
  (forall n db id pkey,
     row_head_ok fields n db id -> row_pkey_ok eb fields pkey ->
     get_field "shards" fields = Some (R_ARRAY []) ->
     convert_table_config_and_name_from_datum g (R_OBJECT fields) eb md fmt nc
     = Err "In `shards`: You must specify at least one shard.") /\
  (forall n db id pkey e,
     row_head_ok fields n db id -> row_pkey_ok eb fields pkey ->
     eb = false -> get_field "shards" fields = None ->
     g nc (server_usage_of md) empty_shard_scheme = Err e ->
     convert_table_config_and_name_from_datum g (R_OBJECT fields) eb md fmt nc
     = Err ("When generating configuration for new table: " +:+ e)).
Proof.
  assert (forall n db id pkey,
            row_head_ok fields n db id -> row_pkey_ok eb fields pkey ->
            exists keys,
            convert_table_config_and_name_from_datum g (R_OBJECT fields) eb
              md fmt nc =
            (let converter := {| datum := fields; extra_keys := keys |} in
             '(cfg, converter) ←
               (if eb || converter_has "shards" converter
                then
                  '(shards_datum, converter) ←
                    converter_get "shards" converter;
                  decoded_shards ← prefixed "In `shards`: "
                    (convert_vector_from_datum
                       (fun shard_datum =>
                          convert_table_config_shard_from_datum shard_datum
                            fmt nc)
                       shards_datum);
                  match decoded_shards with
                  | [] =>
                      Err "In `shards`: You must specify at least one shard."
                  | _ => Ok ({| shards := decoded_shards |}, converter)
                  end
                else
                  generated ←
                    prefixed "When generating configuration for new table: "
                      (g nc (server_usage_of md) empty_shard_scheme);
                  Ok (generated, converter));
             _ ← converter_check_no_extra_keys converter;
             Ok {| table_name_out := n; db_out := db; id_out := id;
                   config_out := cfg; primary_key_out := pkey |}))
    as Htail.
  { intros n db id pkey Hhead Hpk.
    rewrite (table_decode_head _ _ _ _ _ _ _ _ _ Hhead). cbn zeta.
    unfold row_pkey_ok in Hpk.
    destruct (get_field "primary_key" fields) as [pkd|] eqn:Hf.
    - replace (eb || converter_has "primary_key" _) with true
        by (symmetry; apply orb_true_intro; right; apply converter_has_spec;
            cbn; eauto).
      rewrite (converter_get_present "primary_key" _ pkd) by done.
      cbn [mbind outcome_bind obind]. rewrite Hpk.
      cbn [mbind outcome_bind obind prefixed datum extra_keys].
      eexists. reflexivity.
    - destruct Hpk as [-> ->].
      replace (false || converter_has "primary_key" _) with false
        by (symmetry; cbn [orb]; unfold converter_has; cbn [datum];
            by rewrite Hf).
      cbn [mbind outcome_bind obind]. eexists. reflexivity. }
  split; [|split; [|split]].
  - intros nd e Hname He.
    unfold convert_table_config_and_name_from_datum, converter_init.
    cbn [mbind outcome_bind obind].
    rewrite (converter_get_present "name" _ nd) by done.
    cbn [mbind outcome_bind obind]. by rewrite He.
  - intros n db id pkey sd e Hhead Hpk Hsd He.
    destruct (Htail _ _ _ _ Hhead Hpk) as [keys ->]. cbn zeta.
    replace (eb || converter_has "shards" _) with true
      by (symmetry; apply orb_true_intro; right; apply converter_has_spec;
          cbn; eauto).
    rewrite (converter_get_present "shards" _ sd) by done.
    cbn [mbind outcome_bind obind]. unfold shard_decoder in He.
    by rewrite He.
  - intros n db id pkey Hhead Hpk Hsd.
    destruct (Htail _ _ _ _ Hhead Hpk) as [keys ->]. cbn zeta.
    replace (eb || converter_has "shards" _) with true
      by (symmetry; apply orb_true_intro; right; apply converter_has_spec;
          cbn; eauto).
    by rewrite (converter_get_present "shards" _ (R_ARRAY [])).
  - intros n db id pkey e Hhead Hpk -> Hnone He.
    destruct (Htail _ _ _ _ Hhead Hpk) as [keys ->]. cbn zeta.
    replace (false || converter_has "shards" _) with false.
    + by rewrite He.
    + symmetry. cbn [orb]. unfold converter_has. cbn [datum].
      by rewrite Hnone.
Qed.

(** X20. The table-level decoder checks [name], [db] and [id] in that
    order, before [primary_key] and [shards]: a datum that is not an object
    is refused as such; a row without [name] is refused for the missing
    name whatever its other fields; with a name that decodes, a row without
    [db] is refused for [db]; with a [db], a row without [id] is refused for
    [id], and an [id] that is not a UUID is reported under [id]. *)
Theorem table_decoder_head_errors g (fields : list (string * datum_t))
    (eb : bool) md fmt nc :
  (forall d,
     (forall fs, d <> R_OBJECT fs) ->
     convert_table_config_and_name_from_datum g d eb md fmt nc
     = Err ("Expected an object, got " +:+ print d)) /\
  (get_field "name" fields = None ->
   convert_table_config_and_name_from_datum g (R_OBJECT fields) eb md fmt nc
   = Err (missing_field_msg "name")) /\
  (forall name_datum n,
     get_field "name" fields = Some name_datum ->
     convert_name_from_datum name_datum "table name" = Ok n ->
     (get_field "db" fields = None ->
      convert_table_config_and_name_from_datum g (R_OBJECT fields) eb md fmt nc
      = Err (missing_field_msg "db")) /\
     (forall db,
        get_field "db" fields = Some db ->
        (get_field "id" fields = None ->
         convert_table_config_and_name_from_datum g (R_OBJECT fields) eb md
           fmt nc
         = Err (missing_field_msg "id")) /\
        (forall id_datum e,
           get_field "id" fields = Some id_datum ->
           convert_uuid_from_datum id_datum = Err e ->
           convert_table_config_and_name_from_datum g (R_OBJECT fields) eb md
             fmt nc
           = Err ("In `id`: " +:+ e)))).
Proof.
  split; [|split].
  - intros d Hd. unfold convert_table_config_and_name_from_datum.
    destruct d as [| | | | |fs]; try done. by destruct (Hd fs).
  - intros Hname.
    unfold convert_table_config_and_name_from_datum, converter_init,
      converter_get.
    cbn [mbind outcome_bind obind datum]. by rewrite Hname.
  - intros name_datum n Hname Hn.
    unfold convert_table_config_and_name_from_datum, converter_init,
      converter_get.
    cbn [mbind outcome_bind obind datum]. rewrite Hname.
    cbn [mbind outcome_bind obind datum prefixed]. rewrite Hn.
    cbn [mbind outcome_bind obind datum prefixed].
    split; [by intros ->|]. intros db ->.
    cbn [mbind outcome_bind obind datum prefixed].
    split; [by intros ->|]. intros id_datum e -> He.
    cbn [mbind outcome_bind obind datum prefixed]. by rewrite He.
Qed.

Lemma row_out_fields fmt nc (table_id : namespace_id_t)
    (table_name : name_string_t) (db : datum_t)
    (metadata : namespace_semilattice_metadata_t) :
  row_out fmt nc table_id table_name db metadata =
    R_OBJECT
      [("db", db);
       ("id", convert_uuid_to_datum table_id);
       ("name", convert_name_to_datum table_name);
       ("primary_key",
        convert_string_to_datum (versioned_get_ref (primary_key metadata)));
       ("shards",
        R_ARRAY
          ((fun shard => convert_table_config_shard_to_datum shard fmt nc)
             <$> shards (config (versioned_get_ref
                                   (replication_info metadata)))))].
Proof. reflexivity. Qed.

Lemma redecoded_shards fmt nc (l : list shard_t) :
  Forall (redecodable fmt nc) l ->
  convert_vector_elems
    (fun shard_datum =>
       convert_table_config_shard_from_datum shard_datum fmt nc)
    ((fun shard => convert_table_config_shard_to_datum shard fmt nc) <$> l)
  = Ok (redecoded fmt nc <$> l).
Proof.
  intros Hre. apply convert_vector_elems_ok.
  induction Hre as [|shard rest Hshard _ IH]; [constructor|].
  rewrite !fmap_cons. constructor; [|exact IH]. by apply shard_redecode.
Qed.

(** The table-level decoder on the row that [format_row] writes. *)
Lemma row_out_decodes g fmt nc md (eb : bool)
    (table_id : namespace_id_t) (table_name : name_string_t) (db : datum_t)
    (metadata : namespace_semilattice_metadata_t) :
  convert_name_from_datum (convert_name_to_datum table_name) "table name"
    = Ok table_name ->
  convert_uuid_from_datum (convert_uuid_to_datum table_id) = Ok table_id ->
  convert_string_from_datum
    (convert_string_to_datum (versioned_get_ref (primary_key metadata)))
    = Ok (versioned_get_ref (primary_key metadata)) ->
  shards (config (versioned_get_ref (replication_info metadata))) <> [] ->
  Forall (redecodable fmt nc)
    (shards (config (versioned_get_ref (replication_info metadata)))) ->
  convert_table_config_and_name_from_datum g
    (row_out fmt nc table_id table_name db metadata) eb md fmt nc
  = Ok {| table_name_out := table_name;
          db_out := db;
          id_out := table_id;
          config_out :=
            {| shards :=
                 redecoded fmt nc <$>
                   shards (config (versioned_get_ref
                                     (replication_info metadata))) |};
          primary_key_out := versioned_get_ref (primary_key metadata) |}.
Proof.
  intros Hname Hid Hpk Hne Hre. rewrite row_out_fields.
  erewrite table_decode_head.
  2:{ exists (convert_name_to_datum table_name),
             (convert_uuid_to_datum table_id).
      repeat split; try reflexivity; done. }
  cbn zeta.
  replace (eb || converter_has "primary_key" _) with true
    by (symmetry; apply orb_true_intro; right; apply converter_has_spec;
        cbn; eauto).
  erewrite converter_get_present by reflexivity.
  cbn [mbind outcome_bind obind]. rewrite Hpk.
  cbn [mbind outcome_bind obind prefixed].
  replace (eb || converter_has "shards" _) with true
    by (symmetry; apply orb_true_intro; right; apply converter_has_spec;
        cbn; eauto).
  erewrite converter_get_present by reflexivity.
  cbn [mbind outcome_bind obind convert_vector_from_datum].
  rewrite redecoded_shards by done.
  cbn [mbind outcome_bind obind prefixed].
  destruct (shards (config (versioned_get_ref (replication_info metadata))))
    as [|shard rest]; [done|].
  rewrite fmap_cons. cbn [mbind outcome_bind obind].
  rewrite converter_check_pass; [done|]. cbn. set_solver.
Qed.

(** X8. [format_row] never fails and writes a row with exactly the fields
    [db], [id], [name], [primary_key] and [shards].  When the name, the
    identifier and the primary key decode from their own display forms and
    every shard decodes from its own document, the table-level decoder
    accepts that row, whether or not the table existed before, and gives
    back the name, the [db] datum, the identifier, the primary key and the
    shards with the replicas and directors that still resolve. *)
Theorem format_row_decodes g fmt nc md (eb : bool)
    (table_id : namespace_id_t) (table_name : name_string_t) (db : datum_t)
    (metadata : namespace_semilattice_metadata_t)
    (Hname : convert_name_from_datum (convert_name_to_datum table_name)
               "table name" = Ok table_name)
    (Hid : convert_uuid_from_datum (convert_uuid_to_datum table_id)
           = Ok table_id)
    (Hpk : convert_string_from_datum
             (convert_string_to_datum
                (versioned_get_ref (primary_key metadata)))
           = Ok (versioned_get_ref (primary_key metadata)))
    (Hne : shards (config (versioned_get_ref (replication_info metadata)))
           <> [])
    (Hre : Forall (redecodable fmt nc)
             (shards (config (versioned_get_ref
                                (replication_info metadata))))) :
  exists fields,
    format_row fmt nc table_id table_name db metadata = Ok (R_OBJECT fields) /\
    fields.*1 = ["db"; "id"; "name"; "primary_key"; "shards"] /\
    convert_table_config_and_name_from_datum g (R_OBJECT fields) eb md fmt nc
    = Ok {| table_name_out := table_name;
            db_out := db;
            id_out := table_id;
            config_out :=
              {| shards :=
                   redecoded fmt nc <$>
                     shards (config (versioned_get_ref
                                       (replication_info metadata))) |};
            primary_key_out := versioned_get_ref (primary_key metadata) |}.
Proof.
  eexists. split; [unfold format_row; by rewrite row_out_fields|].
  split; [reflexivity|].
  rewrite <- row_out_fields. by apply row_out_decodes.
Qed.

End TableRoundTrip.

(** ** What a successful write has done *)

Section WriteInversion.
Context `{Collab : Collaborators}.
Variable table_generate_config :
  server_name_client_t -> gmap N Z -> table_shard_scheme_t ->
  outcome table_config_t.
Variable semilattice_join :
  namespaces_semilattice_metadata_t -> namespaces_semilattice_metadata_t ->
  namespaces_semilattice_metadata_t.
Variable new_db_name_c_str : string.
Variable new_db_name_datum : datum_t.

Implicit Types (fmt : admin_identifier_format_t) (nc : server_name_client_t).
Implicit Types (st : backend_state).

#[local] Abbreviation write_row' :=
  (write_row table_generate_config semilattice_join new_db_name_c_str
     new_db_name_datum).
#[local] Abbreviation written' :=
  (written table_generate_config semilattice_join new_db_name_datum).

(** Exposes the state passing of a write. *)
Ltac txn_run :=
  unfold mbind, mret, txn_bind, txn_ret, table_sl_view_get,
    database_sl_view_get, table_sl_view_join, fail, lift;
  cbn beta iota zeta.

(** Turns the tests that a successful write has passed into facts. *)
Ltac booleans_to_facts :=
  repeat match goal with
    | H : negb _ = true |- _ => apply negb_true_iff in H
    | H : negb _ = false |- _ => apply negb_false_iff in H
    | H : N.eqb _ _ = true |- _ => apply N.eqb_eq in H
    | H : Nat.eqb _ _ = true |- _ => apply Nat.eqb_eq in H
    | H : datum_eqb _ _ = true |- _ => apply datum_eqb_eq in H
    | H : String.eqb _ _ = true |- _ => apply String.eqb_eq in H
    | H : find_uniq _ _ = METADATA_ERR_NONE |- _ => apply find_uniq_free in H
    | H : prefixed _ _ = Ok _ |- _ => apply prefixed_ok in H
    | H : bool_decide _ = true |- _ => apply bool_decide_eq_true_1 in H
    end.

Lemma write_row_ok_inv fmt nc pk autogenerated new_value st v st' :
  write_row' fmt nc pk autogenerated new_value st = (Ok v, st') ->
  written' fmt nc pk autogenerated new_value st v st'.
Proof.
  unfold write_row, written, key_table_id, guarantee. txn_run.
  intros Hw.
  destruct new_value as [payload|];
    repeat (case_match; simplify_eq/=; try done);
    booleans_to_facts; subst;
    try (do 2 eexists; repeat split; try done; by eauto);
    try (repeat split; try done; by eauto).
Qed.

Lemma write_row_ok_intro fmt nc pk autogenerated new_value st v st' :
  written' fmt nc pk autogenerated new_value st v st' ->
  write_row' fmt nc pk autogenerated new_value st = (Ok v, st').
Proof.
  unfold write_row, written, key_table_id, guarantee. txn_run.
  intros Hw.
  destruct new_value as [payload|];
    destruct (search_metadata_by_uuid _ _) as [entry|] eqn:Hsearch.
  - destruct Hw as (row & scheme & -> & Hd & Hid & Hdb & Hpk & Hsp & Hname
                    & -> & ->).
    apply datum_eqb_eq in Hdb. apply String.eqb_eq in Hpk.
    apply N.eqb_eq in Hid.
    assert (negb (String.eqb (table_name_out row)
                    (versioned_get_ref (name (get_ref entry)))) = false \/
            find_uniq
              (namespace_predicate (table_name_out row)
                 (versioned_get_ref (database (get_ref entry))))
              (namespaces (table_sl_view st)) = METADATA_ERR_NONE) as Hfree.
    { destruct Hname as [->|Hfree%find_uniq_free]; [left|by right].
      by rewrite String.eqb_refl. }
    destruct (convert_uuid_from_datum pk); cbn [negb]; cbn beta iota zeta;
      rewrite Hsearch, Hd; cbn [prefixed]; rewrite Hid; cbn;
      rewrite Hdb; cbn; rewrite Hpk; cbn; rewrite Hsp;
      (destruct Hfree as [->| ->];
       [done|by destruct (negb (String.eqb _ _))]).
  - destruct Hw as (row & db_id & -> & Hu & Hfresh & Hd & Hid & Hdb & Hlen
                    & Hfree%find_uniq_free & -> & ->).
    apply N.eqb_eq in Hid. apply Nat.eqb_eq in Hlen.
    rewrite Hu in *. cbn beta iota zeta. rewrite Hsearch, Hd.
    cbn [prefixed]. rewrite Hid. cbn [negb].
    rewrite bool_decide_eq_true_2 by done. cbn. rewrite Hdb. cbn.
    rewrite Hlen. cbn. by rewrite Hfree.
  - destruct Hw as (-> & -> & ->).
    destruct (convert_uuid_from_datum pk); cbn; by rewrite Hsearch.
  - destruct Hw as (Hkey & -> & ->).
    destruct (convert_uuid_from_datum pk) eqn:Hu; cbn beta iota zeta;
      try (rewrite Hsearch; reflexivity);
      (destruct Hkey as [->|?]; [|done]); cbn; by rewrite Hsearch.
Qed.

(** X9. [write_row] returns success in exactly four situations: a delete
    of a live table with a key that was not auto-generated; a delete that
    finds no live table; an update of a live table, with a key that was not
    auto-generated, whose payload decodes for that table with the stored
    database and primary key, whose split points recalculate and whose name
    is unchanged or free; and a create under a fresh auto-generated key
    whose payload decodes for that key with a database that resolves, one
    shard and a free name.  In each it returns the row and leaves the state
    that [written] describes. *)
Theorem write_row_succeeds_iff fmt nc (pk : datum_t) (autogenerated : bool)
    (new_value : option datum_t) st (v : option datum_t) st' :
  write_row' fmt nc pk autogenerated new_value st = (Ok v, st') <->
  written' fmt nc pk autogenerated new_value st v st'.
Proof.
  split.
  - apply write_row_ok_inv.
  - apply write_row_ok_intro.
Qed.

(** The local snapshot that a successful write has joined into the shared
    map. *)
Lemma written_snapshot fmt nc pk autogenerated new_value st v st' :
  written' fmt nc pk autogenerated new_value st v st' ->
  exists new_entry : option (deletable_t namespace_semilattice_metadata_t),
    st' =
      {| table_sl_view :=
           semilattice_join (table_sl_view st)
             {| namespaces :=
                  match new_entry with
                  | Some entry =>
                      <[key_table_id pk := entry]>
                        (namespaces (table_sl_view st))
                  | None => namespaces (table_sl_view st)
                  end |};
         database_sl_view := database_sl_view st |} /\
    match new_entry with
    | Some entry =>
        match search_metadata_by_uuid (namespaces (table_sl_view st))
                (key_table_id pk) with
        | Some old =>
            database (get_ref entry) = database (get_ref old) /\
            primary_key (get_ref entry) = primary_key (get_ref old) /\
            (is_deleted entry = true \/
             is_deleted entry = false /\
             (versioned_get_ref (name (get_ref entry))
                = versioned_get_ref (name (get_ref old)) \/
              ~ name_taken (versioned_get_ref (name (get_ref entry)))
                  (versioned_get_ref (database (get_ref old)))
                  (namespaces (table_sl_view st))))
        | None =>
            namespaces (table_sl_view st) !! key_table_id pk = None /\
            is_deleted entry = false /\
            ~ name_taken (versioned_get_ref (name (get_ref entry)))
                (versioned_get_ref (database (get_ref entry)))
                (namespaces (table_sl_view st))
        end
    | None => True
    end.
Proof.
  unfold written. cbn zeta. intros Hw.
  destruct new_value as [payload|];
    destruct (search_metadata_by_uuid _ _) as [old|] eqn:Hsearch.
  - destruct Hw as (row & scheme & _ & _ & _ & _ & _ & _ & Hname & _ & ->).
    exists (Some (deletable_make (updated_md (get_ref old) row scheme))).
    split; [done|]. repeat split. right. by split.
  - destruct Hw as (row & db_id & _ & _ & Hfresh & _ & _ & _ & _ & Hfree & _
                    & ->).
    exists (Some (deletable_make (created_md row db_id one_shard))).
    by repeat split.
  - destruct Hw as (_ & _ & ->). exists (Some (mark_deleted old)).
    split; [done|]. repeat split. by left.
  - destruct Hw as (_ & _ & ->). exists None. split; [|done].
    by destruct (table_sl_view st).
Qed.

Lemma search_metadata_by_uuid_Some
    (map : gmap N (deletable_t namespace_semilattice_metadata_t)) id entry :
  search_metadata_by_uuid map id = Some entry <->
  map !! id = Some entry /\ is_deleted entry = false.
Proof.
  unfold search_metadata_by_uuid.
  destruct (map !! id) as [e|]; [|split; [done|by intros [? _]]].
  destruct (is_deleted e) eqn:He; split.
  - done.
  - intros [[= <-] ?]. congruence.
  - by intros [= <-].
  - by intros [[= <-] _].
Qed.

Lemma search_metadata_by_uuid_None
    (map : gmap N (deletable_t namespace_semilattice_metadata_t)) id :
  search_metadata_by_uuid map id = None <->
  map !! id = None \/
  exists entry, map !! id = Some entry /\ is_deleted entry = true.
Proof.
  unfold search_metadata_by_uuid.
  destruct (map !! id) as [e|]; [|split; [by left|done]].
  destruct (is_deleted e) eqn:He; split.
  - intros _. right. by exists e.
  - done.
  - done.
  - intros [|(e' & [= <-] & ?)]; congruence.
Qed.

(** X10. A successful write changes the backend state by one join of a
    snapshot that differs from the shared map at most in the entry of the
    table that the key names; the database view stays as it was. *)
Theorem write_touches_own_entry fmt nc (pk : datum_t) (autogenerated : bool)
    (new_value : option datum_t) st (v : option datum_t) st'
    (Hwrite : write_row' fmt nc pk autogenerated new_value st = (Ok v, st')) :
  database_sl_view st' = database_sl_view st /\
  exists md,
    table_sl_view st' = semilattice_join (table_sl_view st) md /\
    forall id, id <> key_table_id pk ->
               namespaces md !! id = namespaces (table_sl_view st) !! id.
Proof.
  apply write_row_ok_inv, written_snapshot in Hwrite
    as (new_entry & -> & _).
  split; [done|]. eexists. split; [reflexivity|].
  intros id Hid. cbn [namespaces].
  destruct new_entry; [|done]. by rewrite lookup_insert_ne.
Qed.

(** X11. A successful write with a payload to a table that existed before
    stores an entry that is not deleted, with the database and the primary
    key of the stored entry at their old stamps, and with the new name and
    the decoded configuration each at the next stamp. *)
Theorem update_keeps_database_and_key fmt nc (pk payload : datum_t)
    (autogenerated : bool) st (v : option datum_t) st'
    (old : deletable_t namespace_semilattice_metadata_t)
    (Hold : search_metadata_by_uuid (namespaces (table_sl_view st))
              (key_table_id pk) = Some old)
    (Hwrite : write_row' fmt nc pk autogenerated (Some payload) st
              = (Ok v, st')) :
  exists row table_md,
    convert_table_config_and_name_from_datum table_generate_config payload
      true (table_sl_view st) fmt nc = Ok row /\
    st' = committed semilattice_join st (key_table_id pk) table_md /\
    database table_md = database (get_ref old) /\
    primary_key table_md = primary_key (get_ref old) /\
    name table_md = versioned_set (table_name_out row) (name (get_ref old)) /\
    config (versioned_get_ref (replication_info table_md)) = config_out row /\
    stamp (replication_info table_md)
      = S (stamp (replication_info (get_ref old))).
Proof.
  apply write_row_ok_inv in Hwrite. unfold written in Hwrite.
  cbn zeta in Hwrite. rewrite Hold in Hwrite.
  destruct Hwrite as (row & scheme & _ & Hd & _ & _ & _ & _ & _ & _ & ->).
  exists row, (updated_md (get_ref old) row scheme). by repeat split.
Qed.

Lemma names_unique_insert
    (map : gmap N (deletable_t namespace_semilattice_metadata_t))
    (table_id : namespace_id_t)
    (entry : deletable_t namespace_semilattice_metadata_t) :
  names_unique map ->
  (is_deleted entry = false ->
   forall id e, id <> table_id -> map !! id = Some e ->
                is_deleted e = false ->
                versioned_get_ref (database (get_ref e))
                  = versioned_get_ref (database (get_ref entry)) ->
                versioned_get_ref (name (get_ref e))
                  <> versioned_get_ref (name (get_ref entry))) ->
  names_unique (<[table_id := entry]> map).
Proof.
  intros Huniq Hnew id1 id2 e1 e2 H1 H2 Hl1 Hl2 Hdb Hname.
  apply lookup_insert_Some in H1 as [[<- <-]|[Hne1 H1]];
    apply lookup_insert_Some in H2 as [[<- <-]|[Hne2 H2]]; try done.
  - destruct (Hnew Hl1 id2 e2); by eauto.
  - destruct (Hnew Hl2 id1 e1); by eauto.
  - by eapply Huniq.
Qed.

(** X12. If no two live tables of the shared map share a database and a
    name, the same holds of the snapshot that a successful write joins into
    the shared map. *)
Theorem write_keeps_names_unique fmt nc (pk : datum_t) (autogenerated : bool)
    (new_value : option datum_t) st (v : option datum_t) st'
    (Hunique : names_unique (namespaces (table_sl_view st)))
    (Hwrite : write_row' fmt nc pk autogenerated new_value st = (Ok v, st')) :
  exists md,
    table_sl_view st' = semilattice_join (table_sl_view st) md /\
    names_unique (namespaces md).
Proof.
  apply write_row_ok_inv, written_snapshot in Hwrite
    as (new_entry & -> & Hentry).
  eexists. split; [reflexivity|]. cbn [namespaces].
  destruct new_entry as [entry|]; [|done].
  apply names_unique_insert; [done|].
  intros Hlive id e Hid He Hle Hdb Hname.
  destruct (search_metadata_by_uuid _ _) as [old|] eqn:Hsearch.
  - destruct Hentry as (Hdb' & _ & [Hdel|(_ & [Hsame|Hfree])]).
    + congruence.
    + apply search_metadata_by_uuid_Some in Hsearch as [Hold Hlo].
      apply Hid. eapply (Hunique id (key_table_id pk) e old); try done;
        congruence.
    + apply Hfree. exists id, e. repeat split; try done. congruence.
  - destruct Hentry as (_ & _ & Hfree). apply Hfree. by exists id, e.
Qed.

(** X13. An entry that is flagged as deleted is never changed again: a
    write with a payload under its key does not succeed, and a delete under
    its key joins the shared map with itself. *)
Theorem deleted_entry_is_final fmt nc (pk : datum_t) (autogenerated : bool)
    (new_value : option datum_t) st (v : option datum_t) st'
    (gone : deletable_t namespace_semilattice_metadata_t)
    (Hgone : namespaces (table_sl_view st) !! key_table_id pk = Some gone)
    (Hdeleted : is_deleted gone = true)
    (Hwrite : write_row' fmt nc pk autogenerated new_value st = (Ok v, st')) :
  new_value = None /\ v = None /\
  st' = {| table_sl_view :=
             semilattice_join (table_sl_view st) (table_sl_view st);
           database_sl_view := database_sl_view st |}.
Proof.
  apply write_row_ok_inv in Hwrite. unfold written in Hwrite.
  cbn zeta in Hwrite.
  assert (search_metadata_by_uuid (namespaces (table_sl_view st))
            (key_table_id pk) = None) as Hsearch
    by (apply search_metadata_by_uuid_None; eauto).
  rewrite Hsearch in Hwrite. destruct new_value as [payload|].
  - destruct Hwrite as (row & db_id & _ & _ & Hfresh & _). congruence.
  - by destruct Hwrite as (_ & -> & ->).
Qed.

(** *** Rejections and aborts *)

(** X14. A write with a payload that does not decode returns the decoder's
    message under the prefix about the wrong format, and a write that would
    create a table under a key that was not auto-generated is refused; in
    both cases the state is unchanged. *)
Theorem payload_rejections fmt nc (pk payload : datum_t)
    (autogenerated : bool) st :
  let table_id := key_table_id pk in
  let map := namespaces (table_sl_view st) in
  (forall e,
     autogenerated = false \/ convert_uuid_from_datum pk = Ok table_id ->
     convert_table_config_and_name_from_datum table_generate_config payload
       (existed_before_of map table_id) (table_sl_view st) fmt nc = Err e ->
     write_row' fmt nc pk autogenerated (Some payload) st
     = (Err (wrong_format_prefix +:+ e), st)) /\
  (forall row,
     autogenerated = false ->
     search_metadata_by_uuid map table_id = None ->
     convert_table_config_and_name_from_datum table_generate_config payload
       false (table_sl_view st) fmt nc = Ok row ->
     id_out row = table_id ->
     write_row' fmt nc pk autogenerated (Some payload) st
     = (Err autogenerated_key_msg, st)).
Proof.
  cbn zeta. split.
  - intros e Hkey Hd.
    unfold write_row, key_table_id, existed_before_of, guarantee in *.
    txn_run.
    destruct (convert_uuid_from_datum pk) eqn:Hu;
      try (destruct Hkey as [->|?]; [|done]); cbn beta iota zeta;
      cbn [negb]; cbn beta iota zeta; by rewrite Hd.
  - intros row -> Hsearch Hd Hid.
    unfold write_row, key_table_id, existed_before_of, guarantee in *.
    txn_run.
    destruct (convert_uuid_from_datum pk) eqn:Hu; cbn [negb];
      cbn beta iota zeta; rewrite Hsearch, Hd; cbn [prefixed];
      apply N.eqb_eq in Hid; by rewrite Hid.
Qed.

(** X15. The failures of the collaborators end the write as they are, with
    the state unchanged: a [db] that does not resolve when a table is
    created, and split points that cannot be recalculated, or whose
    recalculation is interrupted, when a table is updated. *)
Theorem collaborator_failures_abort fmt nc (pk payload : datum_t) st
    (row : decoded_row) :
  let table_id := key_table_id pk in
  let map := namespaces (table_sl_view st) in
  (forall e,
     convert_uuid_from_datum pk = Ok table_id ->
     map !! table_id = None ->
     convert_table_config_and_name_from_datum table_generate_config payload
       false (table_sl_view st) fmt nc = Ok row ->
     id_out row = table_id ->
     convert_database_id_from_datum (db_out row) fmt (database_sl_view st)
       = Err e ->
     write_row' fmt nc pk true (Some payload) st = (Err e, st)) /\
  (forall entry failure,
     update_request table_generate_config fmt nc pk payload st table_id entry
       row ->
     db_out row
       = get_db_identifier fmt (database_sl_view st)
           (versioned_get_ref (database (get_ref entry))) ->
     primary_key_out row = versioned_get_ref (primary_key (get_ref entry)) ->
     (forall scheme, failure <> Ok scheme) ->
     calculate_split_points_intelligently table_id
       (length (shards (config_out row)))
       (shard_scheme (versioned_get_ref (replication_info (get_ref entry))))
       = failure ->
     write_row' fmt nc pk false (Some payload) st
     = (match failure with
        | Ok _ => Ok None
        | Err e => Err e
        | Crash m => Crash m
        | Interrupted => Interrupted
        end, st)).
Proof.
  cbn zeta. split.
  - intros e Hu Hfresh Hd Hid Hdb. unfold key_table_id in *.
    destruct (convert_uuid_from_datum pk) as [table_id| | |] eqn:Hc;
      try discriminate.
    unfold write_row, guarantee. txn_run. rewrite Hc. cbn beta iota zeta.
    unfold search_metadata_by_uuid. rewrite Hfresh, Hd. cbn [prefixed].
    apply N.eqb_eq in Hid. rewrite Hid. cbn [negb].
    rewrite bool_decide_eq_true_2 by done. cbn. by rewrite Hdb.
  - intros entry failure Hreq Hdb%datum_eqb_eq Hpk%String.eqb_eq Hfail Hsp.
    rewrite (write_row_update _ _ _ _ _ _ _ _ _ _ _ _ Hreq). cbn zeta.
    rewrite Hdb, Hpk, Hsp. cbn.
    destruct failure as [scheme| | |]; [by destruct (Hfail scheme)|done..].
Qed.

(** X16. The guarantees of [write_row]: an auto-generated key that is not a
    UUID, a payload whose [id] is not the table that the key names, and an
    auto-generated key that names a table of the shared map, live or
    deleted, end the write in a failed guarantee with the state
    unchanged. *)
Theorem guarantees_abort fmt nc (pk : datum_t) st :
  let table_id := key_table_id pk in
  let map := namespaces (table_sl_view st) in
  (forall new_value,
     (forall id, convert_uuid_from_datum pk <> Ok id) ->
     write_row' fmt nc pk true new_value st = (Crash not_a_uuid_abort, st)) /\
  (forall autogenerated payload row,
     autogenerated = false \/ convert_uuid_from_datum pk = Ok table_id ->
     convert_table_config_and_name_from_datum table_generate_config payload
       (existed_before_of map table_id) (table_sl_view st) fmt nc = Ok row ->
     id_out row <> table_id ->
     write_row' fmt nc pk autogenerated (Some payload) st
     = (Crash key_changed_abort, st)) /\
  (forall payload row entry,
     convert_uuid_from_datum pk = Ok table_id ->
     map !! table_id = Some entry ->
     convert_table_config_and_name_from_datum table_generate_config payload
       (existed_before_of map table_id) (table_sl_view st) fmt nc = Ok row ->
     id_out row = table_id ->
     write_row' fmt nc pk true (Some payload) st
     = (Crash collision_abort, st)).
Proof.
  cbn zeta. split; [|split].
  - intros new_value Hu.
    unfold write_row, guarantee. txn_run.
    destruct (convert_uuid_from_datum pk) as [id| | |]; [|done..].
    by destruct (Hu id).
  - intros autogenerated payload row Hkey Hd Hid%N.eqb_neq.
    unfold write_row, key_table_id, existed_before_of, guarantee in *.
    txn_run.
    destruct (convert_uuid_from_datum pk) eqn:Hu;
      try (destruct Hkey as [->|?]; [|done]); cbn beta iota zeta;
      cbn [negb]; cbn beta iota zeta; rewrite Hd; cbn [prefixed];
      by rewrite Hid.
  - intros payload row entry Hu Hentry Hd Hid%N.eqb_eq.
    unfold key_table_id, existed_before_of in *.
    destruct (convert_uuid_from_datum pk) as [table_id| | |] eqn:Hc;
      try discriminate.
    unfold write_row, guarantee. txn_run. rewrite Hc. cbn beta iota zeta.
    unfold search_metadata_by_uuid in *. rewrite Hentry in Hd |- *.
    destruct (is_deleted entry); rewrite Hd; cbn [prefixed]; rewrite Hid;
      cbn beta iota zeta; cbn [negb]; [|done].
    by rewrite bool_decide_eq_false_2.
Qed.

(** *** What a successful write stores and returns *)

Lemma written_payload fmt nc pk autogenerated payload st v st' :
  written' fmt nc pk autogenerated (Some payload) st v st' ->
  exists row table_md,
    convert_table_config_and_name_from_datum table_generate_config payload
      (existed_before_of (namespaces (table_sl_view st)) (key_table_id pk))
      (table_sl_view st) fmt nc = Ok row /\
    st' = committed semilattice_join st (key_table_id pk) table_md /\
    v = Some (row_out fmt nc (key_table_id pk) (table_name_out row)
                new_db_name_datum table_md) /\
    versioned_get_ref (name table_md) = table_name_out row /\
    versioned_get_ref (primary_key table_md) = primary_key_out row /\
    config (versioned_get_ref (replication_info table_md)) = config_out row.
Proof.
  unfold written, existed_before_of. cbn zeta. intros Hw.
  destruct (search_metadata_by_uuid _ _) as [old|].
  - destruct Hw as (row & scheme & _ & Hd & _ & _ & Hpk & _ & _ & -> & ->).
    exists row, (updated_md (get_ref old) row scheme). by repeat split.
  - destruct Hw as (row & db_id & _ & _ & _ & Hd & _ & _ & _ & _ & -> & ->).
    exists row, (created_md row db_id one_shard). by repeat split.
Qed.

(** X17. A successful write with a payload stores an entry with the decoded
    name, primary key and configuration, and returns in the output slot the
    row that [format_row] makes of the stored entry.  When the table existed
    before or the payload has a [shards] field, the stored configuration has
    at least one shard, and each shard has a replica and a director that is
    nil or one of its replicas. *)
Theorem stored_entry_is_valid fmt nc (pk : datum_t) (autogenerated : bool)
    (fields : list (string * datum_t)) st (v : option datum_t) st'
    (Hwrite : write_row' fmt nc pk autogenerated (Some (R_OBJECT fields)) st
              = (Ok v, st')) :
  exists row table_md,
    st' = committed semilattice_join st (key_table_id pk) table_md /\
    format_row fmt nc (key_table_id pk) (versioned_get_ref (name table_md))
      new_db_name_datum table_md = Ok (default R_NULL v) /\
    is_Some v /\
    versioned_get_ref (name table_md) = table_name_out row /\
    versioned_get_ref (primary_key table_md) = primary_key_out row /\
    (existed_before_of (namespaces (table_sl_view st)) (key_table_id pk)
       = true \/ is_Some (get_field "shards" fields) ->
     let cfg := config (versioned_get_ref (replication_info table_md)) in
     shards cfg <> [] /\ Forall shard_ok (shards cfg)).
Proof.
  apply write_row_ok_inv, written_payload in Hwrite
    as (row & table_md & Hd & -> & -> & Hname & Hpk & Hcfg).
  exists row, table_md. split; [done|]. split.
  { unfold format_row. by rewrite Hname. }
  split; [by eexists|]. split; [done|]. split; [done|].
  intros Hshards. cbn zeta. rewrite Hcfg.
  by eapply accepted_shards_ok.
Qed.

(** X18. A create whose payload leaves out [primary_key] and [shards]
    returns a row in which both are filled in: the primary key is ["id"] and
    the shards are the documents of the configuration that the default
    generator returned. *)
Theorem create_fills_defaults fmt nc (pk : datum_t)
    (fields : list (string * datum_t)) st (table_id : namespace_id_t)
    (row : decoded_row) (db_id : database_id_t)
    (Hreq : create_request table_generate_config fmt nc pk (R_OBJECT fields)
              st table_id row db_id)
    (Hnokey : get_field "primary_key" fields = None)
    (Hnoshards : get_field "shards" fields = None)
    (Hone : length (shards (config_out row)) = 1)
    (Hfree : ~ name_taken (table_name_out row) db_id
               (namespaces (table_sl_view st))) :
  exists cfg,
    table_generate_config nc (server_usage_of (table_sl_view st))
      empty_shard_scheme = Ok cfg /\
    (write_row' fmt nc pk true (Some (R_OBJECT fields)) st).1 =
      Ok (Some
            (R_OBJECT
               [("db", new_db_name_datum);
                ("id", convert_uuid_to_datum table_id);
                ("name", convert_name_to_datum (table_name_out row));
                ("primary_key", convert_string_to_datum "id");
                ("shards",
                 R_ARRAY
                   ((fun shard =>
                       convert_table_config_shard_to_datum shard fmt nc)
                      <$> shards cfg))])).
Proof.
  pose proof Hreq as (_ & _ & Hd & _ & _).
  apply table_decode_ok in Hd as (fields' & Heq & _ & Hpk & Hsh).
  injection Heq as <-.
  unfold row_pkey_ok in Hpk. rewrite Hnokey in Hpk. destruct Hpk as [_ Hpk].
  unfold row_shards_ok in Hsh. rewrite Hnoshards in Hsh.
  destruct Hsh as [_ Hgen].
  exists (config_out row). split; [done|].
  rewrite (write_row_create _ _ _ _ _ _ _ _ _ _ _ _ Hreq).
  apply Nat.eqb_eq in Hone. apply find_uniq_free in Hfree.
  rewrite Hone, Hfree. cbn [negb fst].
  rewrite row_out_fields. unfold created_md. cbn. by rewrite Hpk.
Qed.

(** X19. Writing back the row of a live table as [format_row] shows it,
    with the [db] that the backend displays for the stored database, is
    accepted whenever the row decodes again (the name, the identifier, the
    primary key and every shard decode from their own display forms, and
    there is a shard) and the split points recalculate: no legality check
    rejects it and no name search is made.  The stored entry keeps its
    name, database and primary key, and its shards are the stored shards
    with the replicas and directors that still resolve. *)
Theorem write_back_is_accepted fmt nc (pk : datum_t) st
    (table_id : namespace_id_t)
    (entry : deletable_t namespace_semilattice_metadata_t)
    (scheme : table_shard_scheme_t)
    (Hkey : convert_uuid_from_datum pk = Ok table_id)
    (Hentry : namespaces (table_sl_view st) !! table_id = Some entry)
    (Hlive : is_deleted entry = false)
    (Hname : convert_name_from_datum
               (convert_name_to_datum
                  (versioned_get_ref (name (get_ref entry))))
               "table name"
             = Ok (versioned_get_ref (name (get_ref entry))))
    (Hid : convert_uuid_from_datum (convert_uuid_to_datum table_id)
           = Ok table_id)
    (Hpk : convert_string_from_datum
             (convert_string_to_datum
                (versioned_get_ref (primary_key (get_ref entry))))
           = Ok (versioned_get_ref (primary_key (get_ref entry))))
    (Hne : shards (config (versioned_get_ref
                             (replication_info (get_ref entry)))) <> [])
    (Hre : Forall (redecodable fmt nc)
             (shards (config (versioned_get_ref
                                (replication_info (get_ref entry))))))
    (Hsplit : calculate_split_points_intelligently table_id
                (length (shards (config (versioned_get_ref
                                           (replication_info (get_ref entry))))))
                (shard_scheme (versioned_get_ref
                                 (replication_info (get_ref entry))))
              = Ok scheme) :
  let stored := get_ref entry in
  let payload :=
    row_out fmt nc table_id (versioned_get_ref (name stored))
      (get_db_identifier fmt (database_sl_view st)
         (versioned_get_ref (database stored)))
      stored in
  exists table_md,
    write_row' fmt nc pk false (Some payload) st
    = (Ok (Some (row_out fmt nc table_id (versioned_get_ref (name stored))
                   new_db_name_datum table_md)),
       committed semilattice_join st table_id table_md) /\
    versioned_get_ref (name table_md) = versioned_get_ref (name stored) /\
    database table_md = database stored /\
    primary_key table_md = primary_key stored /\
    shards (config (versioned_get_ref (replication_info table_md)))
      = redecoded fmt nc <$>
          shards (config (versioned_get_ref (replication_info stored))).
Proof.
  cbn zeta.
  set (stored := get_ref entry) in *.
  set (row := {| table_name_out := versioned_get_ref (name stored);
                 db_out := get_db_identifier fmt (database_sl_view st)
                             (versioned_get_ref (database stored));
                 id_out := table_id;
                 config_out :=
                   {| shards :=
                        redecoded fmt nc <$>
                          shards (config (versioned_get_ref
                                            (replication_info stored))) |};
                 primary_key_out := versioned_get_ref (primary_key stored) |}).
  exists (updated_md stored row scheme).
  split; [|by repeat split].
  rewrite (write_row_update table_generate_config semilattice_join
             new_db_name_c_str new_db_name_datum fmt nc pk _ st table_id
             entry row).
  2:{ repeat split; try done. by apply row_out_decodes. }
  cbn zeta. fold stored. cbn [db_out primary_key_out row].
  rewrite datum_eqb_refl, String.eqb_refl. cbn [negb].
  cbn [config_out row shards]. rewrite length_fmap, Hsplit.
  cbn [table_name_out row]. by rewrite String.eqb_refl.
Qed.

End WriteInversion.

(** ** The properties on the small cluster *)

Section Examples.
#[local] Existing Instance Sample.collaborators.

Import Sample.

(** On the sample cluster the nil identifier is no server, and a server
    that survives the removal of server 1 is still displayed by the name
    that resolved to it. *)
Lemma sample_nil_unresolved (nc : list (N * string)) :
  (forall p, p ∈ nc -> p.1 <> nil_uuid) -> displays tt nc nil_uuid = None.
Proof.
  intros Hnc. unfold displays. cbn. unfold name_from_id.
  destruct ((list_to_map nc : gmap N string) !! nil_uuid) as [n|] eqn:Hn;
    [|done].
  apply elem_of_list_to_map_2 in Hn. by destruct (Hnc _ Hn).
Qed.

Lemma sample_coherent (e y : datum_t) :
  redisplay tt servers servers_later e = Some y -> y = e.
Proof.
  unfold redisplay, displays. cbn.
  destruct e as [| | |n| |]; try discriminate. cbn.
  repeat case_decide; subst; cbn; try discriminate;
    vm_compute; congruence.
Qed.

Lemma sample_join_idempotent (md : namespaces_semilattice_metadata_t) :
  join md md = md.
Proof.
  destruct md as [m]. unfold join. cbn. f_equal. apply map_eq. intros i.
  rewrite lookup_union_with. destruct (m !! i) as [x|]; [|done]. cbn.
  by destruct (is_deleted x).
Qed.

Lemma sample_join_keeps_deleted (a b : namespaces_semilattice_metadata_t)
    (id : N) (e : deletable_t namespace_semilattice_metadata_t) :
  namespaces b !! id = Some e -> is_deleted e = true ->
  exists e', namespaces (join a b) !! id = Some e' /\ is_deleted e' = true.
Proof.
  intros Hb He. unfold join. cbn. rewrite lookup_union_with, Hb.
  destruct (namespaces a !! id) as [x|]; cbn; [|by exists e].
  destruct (is_deleted x) eqn:Hx; [by exists x|by exists e].
Qed.

(** *** The shard codec *)

Lemma shard_decoder_invariants_witness :
  (let shard := {| replicas := {[1%N; 2%N]}; director := 1%N |} in
   convert_table_config_shard_from_datum
     (shard_doc ["b"; "a"] (R_STR "a")) tt servers = Ok shard /\
   replicas shard <> ∅ /\
   (director shard = nil_uuid \/ director shard ∈ replicas shard)) /\
  convert_table_config_shard_from_datum
    (shard_doc ["b"; "a"; "b"] (R_STR "a")) tt servers = Err duplicate_msg /\
  convert_table_config_shard_from_datum
    (shard_doc [] (R_STR "a")) tt servers = Err no_replica_msg /\
  convert_table_config_shard_from_datum
    (shard_doc ["a"; "b"] (R_STR "c")) tt servers = Err director_msg.
Proof.
  split; [|split; [|split]].
  - assert (convert_table_config_shard_from_datum
              (shard_doc ["b"; "a"] (R_STR "a")) tt servers
            = Ok {| replicas := {[1%N; 2%N]}; director := 1%N |}) as Hd
      by (vm_compute; reflexivity).
    destruct (proj1 (@shard_decoder_invariants collaborators _ tt servers) _ Hd)
      as (Hne & _ & _ & Hdir).
    cbn zeta. by repeat split.
  - eapply (proj1 (proj2 (@shard_decoder_invariants collaborators _ tt servers)))
      with (ids := [2%N; 1%N; 2%N]); [reflexivity|reflexivity| |].
    + repeat constructor.
    + intros [Hnot _]%NoDup_cons. apply Hnot. set_solver.
  - eapply (proj1 (proj2 (proj2 (@shard_decoder_invariants collaborators _ tt servers))));
      reflexivity.
  - eapply (proj2 (proj2 (proj2 (@shard_decoder_invariants collaborators _ tt servers))))
      with (ids := [1%N; 2%N]) (dir := 3%N);
      [reflexivity|reflexivity| | |done|reflexivity|done|reflexivity|].
    + repeat constructor.
    + repeat constructor; set_solver.
    + set_solver.
Defined.

Lemma shard_round_trip_witness :
  let shard := {| replicas := {[1%N; 2%N]}; director := 2%N |} in
  exists out,
    convert_table_config_shard_to_datum shard tt servers_later =
      R_OBJECT [("director", R_STR "b"); ("replicas", R_ARRAY out)] /\
    out ≡ₚ [R_STR "b"].
Proof.
  cbn zeta.
  assert (convert_table_config_shard_from_datum
            (shard_doc ["b"; "a"] (R_STR "b")) tt servers
          = Ok {| replicas := {[1%N; 2%N]}; director := 2%N |}) as Hd
    by (vm_compute; reflexivity).
  destruct (@shard_round_trip collaborators _ tt servers servers_later _
              (sample_nil_unresolved servers_later ltac:(set_solver))
              sample_coherent Hd)
    as (fields & elems & dd & out & dir & Hobj & Hrep & Hdir & _ & Henc
        & Hout & Hdir').
  injection Hobj as <-. injection Hrep as <-. injection Hdir as <-.
  exists out. split; [by rewrite Henc, Hdir'|]. exact Hout.
Defined.

(** C2, as stated, fails.  The document names server [a] as a replica and
    as the director and is accepted; server 1, which [a] resolved to, is
    then permanently removed.  The director did not decode to the nil
    sentinel and the document's [director] is not null, yet the shard is
    encoded with a null director. *)
Lemma shard_round_trip_loses_director :
  let d := shard_doc ["a"; "b"] (R_STR "a") in
  let shard := {| replicas := {[1%N; 2%N]}; director := 1%N |} in
  convert_table_config_shard_from_datum d tt servers = Ok shard /\
  director shard <> nil_uuid /\
  displays tt servers_later nil_uuid = None /\
  (forall e y, redisplay tt servers servers_later e = Some y -> y = e) /\
  convert_table_config_shard_to_datum shard tt servers_later
    = shard_doc ["b"] R_NULL.
Proof.
  cbn zeta. split; [by vm_compute|]. split; [done|].
  split; [by vm_compute|]. split; [apply sample_coherent|by vm_compute].
Qed.

(** *** The table-level decoder *)

Lemma primary_key_default_witness :
  primary_key_out (decoded false new_users_row) = "id" /\
  convert_table_config_and_name_from_datum generate_config new_users_row true
    (table_sl_view state0) tt servers = Err (missing_field_msg "primary_key").
Proof.
  pose proof (@primary_key_default collaborators generate_config
                new_users_fields) as Hpk.
  split.
  - apply (proj1 (Hpk false (table_sl_view state0) tt servers));
      [reflexivity|reflexivity|by vm_compute].
  - apply (proj1 (proj2 (proj2 (Hpk true (table_sl_view state0) tt servers)))
             "fresh" (R_STR "test") 3%N); [reflexivity| |reflexivity].
    exists (R_STR "fresh"), (R_STR "t-3"). by vm_compute.
Defined.

Lemma shards_required_for_update_witness :
  convert_table_config_and_name_from_datum generate_config
    (R_OBJECT users_without_shards_fields) true (table_sl_view state0) tt
    servers = Err (missing_field_msg "shards") /\
  generate_config servers (server_usage_of (table_sl_view state0)) []
    = Ok (config_out (decoded false new_users_row)).
Proof.
  split.
  - apply (proj1 (@shards_required_for_update collaborators _ true
                    (table_sl_view state0) tt servers)
             generate_config users_without_shards_fields "users"
             (R_STR "test") 1%N "id");
      [reflexivity|reflexivity| |by vm_compute|reflexivity].
    exists (R_STR "users"), (R_STR "t-1"). by vm_compute.
  - apply (proj1 (proj2 (proj2
             (@shards_required_for_update collaborators new_users_row false
                (table_sl_view state0) tt servers)))
             generate_config new_users_fields);
      [reflexivity|reflexivity|reflexivity|by vm_compute].
Defined.

(** *** The write path *)

Lemma sample_update_request (new_value : datum_t) :
  convert_table_config_and_name_from_datum generate_config new_value true
    (table_sl_view state0) tt servers = Ok (decoded true new_value) ->
  id_out (decoded true new_value) = 1%N ->
  update_request (H:=collaborators) generate_config tt servers (R_STR "t-1") new_value state0
    1%N (deletable_make users_md) (decoded true new_value).
Proof. intros Hd Hid. by repeat split. Qed.

Lemma sample_create_request (new_value : datum_t) :
  convert_table_config_and_name_from_datum generate_config new_value false
    (table_sl_view state0) tt servers = Ok (decoded false new_value) ->
  id_out (decoded false new_value) = 3%N ->
  db_out (decoded false new_value) = R_STR "test" ->
  create_request (H:=collaborators) generate_config tt servers (R_STR "t-3") new_value state0
    3%N (decoded false new_value) 7%N.
Proof.
  intros Hd Hid Hdb. repeat split; try done. by rewrite Hdb.
Qed.

Lemma sample_name_taken (n : string) (id : N)
    (md : namespace_semilattice_metadata_t) :
  namespaces (table_sl_view state0) !! id = Some (deletable_make md) ->
  versioned_get_ref (name md) = n ->
  versioned_get_ref (database md) = 7%N ->
  name_taken n 7%N (namespaces (table_sl_view state0)).
Proof. intros Hid Hn Hdb. by exists id, (deletable_make md). Qed.

Lemma sample_name_free (n : string) :
  n <> "users" -> n <> "posts" ->
  ~ name_taken n 7%N (namespaces (table_sl_view state0)).
Proof.
  intros Hu Hp (id & entry & Hentry & _ & Hn & _). cbn in Hentry.
  apply lookup_insert_Some in Hentry as [[_ <-]|[_ Hentry]];
    [by apply Hu|].
  apply lookup_insert_Some in Hentry as [[_ <-]|[_ Hentry]];
    [by apply Hp|].
  by rewrite lookup_empty in Hentry.
Qed.

Lemma immutable_fields_witness :
  run_write_row (R_STR "t-1") false (Some users_db_changed) state0
    = (Err db_change_msg, state0) /\
  run_write_row (R_STR "t-1") false (Some users_pkey_changed) state0
    = (Err pkey_change_msg, state0) /\
  (run_write_row (R_STR "t-1") false (Some users_renamed) state0).1
    = Ok (Some (row "t-1" "members" "test" "id"
                  [shard_doc ["a"; "b"] (R_STR "b")])).
Proof.
  assert (forall new_value,
            convert_table_config_and_name_from_datum generate_config new_value
              true (table_sl_view state0) tt servers
              = Ok (decoded true new_value) ->
            id_out (decoded true new_value) = 1%N ->
            let stored_db := R_STR "test" in
            let result :=
              run_write_row (R_STR "t-1") false (Some new_value) state0 in
            (db_out (decoded true new_value) <> stored_db ->
             result = (Err db_change_msg, state0)) /\
            (db_out (decoded true new_value) = stored_db ->
             primary_key_out (decoded true new_value) <> "id" ->
             result = (Err pkey_change_msg, state0)) /\
            (db_out (decoded true new_value) = stored_db ->
             primary_key_out (decoded true new_value) = "id" ->
             length (shards (config_out (decoded true new_value))) = 1 ->
             table_name_out (decoded true new_value) <> "users" ->
             table_name_out (decoded true new_value) <> "posts" ->
             result.1 =
               Ok (Some (row_out tt servers 1%N
                           (table_name_out (decoded true new_value))
                           (R_STR "test")
                           (updated_md users_md (decoded true new_value)
                              []))))) as Hat.
  { intros new_value Hd Hid.
    pose proof (immutable_fields (Collab:=collaborators) generate_config join
                  "test" (R_STR "test") tt servers (R_STR "t-1") new_value
                  state0 1%N (deletable_make users_md)
                  (decoded true new_value)
                  (sample_update_request new_value Hd Hid)) as Hthm.
    cbn zeta in Hthm. destruct Hthm as (Hdb & Hpk & Hok).
    cbn zeta. split; [exact Hdb|]. split; [exact Hpk|].
    intros Hsame Hkey Hlen Hu Hp. unfold run_write_row.
    rewrite (Hok Hsame Hkey []).
    - done.
    - cbn. by rewrite Hlen.
    - right. by apply sample_name_free. }
  split; [|split].
  - apply (Hat users_db_changed); by vm_compute.
  - apply (Hat users_pkey_changed); by vm_compute.
  - rewrite (proj2 (proj2 (Hat users_renamed ltac:(by vm_compute)
                             ltac:(by vm_compute)))); by vm_compute.
Defined.

Lemma failed_write_changes_nothing_witness :
  (run_write_row (R_STR "t-1") false (Some users_db_changed) state0).2
    = state0 /\
  (run_write_row (R_STR "t-3") true (Some fresh_two_shards) state0).2
    = state0.
Proof.
  split.
  - apply (proj1 (failed_write_changes_nothing (Collab:=collaborators)
                    generate_config join "test" (R_STR "test") tt servers
                    (R_STR "t-1") false (Some users_db_changed) state0)
             db_change_msg).
    by vm_compute.
  - apply (proj1 (failed_write_changes_nothing (Collab:=collaborators)
                    generate_config join "test" (R_STR "test") tt servers
                    (R_STR "t-3") true (Some fresh_two_shards) state0)
             one_shard_msg).
    by vm_compute.
Defined.

Lemma new_table_one_shard_witness :
  run_write_row (R_STR "t-3") true (Some fresh_two_shards) state0
    = (Err one_shard_msg, state0) /\
  exists table_md,
    (run_write_row (R_STR "t-3") true (Some new_users_row) state0).2
      = committed join state0 3%N table_md /\
    shard_scheme (versioned_get_ref (replication_info table_md)) = one_shard.
Proof.
  assert (forall new_value,
            convert_table_config_and_name_from_datum generate_config new_value
              false (table_sl_view state0) tt servers
              = Ok (decoded false new_value) ->
            id_out (decoded false new_value) = 3%N ->
            db_out (decoded false new_value) = R_STR "test" ->
            let result :=
              run_write_row (R_STR "t-3") true (Some new_value) state0 in
            (length (shards (config_out (decoded false new_value))) <> 1 ->
             result = (Err one_shard_msg, state0)) /\
            (length (shards (config_out (decoded false new_value))) = 1 ->
             table_name_out (decoded false new_value) <> "users" ->
             table_name_out (decoded false new_value) <> "posts" ->
             exists table_md,
               result.2 = committed join state0 3%N table_md /\
               shard_scheme (versioned_get_ref (replication_info table_md))
                 = one_shard)) as Hat.
  { intros new_value Hd Hid Hdb.
    pose proof (new_table_one_shard (Collab:=collaborators) generate_config
                  join "test" (R_STR "test") tt servers (R_STR "t-3")
                  new_value state0 3%N (decoded false new_value) 7%N
                  (sample_create_request new_value Hd Hid Hdb)) as Hthm.
    cbn zeta in Hthm. destruct Hthm as (Hmany & Hone).
    cbn zeta. split; [exact Hmany|].
    intros Hlen Hu Hp.
    destruct (Hone Hlen (sample_name_free _ Hu Hp))
      as (table_md & Hres & Hinfo).
    exists table_md. unfold run_write_row. by rewrite Hres, Hinfo. }
  split.
  - apply (Hat fresh_two_shards); by vm_compute.
  - apply (Hat new_users_row); by vm_compute.
Defined.

Lemma name_collision_check_witness :
  run_write_row (R_STR "t-3") true (Some fresh_named_users) state0
    = (Err "Table `test.users` already exists.", state0) /\
  run_write_row (R_STR "t-1") false (Some users_to_posts) state0
    = (Err "Cannot rename table `test.users` to `test.posts` because table `test.posts` already exists.",
       state0) /\
  (run_write_row (R_STR "t-1") false (Some users_resharded) state0).1
    = Ok (Some users_resharded).
Proof.
  pose proof (fun new_value pk table_id existed_before =>
                name_collision_check (Collab:=collaborators) generate_config
                  join "test" (R_STR "test") tt servers pk new_value state0
                  table_id (decoded existed_before new_value)) as Hthm.
  cbn zeta in Hthm.
  split; [|split].
  - destruct (Hthm fresh_named_users (R_STR "t-3") 3%N false)
      as (Hcreate & _ & _).
    destruct (Hcreate 7%N) as (Htaken & _).
    + apply sample_create_request; by vm_compute.
    + by vm_compute.
    + unfold run_write_row. rewrite Htaken; [reflexivity|].
      by apply (sample_name_taken _ 1%N users_md).
  - destruct (Hthm users_to_posts (R_STR "t-1") 1%N true)
      as (_ & Hupdate & _).
    destruct (Hupdate (deletable_make users_md) []) as (Htaken & _ & _).
    + apply sample_update_request; by vm_compute.
    + by vm_compute.
    + by vm_compute.
    + by vm_compute.
    + unfold run_write_row. rewrite Htaken; [reflexivity|by vm_compute|].
      by apply (sample_name_taken _ 2%N posts_md).
  - destruct (Hthm users_resharded (R_STR "t-1") 1%N true)
      as (_ & Hupdate & _).
    destruct (Hupdate (deletable_make users_md) ["m"]) as (_ & _ & Hkept).
    + apply sample_update_request; by vm_compute.
    + by vm_compute.
    + by vm_compute.
    + by vm_compute.
    + unfold run_write_row. rewrite Hkept; by vm_compute.
Defined.

Lemma delete_idempotent_witness :
  let first := run_write_row (R_STR "t-1") false None state0 in
  let second := run_write_row (R_STR "t-1") false None first.2 in
  first.1 = Ok None /\ second.1 = Ok None /\ second.2 = first.2.
Proof.
  destruct (delete_idempotent (Collab:=collaborators) generate_config join
              "test" (R_STR "test") tt servers (R_STR "t-1") state0
              sample_join_idempotent sample_join_keeps_deleted)
    as (Hfirst & _ & _ & Hsecond & Hsame).
  by repeat split.
Defined.

(** C9, as stated, fails: table [t-1] exists and is not deleted, and a
    delete of it whose key is flagged as auto-generated does not return
    success but ends in the failed guarantee of line 418. *)
Lemma delete_with_autogenerated_key_aborts :
  search_metadata_by_uuid (namespaces (table_sl_view state0)) 1%N
    = Some (deletable_make users_md) /\
  run_write_row (R_STR "t-1") true None state0
    = (Crash "UUID collision happened", state0) /\
  (run_write_row (R_STR "t-1") true None state0).1 <> Ok None.
Proof. split; [reflexivity|]. split; [reflexivity|by vm_compute]. Qed.

End Examples.

(** ** More properties on the small cluster *)

Section MoreExamples.
#[local] Existing Instance Sample.collaborators.

Import Sample.

Ltac sample_resolved :=
  repeat (constructor; [reflexivity|]); constructor.

Lemma sample_back (nc : list (N * string)) (id : N) (y : datum_t) :
  nc = servers \/ nc = servers_later ->
  displays tt nc id = Some y -> resolves tt nc y id.
Proof.
  unfold displays, resolves. cbn. unfold name_from_id.
  intros Hnc Hy.
  destruct ((list_to_map nc : gmap N string) !! id) as [n|] eqn:Hn;
    [|done].
  injection Hy as <-. apply elem_of_list_to_map_2 in Hn.
  destruct Hnc as [-> | ->];
    repeat (apply elem_of_cons in Hn as [[= -> ->]|Hn]; [by vm_compute|]);
    by apply elem_of_nil in Hn.
Qed.

Lemma sample_redecodable_later : redecodable tt servers_later shard_ab.
Proof.
  split; [|split].
  - intros id y _. apply sample_back. by right.
  - intros Hempty.
    assert (2%N ∈ live_replicas tt servers_later (replicas shard_ab)) as Hin.
    { apply elem_of_filter. split; [by vm_compute|]. cbn. set_solver. }
    rewrite Hempty in Hin. set_solver.
  - intros y Hy. by vm_compute in Hy.
Qed.

Lemma sample_redecodable (shard : shard_t) :
  shard = shard_a \/ shard = shard_ab \/ shard = shard_b ->
  redecodable tt servers shard.
Proof.
  intros Hshard. split; [|split].
  - intros id y _. apply sample_back. by left.
  - intros Hempty.
    assert (exists id, id ∈ live_replicas tt servers (replicas shard))
      as [id Hin].
    { destruct Hshard as [->|[->| ->]];
        [exists 1%N|exists 1%N|exists 2%N];
        (apply elem_of_filter; split; [by vm_compute|cbn; set_solver]). }
    rewrite Hempty in Hin. set_solver.
  - intros y Hy.
    destruct Hshard as [->|[->| ->]]; vm_compute in Hy;
      injection Hy as <-; (split; [cbn; set_solver|done]).
Qed.

Lemma shard_decode_encode_witness :
  convert_table_config_shard_from_datum
    (convert_table_config_shard_to_datum shard_ab tt servers_later) tt
    servers_later
  = Ok {| replicas := {[2%N]}; director := nil_uuid |} /\
  convert_table_config_shard_from_datum
    (convert_table_config_shard_to_datum shard_ab tt servers) tt servers
  = Ok shard_ab.
Proof.
  split.
  - rewrite (proj1 (shard_decode_encode (Collab:=collaborators) tt
                      servers_later shard_ab sample_redecodable_later)).
    by vm_compute.
  - apply (proj2 (shard_decode_encode (Collab:=collaborators) tt servers
                    shard_ab (sample_redecodable shard_ab
                                ltac:(right; by left)))).
    + intros id Hid. cbn in Hid.
      apply elem_of_union in Hid as [->%elem_of_singleton
                                    | ->%elem_of_singleton];
        by eexists.
    + by eexists.
Defined.

Lemma shard_decoder_exact_keys_witness :
  (forall shard,
     convert_table_config_shard_from_datum
       (R_OBJECT [("director", R_STR "a"); ("note", R_STR "x");
                  ("replicas", R_ARRAY [R_STR "a"])]) tt servers
     <> Ok shard) /\
  (forall shard,
     convert_table_config_shard_from_datum
       (R_OBJECT [("replicas", R_ARRAY [R_STR "a"])]) tt servers
     <> Ok shard).
Proof.
  split.
  - apply (proj1 (shard_decoder_exact_keys (Collab:=collaborators)
                    [("director", R_STR "a"); ("note", R_STR "x");
                     ("replicas", R_ARRAY [R_STR "a"])] tt servers) "note");
      [cbn; set_solver|done|done].
  - apply (proj2 (shard_decoder_exact_keys (Collab:=collaborators)
                    [("replicas", R_ARRAY [R_STR "a"])] tt servers)).
    by right.
Defined.

Lemma shard_decoder_field_errors_witness :
  convert_table_config_shard_from_datum
    (R_OBJECT [("director", R_STR "a"); ("replicas", R_STR "a")]) tt servers
  = Err "In `replicas`: Expected an array, got <datum>" /\
  convert_table_config_shard_from_datum
    (shard_doc ["a"; "z"; "b"] (R_STR "a")) tt servers
  = Err "In `replicas`: Server `z` does not exist." /\
  convert_table_config_shard_from_datum
    (shard_doc ["a"; "b"] (R_STR "z")) tt servers
  = Err "In `director`: Server `z` does not exist.".
Proof.
  split; [|split].
  - apply (proj1 (shard_decoder_field_errors (Collab:=collaborators)
                    [("director", R_STR "a"); ("replicas", R_STR "a")] tt
                    servers) (R_STR "a")); done.
  - apply (proj1 (proj2 (shard_decoder_field_errors (Collab:=collaborators)
                           [("director", R_STR "a");
                            ("replicas",
                             R_ARRAY [R_STR "a"; R_STR "z"; R_STR "b"])] tt
                           servers))
             [R_STR "a"] [1%N] (R_STR "z") [R_STR "b"]);
      [reflexivity|sample_resolved|repeat constructor; set_solver|
       reflexivity].
  - apply (proj2 (proj2 (shard_decoder_field_errors (Collab:=collaborators)
                           [("director", R_STR "z");
                            ("replicas", R_ARRAY [R_STR "a"; R_STR "b"])] tt
                           servers))
             [R_STR "a"; R_STR "b"] [1%N; 2%N] (R_STR "z"));
      [reflexivity|sample_resolved| |done|reflexivity|done|reflexivity].
    repeat constructor; set_solver.
Defined.

Lemma table_config_decode_encode_witness :
  exists elems,
    convert_table_config_to_datum two_shards tt servers
      = R_OBJECT [("shards", R_ARRAY elems)] /\
    length elems = 2 /\
    convert_vector_from_datum (shard_decoder tt servers) (R_ARRAY elems)
      = Ok (redecoded tt servers <$> [shard_ab; shard_b]).
Proof.
  destruct (table_config_decode_encode (Collab:=collaborators) two_shards tt
              servers)
    as (elems & Hdoc & Hlen & _ & Hback).
  { apply Forall_forall. intros shard Hin. apply sample_redecodable.
    cbn in Hin. set_solver. }
  exists elems. by repeat split.
Defined.

(** *** The table-level codec *)

Lemma sample_users_redecodable :
  Forall (redecodable tt servers)
    (shards (config (versioned_get_ref (replication_info users_md)))).
Proof.
  apply Forall_forall. intros shard Hin. apply sample_redecodable. left.
  cbn in Hin. by apply list_elem_of_singleton in Hin.
Qed.

Lemma decoded_config_invariants_witness :
  let cfg := config_out (decoded true users_renamed) in
  shards cfg <> [] /\ Forall shard_ok (shards cfg) /\
  exists elems,
    get_field "shards"
      [("db", R_STR "test"); ("id", R_STR "t-1"); ("name", R_STR "members");
       ("primary_key", R_STR "id");
       ("shards", R_ARRAY [shard_doc ["a"; "b"] (R_STR "b")])]
    = Some (R_ARRAY elems) /\
    length (shards cfg) = length elems.
Proof.
  apply (decoded_config_invariants (Collab:=collaborators) generate_config
           [("db", R_STR "test"); ("id", R_STR "t-1");
            ("name", R_STR "members"); ("primary_key", R_STR "id");
            ("shards", R_ARRAY [shard_doc ["a"; "b"] (R_STR "b")])]
           true (table_sl_view state0) tt servers
           (decoded true users_renamed));
    [by vm_compute|by left].
Defined.

Lemma table_decoder_known_keys_witness :
  convert_table_config_and_name_from_datum generate_config new_users_row
    false (table_sl_view state0) tt servers
  = Ok (decoded false new_users_row) /\
  Forall (fun key => key ∈ ["name"; "db"; "id"; "primary_key"; "shards"])
    new_users_fields.*1.
Proof.
  split; [by vm_compute|].
  apply Forall_forall. intros key Hkey.
  apply (table_decoder_known_keys (Collab:=collaborators) generate_config
           new_users_fields false (table_sl_view state0) tt servers
           (decoded false new_users_row) key);
    [by vm_compute|exact Hkey].
Defined.

Lemma table_decoder_field_errors_witness :
  convert_table_config_and_name_from_datum generate_config
    (R_OBJECT [("db", R_STR "test"); ("id", R_STR "t-3"); ("name", R_NULL)])
    false (table_sl_view state0) tt servers
  = Err "In `name`: Expected a string." /\
  convert_table_config_and_name_from_datum generate_config
    (row "t-1" "users" "test" "id" [shard_doc ["z"] (R_STR "z")])
    true (table_sl_view state0) tt servers
  = Err "In `shards`: In `replicas`: Server `z` does not exist." /\
  convert_table_config_and_name_from_datum generate_config
    (row "t-1" "users" "test" "id" [])
    true (table_sl_view state0) tt servers
  = Err "In `shards`: You must specify at least one shard." /\
  convert_table_config_and_name_from_datum
    (fun _ _ _ => Err "No servers are available.") new_users_row
    false (table_sl_view state0) tt servers
  = Err "When generating configuration for new table: No servers are available.".
Proof.
  split; [|split; [|split]].
  - apply (proj1 (table_decoder_field_errors (Collab:=collaborators)
                    generate_config
                    [("db", R_STR "test"); ("id", R_STR "t-3");
                     ("name", R_NULL)] false (table_sl_view state0) tt
                    servers) R_NULL); reflexivity.
  - apply (proj1 (proj2 (table_decoder_field_errors (Collab:=collaborators)
                           generate_config
                           [("db", R_STR "test"); ("id", R_STR "t-1");
                            ("name", R_STR "users");
                            ("primary_key", R_STR "id");
                            ("shards",
                             R_ARRAY [shard_doc ["z"] (R_STR "z")])] true
                           (table_sl_view state0) tt servers))
             "users" (R_STR "test") 1%N "id"
             (R_ARRAY [shard_doc ["z"] (R_STR "z")]));
      [|by vm_compute|reflexivity|reflexivity].
    exists (R_STR "users"), (R_STR "t-1"). by vm_compute.
  - apply (proj1 (proj2 (proj2
             (table_decoder_field_errors (Collab:=collaborators)
                generate_config
                [("db", R_STR "test"); ("id", R_STR "t-1");
                 ("name", R_STR "users"); ("primary_key", R_STR "id");
                 ("shards", R_ARRAY [])] true (table_sl_view state0) tt
                servers)))
             "users" (R_STR "test") 1%N "id");
      [|by vm_compute|reflexivity].
    exists (R_STR "users"), (R_STR "t-1"). by vm_compute.
  - apply (proj2 (proj2 (proj2
             (table_decoder_field_errors (Collab:=collaborators)
                (fun _ _ _ => Err "No servers are available.")
                new_users_fields false (table_sl_view state0) tt servers)))
             "fresh" (R_STR "test") 3%N "id");
      [|by vm_compute|reflexivity|reflexivity|reflexivity].
    exists (R_STR "fresh"), (R_STR "t-3"). by vm_compute.
Defined.

Lemma table_decoder_head_errors_witness :
  convert_table_config_and_name_from_datum generate_config (R_STR "users")
    true (table_sl_view state0) tt servers
  = Err "Expected an object, got <datum>" /\
  convert_table_config_and_name_from_datum generate_config
    (R_OBJECT [("db", R_NULL); ("id", R_NULL)]) true (table_sl_view state0)
    tt servers
  = Err "Expected a field named `name`." /\
  convert_table_config_and_name_from_datum generate_config
    (R_OBJECT [("id", R_NULL); ("name", R_STR "users")]) true
    (table_sl_view state0) tt servers
  = Err "Expected a field named `db`." /\
  convert_table_config_and_name_from_datum generate_config
    (R_OBJECT [("db", R_NULL); ("name", R_STR "users")]) true
    (table_sl_view state0) tt servers
  = Err "Expected a field named `id`." /\
  convert_table_config_and_name_from_datum generate_config
    (R_OBJECT [("db", R_NULL); ("id", R_STR "t-9"); ("name", R_STR "users")])
    true (table_sl_view state0) tt servers
  = Err "In `id`: Table `t-9` does not exist.".
Proof.
  pose proof (fun fields =>
                table_decoder_head_errors (Collab:=collaborators)
                  generate_config fields true (table_sl_view state0) tt
                  servers) as Hthm.
  split; [|split; [|split; [|split]]].
  - by apply (proj1 (Hthm [])).
  - by apply (proj1 (proj2 (Hthm [("db", R_NULL); ("id", R_NULL)]))).
  - by apply (proj1 (proj2 (proj2 (Hthm [("id", R_NULL);
                                          ("name", R_STR "users")]))
                       (R_STR "users") "users" eq_refl eq_refl)).
  - by apply (proj1 (proj2 (proj2 (proj2 (Hthm [("db", R_NULL);
                                                 ("name", R_STR "users")]))
                              (R_STR "users") "users" eq_refl eq_refl)
                       R_NULL eq_refl)).
  - by apply (proj2 (proj2 (proj2 (proj2 (Hthm [("db", R_NULL);
                                                 ("id", R_STR "t-9");
                                                 ("name", R_STR "users")]))
                              (R_STR "users") "users" eq_refl eq_refl)
                       R_NULL eq_refl)
             (R_STR "t-9") "Table `t-9` does not exist.").
Defined.

Lemma format_row_decodes_witness :
  exists fields,
    format_row tt servers 1%N "users" (R_STR "test") users_md
      = Ok (R_OBJECT fields) /\
    fields.*1 = ["db"; "id"; "name"; "primary_key"; "shards"] /\
    convert_table_config_and_name_from_datum generate_config (R_OBJECT fields)
      true (table_sl_view state0) tt servers
    = Ok {| table_name_out := "users";
            db_out := R_STR "test";
            id_out := 1%N;
            config_out := {| shards := [shard_a] |};
            primary_key_out := "id" |}.
Proof.
  destruct (format_row_decodes (Collab:=collaborators) generate_config tt
              servers (table_sl_view state0) true 1%N "users" (R_STR "test")
              users_md eq_refl eq_refl eq_refl ltac:(done)
              sample_users_redecodable)
    as (fields & Hrow & Hkeys & Hback).
  exists fields. split; [exact Hrow|]. split; [exact Hkeys|].
  rewrite Hback. by vm_compute.
Defined.

(** *** Successful writes *)

Lemma sample_write_ok (pk : datum_t) (autogenerated : bool)
    (new_value : option datum_t) (st : backend_state)
    (v : option datum_t) :
  (run_write_row pk autogenerated new_value st).1 = Ok v ->
  write_row generate_config join "test" (R_STR "test") tt servers pk
    autogenerated new_value st
  = (Ok v, (run_write_row pk autogenerated new_value st).2).
Proof. unfold run_write_row. intros <-. apply surjective_pairing. Qed.

Lemma sample_renamed_ok :
  (run_write_row (R_STR "t-1") false (Some users_renamed) state0).1
  = Ok (Some users_renamed).
Proof. by vm_compute. Qed.

Lemma sample_names_unique : names_unique (namespaces (table_sl_view state0)).
Proof.
  intros id1 id2 e1 e2 H1 H2 _ _ _ Hname. cbn in H1, H2.
  apply lookup_insert_Some in H1 as [[<- <-]|[? H1]];
    [|apply lookup_insert_Some in H1 as [[<- <-]|[? H1]];
      [|by rewrite lookup_empty in H1]];
    (apply lookup_insert_Some in H2 as [[<- <-]|[? H2]];
     [|apply lookup_insert_Some in H2 as [[<- <-]|[? H2]];
       [|by rewrite lookup_empty in H2]]);
    done.
Qed.

Lemma write_row_succeeds_iff_witness :
  written generate_config join (R_STR "test") tt servers (R_STR "t-1") false
    (Some users_renamed) state0 (Some users_renamed)
    (run_write_row (R_STR "t-1") false (Some users_renamed) state0).2.
Proof.
  apply (write_row_succeeds_iff (Collab:=collaborators) generate_config join
           "test" (R_STR "test")).
  apply sample_write_ok, sample_renamed_ok.
Defined.

Lemma write_touches_own_entry_witness :
  let st' := (run_write_row (R_STR "t-1") false (Some users_renamed) state0).2
  in
  database_sl_view st' = databases /\
  exists md,
    table_sl_view st' = join (table_sl_view state0) md /\
    namespaces md !! 2%N = Some (deletable_make posts_md).
Proof.
  destruct (write_touches_own_entry (Collab:=collaborators) generate_config
              join "test" (R_STR "test") tt servers (R_STR "t-1") false
              (Some users_renamed) state0 (Some users_renamed) _
              (sample_write_ok _ _ _ _ _ sample_renamed_ok))
    as (Hdb & md & Hview & Hrest).
  split; [exact Hdb|]. exists md. split; [exact Hview|].
  rewrite Hrest; [reflexivity|by vm_compute].
Defined.

Lemma update_keeps_database_and_key_witness :
  exists table_md,
    (run_write_row (R_STR "t-1") false (Some users_renamed) state0).2
      = committed join state0 1%N table_md /\
    database table_md = versioned_make 7%N /\
    primary_key table_md = versioned_make "id" /\
    name table_md = versioned_set "members" (versioned_make "users") /\
    stamp (replication_info table_md) = 1.
Proof.
  destruct (update_keeps_database_and_key (Collab:=collaborators)
              generate_config join "test" (R_STR "test") tt servers
              (R_STR "t-1") users_renamed false state0 (Some users_renamed) _
              (deletable_make users_md) eq_refl
              (sample_write_ok _ _ _ _ _ sample_renamed_ok))
    as (row & table_md & Hd & Hst & Hdb & Hpk & Hname & _ & Hstamp).
  assert (Ok row = Ok (decoded true users_renamed)) as [= ->]
    by (rewrite <- Hd; by vm_compute).
  exists table_md. split; [exact Hst|]. split; [exact Hdb|].
  split; [exact Hpk|]. split; [exact Hname|exact Hstamp].
Defined.

Lemma write_keeps_names_unique_witness :
  exists md,
    table_sl_view
      (run_write_row (R_STR "t-1") false (Some users_renamed) state0).2
      = join (table_sl_view state0) md /\
    names_unique (namespaces md).
Proof.
  apply (write_keeps_names_unique (Collab:=collaborators) generate_config
           join "test" (R_STR "test") tt servers (R_STR "t-1") false
           (Some users_renamed) state0 (Some users_renamed) _
           sample_names_unique
           (sample_write_ok _ _ _ _ _ sample_renamed_ok)).
Defined.

Lemma sample_gone_delete_ok :
  (run_write_row (R_STR "t-1") false None state_gone).1 = Ok None.
Proof. by vm_compute. Qed.

Lemma deleted_entry_is_final_witness :
  (run_write_row (R_STR "t-1") false None state_gone).2
  = {| table_sl_view :=
         join (table_sl_view state_gone) (table_sl_view state_gone);
       database_sl_view := databases |}.
Proof.
  apply (deleted_entry_is_final (Collab:=collaborators) generate_config join
           "test" (R_STR "test") tt servers (R_STR "t-1") false None
           state_gone None _ (mark_deleted (deletable_make users_md))
           eq_refl eq_refl
           (sample_write_ok _ _ _ _ _ sample_gone_delete_ok)).
Defined.

Lemma stored_entry_is_valid_witness :
  exists table_md,
    (run_write_row (R_STR "t-1") false (Some users_renamed) state0).2
      = committed join state0 1%N table_md /\
    format_row tt servers 1%N (versioned_get_ref (name table_md))
      (R_STR "test") table_md = Ok users_renamed /\
    shards (config (versioned_get_ref (replication_info table_md))) <> [] /\
    Forall shard_ok
      (shards (config (versioned_get_ref (replication_info table_md)))).
Proof.
  destruct (stored_entry_is_valid (Collab:=collaborators) generate_config
              join "test" (R_STR "test") tt servers (R_STR "t-1") false
              [("db", R_STR "test"); ("id", R_STR "t-1");
               ("name", R_STR "members"); ("primary_key", R_STR "id");
               ("shards", R_ARRAY [shard_doc ["a"; "b"] (R_STR "b")])]
              state0 (Some users_renamed) _
              (sample_write_ok _ _ _ _ _ sample_renamed_ok))
    as (row & table_md & Hst & Hfmt & _ & _ & _ & Hshards).
  exists table_md. split; [exact Hst|]. split; [exact Hfmt|].
  apply Hshards. by left.
Defined.

Lemma create_fills_defaults_witness :
  (run_write_row (R_STR "t-3") true (Some new_users_row) state0).1
  = Ok (Some (row "t-3" "fresh" "test" "id" [shard_doc ["b"] (R_STR "b")])).
Proof.
  destruct (create_fills_defaults (Collab:=collaborators) generate_config
              join "test" (R_STR "test") tt servers (R_STR "t-3")
              new_users_fields state0 3%N (decoded false new_users_row) 7%N)
    as (cfg & Hgen & Hres).
  - apply sample_create_request; by vm_compute.
  - reflexivity.
  - reflexivity.
  - by vm_compute.
  - apply sample_name_free; by vm_compute.
  - unfold run_write_row, new_users_row. rewrite Hres.
    injection Hgen as <-. by vm_compute.
Defined.

Lemma write_back_is_accepted_witness :
  exists table_md,
    run_write_row (R_STR "t-1") false
      (Some (row "t-1" "users" "test" "id" [shard_doc ["a"] (R_STR "a")]))
      state0
    = (Ok (Some (row_out tt servers 1%N "users" (R_STR "test") table_md)),
       committed join state0 1%N table_md) /\
    versioned_get_ref (name table_md) = "users" /\
    database table_md = versioned_make 7%N /\
    primary_key table_md = versioned_make "id" /\
    shards (config (versioned_get_ref (replication_info table_md)))
      = [shard_a].
Proof.
  destruct (write_back_is_accepted (Collab:=collaborators) generate_config
              join "test" (R_STR "test") tt servers (R_STR "t-1") state0 1%N
              (deletable_make users_md) [] eq_refl eq_refl eq_refl eq_refl
              eq_refl eq_refl ltac:(done) sample_users_redecodable eq_refl)
    as (table_md & Hwrite & Hname & Hdb & Hpk & Hshards).
  exists table_md. split; [exact Hwrite|]. split; [exact Hname|].
  split; [exact Hdb|]. split; [exact Hpk|].
  rewrite Hshards. by vm_compute.
Defined.

(** *** Rejections and aborts *)

Lemma payload_rejections_witness :
  run_write_row (R_STR "t-1") false
    (Some (row "t-1" "users" "test" "id" [])) state0
  = (Err (wrong_format_prefix
          +:+ "In `shards`: You must specify at least one shard."),
     state0) /\
  run_write_row (R_STR "t-3") false (Some new_users_row) state0
  = (Err autogenerated_key_msg, state0).
Proof.
  split.
  - apply (proj1 (payload_rejections (Collab:=collaborators) generate_config
                    join "test" (R_STR "test") tt servers (R_STR "t-1")
                    (row "t-1" "users" "test" "id" []) false state0));
      [by left|by vm_compute].
  - apply (proj2 (payload_rejections (Collab:=collaborators) generate_config
                    join "test" (R_STR "test") tt servers (R_STR "t-3")
                    new_users_row false state0)
             (decoded false new_users_row));
      [reflexivity|reflexivity|by vm_compute|by vm_compute].
Defined.

Lemma guarantees_abort_witness :
  run_write_row (R_STR "zzz") true None state0
    = (Crash not_a_uuid_abort, state0) /\
  run_write_row (R_STR "t-1") false (Some users_as_posts_id) state0
    = (Crash key_changed_abort, state0) /\
  run_write_row (R_STR "t-1") true (Some users_renamed) state0
    = (Crash collision_abort, state0) /\
  run_write_row (R_STR "t-1") true (Some fresh_as_users) state_gone
    = (Crash collision_abort, state_gone).
Proof.
  split; [|split; [|split]].
  - apply (proj1 (guarantees_abort (Collab:=collaborators) generate_config
                    join "test" (R_STR "test") tt servers (R_STR "zzz")
                    state0)).
    intros id. by vm_compute.
  - apply (proj1 (proj2 (guarantees_abort (Collab:=collaborators)
                           generate_config join "test" (R_STR "test") tt
                           servers (R_STR "t-1") state0))
             false users_as_posts_id (decoded true users_as_posts_id));
      [by left|by vm_compute|by vm_compute].
  - apply (proj2 (proj2 (guarantees_abort (Collab:=collaborators)
                           generate_config join "test" (R_STR "test") tt
                           servers (R_STR "t-1") state0))
             users_renamed (decoded true users_renamed)
             (deletable_make users_md));
      [reflexivity|reflexivity|by vm_compute|by vm_compute].
  - apply (proj2 (proj2 (guarantees_abort (Collab:=collaborators)
                           generate_config join "test" (R_STR "test") tt
                           servers (R_STR "t-1") state_gone))
             fresh_as_users (decoded_on state_gone false fresh_as_users)
             (mark_deleted (deletable_make users_md)));
      [reflexivity|reflexivity|by vm_compute|by vm_compute].
Defined.

Lemma sample_stuck_request (new_value : datum_t) (shard_list : list shard_t) :
  convert_table_config_and_name_from_datum (H:=Stuck.stuck_collaborators)
    generate_config new_value true (table_sl_view Stuck.stuck_state0) tt servers
  = Ok (Stuck.decoded_users shard_list) ->
  update_request (H:=Stuck.stuck_collaborators) generate_config tt servers
    (R_STR "t-1") new_value Stuck.stuck_state0 1%N
    (deletable_make Stuck.stuck_users_md) (Stuck.decoded_users shard_list).
Proof. intros Hd. by repeat split. Qed.

Lemma collaborator_failures_abort_witness :
  run_write_row (R_STR "t-3") true (Some fresh_in_nowhere) state0
    = (Err "Database `nowhere` does not exist.", state0) /\
  Stuck.stuck_run_write_row (R_STR "t-1") false (Some Stuck.users_two_shards)
    Stuck.stuck_state0
    = (Err "The table is too small to be split.", Stuck.stuck_state0) /\
  Stuck.stuck_run_write_row (R_STR "t-1") false (Some Stuck.users_three_shards)
    Stuck.stuck_state0
    = (Interrupted, Stuck.stuck_state0).
Proof.
  split; [|split].
  - apply (proj1 (collaborator_failures_abort (Collab:=collaborators)
                    generate_config join "test" (R_STR "test") tt servers
                    (R_STR "t-3") fresh_in_nowhere state0
                    (decoded false fresh_in_nowhere)));
      [reflexivity|reflexivity|by vm_compute|by vm_compute|by vm_compute].
  - apply (proj2 (collaborator_failures_abort
                    (Collab:=Stuck.stuck_collaborators)
                    generate_config Stuck.stuck_join "test" (R_STR "test") tt
                    servers (R_STR "t-1") Stuck.users_two_shards Stuck.stuck_state0
                    (Stuck.decoded_users [shard_a; shard_b]))
             (deletable_make Stuck.stuck_users_md)
             (Err "The table is too small to be split."));
      [apply sample_stuck_request; by vm_compute|reflexivity|reflexivity|
       done|reflexivity].
  - apply (proj2 (collaborator_failures_abort
                    (Collab:=Stuck.stuck_collaborators)
                    generate_config Stuck.stuck_join "test" (R_STR "test") tt
                    servers (R_STR "t-1") Stuck.users_three_shards
                    Stuck.stuck_state0
                    (Stuck.decoded_users [shard_a; shard_b; shard_ab]))
             (deletable_make Stuck.stuck_users_md) Interrupted);
      [apply sample_stuck_request; by vm_compute|reflexivity|reflexivity|
       done|reflexivity].
Defined.

End MoreExamples.
